(** * document_processor.py: merge, convert and count words

    A shallow embedding of [src/document_processor.py].  The script is a
    linear pipeline over external capabilities (a Word automation session,
    a PDF merger, a PDF reader, a PDF-to-document converter, a temporary
    directory, the console).  Those capabilities are modelled by a [World]
    that the functions of the script thread through a small state monad
    with exceptions and early return; every call that leaves the script is
    recorded in a trace and may fail as an oracle of the world decides.

    The progress bars ([tqdm]) and the logging levels set at import time
    act on nothing that is modelled, and are left out. *)

From Stdlib Require Import Ascii String List Arith Lia Bool.
From stdpp Require Import base option list gmap sets strings pretty.

Import ListNotations.
Local Open Scope string_scope.
Local Open Scope list_scope.

(** ** Python strings

    A [str] is a [string]; the character-level functions work on its list
    of characters.  Characters are 8-bit, so case mapping and character
    classes are the ASCII ones: on strings of ASCII characters these
    functions are Python's, on others they are not ([str.lower] and [re]
    follow the Unicode tables).  The module [Unicode] below has the counting
    expression over code points, and [count_word_of_string] relates the
    two. *)

Module PyStr.

Definition chars (s : string) : list ascii := list_ascii_of_string s.
Definition of_chars (l : list ascii) : string := string_of_list_ascii l.

Definition in_range (lo hi : nat) (c : ascii) : bool :=
  Nat.leb lo (nat_of_ascii c) && Nat.leb (nat_of_ascii c) hi.

Definition is_upper (c : ascii) : bool := in_range 65 90 c.
Definition is_lower (c : ascii) : bool := in_range 97 122 c.
Definition is_digit (c : ascii) : bool := in_range 48 57 c.
Definition is_alnum (c : ascii) : bool := is_upper c || is_lower c || is_digit c.

(** [str.isspace] on one character: tab to carriage return, the four
    separators 28..31, and the space. *)
Definition is_space (c : ascii) : bool :=
  in_range 9 13 c || in_range 28 32 c.

Definition lower_char (c : ascii) : ascii :=
  if is_upper c then ascii_of_nat (nat_of_ascii c + 32) else c.

(** [s.lower()] *)
Definition lower (s : string) : string := of_chars (map lower_char (chars s)).

Fixpoint lstrip_chars (l : list ascii) : list ascii :=
  match l with
  | c :: l' => if is_space c then lstrip_chars l' else l
  | [] => []
  end.

(** [s.strip()] *)
Definition strip (s : string) : string :=
  of_chars (rev (lstrip_chars (rev (lstrip_chars (chars s))))).

Fixpoint starts_with (p l : list ascii) : bool :=
  match p, l with
  | [], _ => true
  | a :: p', b :: l' => Ascii.eqb a b && starts_with p' l'
  | _ :: _, [] => false
  end.

(** [s.endswith(suffix)] *)
Definition endswith (s suffix : string) : bool :=
  starts_with (rev (chars suffix)) (rev (chars s)).

(** [s.startswith(prefix)] *)
Definition startswith (s pre : string) : bool :=
  starts_with (chars pre) (chars s).

(** [format(s, '^width')]: the padding is split with the smaller half on
    the left. *)
Definition center (width : nat) (s : string) : string :=
  let pad := width - String.length s in
  let left := pad / 2 in
  of_chars (repeat " "%char left) +:+ s +:+ of_chars (repeat " "%char (pad - left)).

(** ["c" * n] *)
Definition times (c : ascii) (n : nat) : string := of_chars (repeat c n).

End PyStr.

(** ** os.path

    The script runs where the Word automation interface exists, so paths
    follow [ntpath]: both slashes separate components and [join] inserts a
    backslash.  Drive letters are not modelled. *)

Module OsPath.
Import PyStr.

Definition is_sep (c : ascii) : bool :=
  Ascii.eqb c "\"%char || Ascii.eqb c "/"%char.

(** Characters after the last separator, given the reversed path. *)
Fixpoint take_until_sep (r : list ascii) : list ascii :=
  match r with
  | [] => []
  | c :: r' => if is_sep c then [] else c :: take_until_sep r'
  end.

(** [os.path.basename] *)
Definition basename (p : string) : string :=
  of_chars (rev (take_until_sep (rev (chars p)))).

(** [os.path.dirname]: what precedes the last separator, without the
    trailing separators (an all-separator head is kept). *)
Fixpoint drop_until_sep (r : list ascii) : list ascii :=
  match r with
  | [] => []
  | c :: r' => if is_sep c then r else drop_until_sep r'
  end.

Fixpoint drop_seps (r : list ascii) : list ascii :=
  match r with
  | c :: r' => if is_sep c then drop_seps r' else r
  | [] => []
  end.

Definition dirname (p : string) : string :=
  let head := drop_until_sep (rev (chars p)) in
  match drop_seps head with
  | [] => of_chars (rev head)
  | h => of_chars (rev h)
  end.

(** [genericpath._splitext] on a name [n] given as a list of characters:
    the extension starts at the last dot of the last component, unless only
    dots precede it there.  [ext_rev] scans the reversed path and returns
    the reversed extension (without its dot) and the reversed root. *)
Fixpoint ext_rev (r : list ascii) : option (list ascii * list ascii) :=
  match r with
  | [] => None
  | c :: r' =>
      if is_sep c then None
      else if Ascii.eqb c "."%char then Some ([], r')
      else match ext_rev r' with
           | Some (e, root) => Some (c :: e, root)
           | None => None
           end
  end.

Definition all_dots (l : list ascii) : bool :=
  forallb (fun c => Ascii.eqb c "."%char) l.

(** [os.path.splitext] *)
Definition splitext (p : string) : string * string :=
  match ext_rev (rev (chars p)) with
  | Some (e, root) =>
      if all_dots (take_until_sep root) then (p, "")
      else (of_chars (rev root), of_chars ("."%char :: rev e))
  | None => (p, "")
  end.

(** [os.path.join] of two components. *)
Definition join (a b : string) : string :=
  match chars b with
  | c :: _ =>
      if is_sep c then b
      else match rev (chars a) with
           | [] => b
           | l :: _ => if is_sep l || Ascii.eqb l ":"%char then a +:+ b
                       else a +:+ "\" +:+ b
           end
  | [] =>
      match rev (chars a) with
      | [] => b
      | l :: _ => if is_sep l || Ascii.eqb l ":"%char then a else a +:+ "\"
      end
  end.

End OsPath.

(** ** The [re] module, as far as the script uses it

    The only pattern the script builds is
    [r'\b' + re.escape(word) + r'\b'], searched with [re.IGNORECASE].
    [escape] is the library's; [parse] reads the fragment of the pattern
    language that such patterns live in (literal characters, escaped
    punctuation and the word-boundary assertion) and refuses anything
    else, which the engine modelled here would not know how to run. *)

Module Re.
Import PyStr.

(** The characters [re.escape] puts a backslash before. *)
Definition special_chars : list ascii :=
  chars "()[]{}?*+-|^$\.&~# " ++
  [ascii_of_nat 9; ascii_of_nat 10; ascii_of_nat 13; ascii_of_nat 11; ascii_of_nat 12].

Definition is_special (c : ascii) : bool :=
  existsb (Ascii.eqb c) special_chars.

Definition escape_chars (l : list ascii) : list ascii :=
  flat_map (fun c => if is_special c then ["\"%char; c] else [c]) l.

(** [re.escape(s)] *)
Definition escape (s : string) : string := of_chars (escape_chars (chars s)).

(** Characters with a meaning of their own in a pattern. *)
Definition is_meta (c : ascii) : bool :=
  existsb (Ascii.eqb c) (chars ".^$*+?{}[]\|()").

Inductive item : Type :=
  | Boundary
  | Lit (c : ascii).

Definition regex : Type := list item.

(** A backslash before a letter or digit is a class, an assertion or a
    group reference: only [\b] is supported.  A backslash before anything
    else makes that character literal. *)
Fixpoint parse (p : list ascii) : option regex :=
  match p with
  | [] => Some []
  | c :: p' =>
      if Ascii.eqb c "\"%char then
        match p' with
        | [] => None
        | e :: p'' =>
            if Ascii.eqb e "b"%char then cons Boundary <$> parse p''
            else if is_alnum e then None
            else cons (Lit e) <$> parse p''
        end
      else if is_meta c then None
      else cons (Lit c) <$> parse p'
  end.

(** [\w] *)
Definition is_word_char (c : ascii) : bool :=
  is_alnum c || Ascii.eqb c "_"%char.

Definition is_word (o : option ascii) : bool :=
  match o with
  | Some c => is_word_char c
  | None => false
  end.

(** [\b] holds between [prev] and [next] when exactly one of them is a word
    character; the ends of the text count as non-word. *)
Definition at_boundary (prev next : option ascii) : bool :=
  xorb (is_word prev) (is_word next).

(** A literal against a character of the text.  Under [re.IGNORECASE] the
    two are compared after the ASCII case mapping (see [Unicode.char_eq]
    for code points). *)
Definition char_eq (ignorecase : bool) (a b : ascii) : bool :=
  if ignorecase then Ascii.eqb (lower_char a) (lower_char b) else Ascii.eqb a b.

(** Match the pattern at the current position: [prev] is the character
    before it and [s] the rest of the text.  The result is the matched
    text. *)
Fixpoint match_here (ignorecase : bool) (r : regex) (prev : option ascii)
    (s : list ascii) : option (list ascii) :=
  match r with
  | [] => Some []
  | Boundary :: r' =>
      if at_boundary prev (head s) then match_here ignorecase r' prev s else None
  | Lit c :: r' =>
      match s with
      | x :: s' =>
          if char_eq ignorecase c x
          then cons x <$> match_here ignorecase r' (Some x) s'
          else None
      | [] => None
      end
  end.

(** Scan left to right for non-overlapping matches.  [skip] counts the
    characters of the last match that are still to be stepped over; an
    empty match is followed by a step of one character. *)
Fixpoint scan (ignorecase : bool) (r : regex) (prev : option ascii)
    (s : list ascii) (skip : nat) : list (list ascii) :=
  match skip with
  | S k =>
      match s with
      | [] => []
      | x :: s' => scan ignorecase r (Some x) s' k
      end
  | O =>
      match match_here ignorecase r prev s with
      | Some m =>
          m :: match s with
               | [] => []
               | x :: s' => scan ignorecase r (Some x) s' (pred (length m))
               end
      | None =>
          match s with
          | [] => []
          | x :: s' => scan ignorecase r (Some x) s' 0
          end
      end
  end.

(** [re.findall(pattern, text, flags)], with [None] for [re.error]. *)
Definition findall (pattern text : string) (ignorecase : bool)
    : option (list string) :=
  r ← parse (chars pattern);
  Some (map of_chars (scan ignorecase r None (chars text) 0)).

End Re.

(** ** The world outside the script *)

(** What a file holds.  A PDF and a word-processor document are their
    sequences of pages, a page being its extractable text; a text file is
    the sequence of lines printed to it. *)
Inductive content : Type :=
  | PdfDoc (pages : list string)
  | WordDoc (pages : list string)
  | TextFile (lines : list string)
  | Blob.

(** The calls that leave the script, in the order of the source. *)
Inductive event : Type :=
  | EvDispatch                                  (* win32com.client.Dispatch *)
  | EvOpen (docx_file : string)                 (* word.Documents.Open *)
  | EvSaveAs (docx_file output_pdf : string)    (* doc.SaveAs(.., FileFormat=17) *)
  | EvClose (docx_file : string)                (* doc.Close *)
  | EvQuit                                      (* word.Quit *)
  | EvMergerNew                                 (* PdfMerger() *)
  | EvMergerAppend (pdf : string)               (* merger.append *)
  | EvMergerWrite (output_pdf : string) (pages : list string) (* merger.write *)
  | EvMergerClose                               (* merger.close *)
  | EvConverterNew (pdf_file : string)          (* Converter(pdf_file) *)
  | EvConvert (pdf_file output_file : string)   (* cv.convert *)
  | EvConverterClose                            (* cv.close *)
  | EvReaderNew (pdf_file : string)             (* PdfReader(pdf_file) *)
  | EvExtractText (pdf_file : string)            (* page.extract_text *)
  | EvMkdtemp (dir : string)                    (* TemporaryDirectory.__enter__ *)
  | EvCleanup (dir : string)                    (* TemporaryDirectory.__exit__ *)
  | EvFileWrite (path : string)                 (* open(path, "w") ... write *)
  | EvSleep (seconds : nat).                    (* time.sleep *)

Record World : Type := mkWorld {
  (* the machine *)
  fs : gmap string content;         (* files, by path *)
  dirs : gset string;               (* directories *)
  stdin : list string;              (* lines the user will type *)
  console : list string;            (* lines and prompts printed so far *)
  clock : nat;                      (* seconds *)
  word_sessions : nat;              (* running Word.Application sessions *)
  open_documents : list string;     (* documents open in Word *)
  trace : list event;               (* external calls so far, oldest first *)
  (* the interpreter *)
  output_capture : list string;     (* the StringIO, one entry per print *)
  (* the environment *)
  faulty : nat -> event -> option string;
                                    (* does the n-th external call raise? *)
  tmp_name : string;                (* the name mkdtemp picks *)
  home : string                     (* expanduser("~") *)
}.

Definition set_fs (f : gmap string content -> gmap string content) (w : World) : World :=
  mkWorld (f (fs w)) (dirs w) (stdin w) (console w) (clock w) (word_sessions w)
    (open_documents w) (trace w) (output_capture w) (faulty w) (tmp_name w) (home w).
Definition set_dirs (f : gset string -> gset string) (w : World) : World :=
  mkWorld (fs w) (f (dirs w)) (stdin w) (console w) (clock w) (word_sessions w)
    (open_documents w) (trace w) (output_capture w) (faulty w) (tmp_name w) (home w).
Definition set_stdin (f : list string -> list string) (w : World) : World :=
  mkWorld (fs w) (dirs w) (f (stdin w)) (console w) (clock w) (word_sessions w)
    (open_documents w) (trace w) (output_capture w) (faulty w) (tmp_name w) (home w).
Definition set_console (f : list string -> list string) (w : World) : World :=
  mkWorld (fs w) (dirs w) (stdin w) (f (console w)) (clock w) (word_sessions w)
    (open_documents w) (trace w) (output_capture w) (faulty w) (tmp_name w) (home w).
Definition set_clock (f : nat -> nat) (w : World) : World :=
  mkWorld (fs w) (dirs w) (stdin w) (console w) (f (clock w)) (word_sessions w)
    (open_documents w) (trace w) (output_capture w) (faulty w) (tmp_name w) (home w).
Definition set_word_sessions (f : nat -> nat) (w : World) : World :=
  mkWorld (fs w) (dirs w) (stdin w) (console w) (clock w) (f (word_sessions w))
    (open_documents w) (trace w) (output_capture w) (faulty w) (tmp_name w) (home w).
Definition set_open_documents (f : list string -> list string) (w : World) : World :=
  mkWorld (fs w) (dirs w) (stdin w) (console w) (clock w) (word_sessions w)
    (f (open_documents w)) (trace w) (output_capture w) (faulty w) (tmp_name w) (home w).
Definition set_trace (f : list event -> list event) (w : World) : World :=
  mkWorld (fs w) (dirs w) (stdin w) (console w) (clock w) (word_sessions w)
    (open_documents w) (f (trace w)) (output_capture w) (faulty w) (tmp_name w) (home w).
Definition set_output_capture (f : list string -> list string) (w : World) : World :=
  mkWorld (fs w) (dirs w) (stdin w) (console w) (clock w) (word_sessions w)
    (open_documents w) (trace w) (f (output_capture w)) (faulty w) (tmp_name w) (home w).

(** ** Control: a statement completes, returns from its function, or
    raises an [Exception] (carrying [str(e)]) *)

Inductive ctl (A : Type) : Type :=
  | Next (a : A)
  | Returned
  | Raised (e : string).
Arguments Next {A} a.
Arguments Returned {A}.
Arguments Raised {A} e.

Definition M (A : Type) : Type := World -> ctl A * World.

Definition ret {A} (a : A) : M A := fun w => (Next a, w).
Definition raise {A} (e : string) : M A := fun w => (Raised e, w).
Definition return_ {A} : M A := fun w => (Returned, w).

Definition bind {A B} (m : M A) (k : A -> M B) : M B := fun w =>
  match m w with
  | (Next a, w') => k a w'
  | (Returned, w') => (Returned, w')
  | (Raised e, w') => (Raised e, w')
  end.

Declare Scope py_scope.
Delimit Scope py_scope with py.
Notation "x <- m ;; k" := (bind m (fun x => k))
  (at level 100, m at next level, right associativity) : py_scope.
Notation "m ;; k" := (bind m (fun _ => k))
  (at level 100, right associativity) : py_scope.
Local Open Scope py_scope.

Definition get : M World := fun w => (Next w, w).
Definition modify (f : World -> World) : M unit := fun w => (Next tt, f w).

(** [try: body except Exception as e: handler(e)] *)
Definition try_except {A} (body : M A) (handler : string -> M A) : M A := fun w =>
  match body w with
  | (Raised e, w') => handler e w'
  | r => r
  end.

(** [try: body finally: final] (the [finally] clauses of the script neither
    raise nor return) *)
Definition try_finally {A} (body : M A) (final : M unit) : M A := fun w =>
  match body w with
  | (r, w') => match final w' with
               | (Next _, w'') => (r, w'')
               | (Returned, w'') => (Returned, w'')
               | (Raised e, w'') => (Raised e, w'')
               end
  end.

(** A function call: a [return] inside the body ends the body, not the
    caller. *)
Definition call (body : M unit) : M unit := fun w =>
  match body w with
  | (Returned, w') => (Next tt, w')
  | r => r
  end.

(** [for x in xs: body], the variables the body assigns carried in [s]. *)
Fixpoint for_each {A S} (xs : list A) (body : S -> A -> M S) (s : S) : M S :=
  match xs with
  | [] => ret s
  | x :: xs' => s' <- body s x ;; for_each xs' body s'
  end.

(** An external call: it is recorded, and raises when the oracle says so. *)
Definition external (ev : event) : M unit := fun w =>
  let w' := set_trace (fun t => t ++ [ev]) w in
  match faulty w (length (trace w)) ev with
  | Some e => (Raised e, w')
  | None => (Next tt, w')
  end.

(** ** The interpreter and the standard library *)

(** [datetime.now()]: the clock is read; time passes only in [time.sleep]. *)
Definition datetime_now : M nat := fun w => (Next (clock w), w).

(** Clock readings are printed as a number of seconds; the calendar
    layout of [strftime] and of [str(datetime)] is not modelled. *)
Definition strftime (t : nat) : string := pretty t.

(** [time.sleep] *)
Definition time_sleep (seconds : nat) : M unit := fun w =>
  (Next tt, set_clock (fun t => t + seconds) (set_trace (fun t => t ++ [EvSleep seconds]) w)).

(** [print(line)] *)
Definition print (line : string) : M unit :=
  modify (set_console (fun c => c ++ [line])).

(** [print(line, file=output_capture)] *)
Definition print_to_capture (line : string) : M unit :=
  modify (set_output_capture (fun b => b ++ [line])).

(** [input(prompt)]: [EOFError] when no line is left. *)
Definition input (prompt : string) : M string := fun w =>
  let w1 := set_console (fun c => c ++ [prompt]) w in
  match stdin w with
  | [] => (Raised "EOF when reading a line", w1)
  | line :: rest => (Next line, set_stdin (fun _ => rest) w1)
  end.

(** [os.path.isdir(p)] *)
Definition os_path_isdir (p : string) : M bool := fun w =>
  (Next (bool_decide (p ∈ dirs w)), w).

(** [os.path.exists(p)] *)
Definition os_path_exists (p : string) : M bool := fun w =>
  (Next (bool_decide (is_Some (fs w !! p)) || bool_decide (p ∈ dirs w)), w).

(** [os.path.expanduser("~")] *)
Definition expanduser_home : M string := fun w => (Next (home w), w).

(** [os.path.abspath]: the paths of the script are absolute already. *)
Definition abspath (p : string) : string := p.

(** [with open(path, "w") as f: f.write(text)] *)
Definition write_file (path : string) (lines : list string) : M unit :=
  external (EvFileWrite path) ;;
  modify (set_fs (<[path := TextFile lines]>)).

(** *** glob *)

(** [fnmatch] of a name against a pattern whose only wildcard is a leading
    star; names are compared case-folded, as [ntpath.normcase] does. *)
Definition fnmatch (name pat : string) : bool :=
  match PyStr.chars pat with
  | c :: suffix =>
      if Ascii.eqb c "*"%char
      then PyStr.endswith (PyStr.lower name) (PyStr.lower (PyStr.of_chars suffix))
      else String.eqb (PyStr.lower name) (PyStr.lower pat)
  | [] => String.eqb name ""
  end.

Definition no_sep (name : string) : bool :=
  forallb (fun c => negb (OsPath.is_sep c)) (PyStr.chars name).

(** Does the file [p] lie directly in the directory of [pattern] and match
    its last component?  Hidden names do not match a star. *)
Definition glob_matches (pattern p : string) : bool :=
  let pat_base := OsPath.basename pattern in
  let pat_dir := String.substring 0 (String.length pattern - String.length pat_base) pattern in
  let name := String.substring (String.length pat_dir) (String.length p) p in
  String.eqb p (pat_dir +:+ name)
  && negb (String.eqb name "") && no_sep name
  && negb (PyStr.startswith name ".")
  && fnmatch name pat_base.

(** The files a pattern selects, in the order the directory lists them. *)
Definition glob_files (pattern : string) (w : World) : list string :=
  List.filter (glob_matches pattern) (map fst (map_to_list (fs w))).

(** [glob.glob(pattern)] *)
Definition glob (pattern : string) : M (list string) := fun w =>
  (Next (glob_files pattern w), w).

(** *** tempfile *)

(** Is [p] the directory [dir] or something below it? *)
Definition inside (dir p : string) : bool :=
  String.eqb p dir
  || (PyStr.startswith p dir
      && (match rev (PyStr.chars dir) with
          | l :: _ => OsPath.is_sep l
          | [] => false
          end
          || match PyStr.chars (String.substring (String.length dir) (String.length p) p) with
             | c :: _ => OsPath.is_sep c
             | [] => false
             end)).

Definition mkdtemp (w : World) : World :=
  set_dirs (fun d => {[tmp_name w]} ∪ d) (set_trace (fun t => t ++ [EvMkdtemp (tmp_name w)]) w).

(** [shutil.rmtree] *)
Definition rmtree (dir : string) (w : World) : World :=
  set_fs (filter (fun kv => inside dir kv.1 = false))
    (set_dirs (filter (fun d => inside dir d = false))
       (set_trace (fun t => t ++ [EvCleanup dir]) w)).

(** [with tempfile.TemporaryDirectory() as temp_dir: body]: the directory
    is removed however the body ends.  Creating and removing it do not
    fail. *)
Definition with_temporary_directory {A} (body : string -> M A) : M A := fun w =>
  let temp_dir := tmp_name w in
  match body temp_dir (mkdtemp w) with
  | (r, w') => (r, rmtree temp_dir w')
  end.

(** *** dict: insertion-ordered, one entry per key *)

Definition dict : Type := list (string * nat).

(** [d[k] = v] *)
Fixpoint dict_set (k : string) (v : nat) (d : dict) : dict :=
  match d with
  | [] => [(k, v)]
  | (k', v') :: d' =>
      if String.eqb k k' then (k', v) :: d' else (k', v') :: dict_set k v d'
  end.

Fixpoint dict_get (k : string) (d : dict) : option nat :=
  match d with
  | [] => None
  | (k', v') :: d' => if String.eqb k k' then Some v' else dict_get k d'
  end.

(** [d[k]], with its [KeyError] *)
Definition dict_getitem (k : string) (d : dict) : M nat :=
  match dict_get k d with
  | Some v => ret v
  | None => raise ("'" +:+ k +:+ "'")
  end.

(** ** The external libraries *)

Module Word.

(** [win32com.client.Dispatch('Word.Application')] *)
Definition Dispatch : M unit :=
  external EvDispatch ;;
  modify (set_word_sessions S).

(** [word.Documents.Open(docx_file)]: the handle is the document's pages. *)
Definition Documents_Open (docx_file : string) : M (list string) :=
  external (EvOpen docx_file) ;;
  w <- get ;;
  match fs w !! docx_file with
  | Some (WordDoc pages) =>
      modify (set_open_documents (cons docx_file)) ;;
      ret pages
  | _ => raise ("cannot open " +:+ docx_file)
  end.

(** [doc.SaveAs(output_pdf, FileFormat=17)] *)
Definition SaveAs (docx_file : string) (doc : list string) (output_pdf : string) : M unit :=
  external (EvSaveAs docx_file output_pdf) ;;
  modify (set_fs (<[output_pdf := PdfDoc doc]>)).

Fixpoint remove_first (x : string) (l : list string) : list string :=
  match l with
  | [] => []
  | y :: l' => if String.eqb x y then l' else y :: remove_first x l'
  end.

(** [doc.Close()] *)
Definition Close (docx_file : string) : M unit :=
  external (EvClose docx_file) ;;
  modify (set_open_documents (remove_first docx_file)).

(** [word.Quit()] *)
Definition Quit : M unit :=
  external EvQuit ;;
  modify (set_word_sessions pred).

End Word.

Module PyPDF2.

(** A merger is the sequence of pages appended so far. *)
Definition PdfMerger : M (list string) :=
  external EvMergerNew ;;
  ret [].

(** [merger.append(pdf)]: the file is read when it is appended. *)
Definition append (merger : list string) (pdf : string) : M (list string) :=
  external (EvMergerAppend pdf) ;;
  w <- get ;;
  match fs w !! pdf with
  | Some (PdfDoc pages) => ret (merger ++ pages)
  | _ => raise ("cannot read " +:+ pdf)
  end.

(** [merger.write(output_pdf)] *)
Definition write (merger : list string) (output_pdf : string) : M unit :=
  external (EvMergerWrite output_pdf merger) ;;
  modify (set_fs (<[output_pdf := PdfDoc merger]>)).

(** [merger.close()] *)
Definition close : M unit := external EvMergerClose.

(** [PdfReader(pdf_file).pages] *)
Definition PdfReader (pdf_file : string) : M (list string) :=
  external (EvReaderNew pdf_file) ;;
  w <- get ;;
  match fs w !! pdf_file with
  | Some (PdfDoc pages) => ret pages
  | _ => raise ("cannot read " +:+ pdf_file)
  end.

(** [page.extract_text()] *)
Definition extract_text (pdf_file : string) (page : string) : M string :=
  external (EvExtractText pdf_file) ;;
  ret page.

End PyPDF2.

Module Pdf2docx.

(** [Converter(pdf_file)] *)
Definition Converter (pdf_file : string) : M (list string) :=
  external (EvConverterNew pdf_file) ;;
  w <- get ;;
  match fs w !! pdf_file with
  | Some (PdfDoc pages) => ret pages
  | _ => raise ("cannot read " +:+ pdf_file)
  end.

(** [cv.convert(output_file, start=0, end=None)] *)
Definition convert (pdf_file : string) (cv : list string) (output_file : string) : M unit :=
  external (EvConvert pdf_file output_file) ;;
  modify (set_fs (<[output_file := WordDoc cv]>)).

(** [cv.close()] *)
Definition close : M unit := external EvConverterClose.

End Pdf2docx.

(** ** The script *)

Definition nl : string := String (ascii_of_nat 10) "".

(** [log_output(message)] *)
Definition log_output (message : string) : M unit :=
  now <- datetime_now ;;
  let timestamp := strftime now in
  let formatted_message := "[" +:+ timestamp +:+ "] " +:+ message in
  print formatted_message ;;
  print_to_capture formatted_message.

(** [display_intro()] *)
Definition display_intro : M unit :=
  let border := "+" +:+ PyStr.times "-" 78 +:+ "+" in
  let title := "Document Merger, Converter, and Word Counter" in
  let creator := "Script created by Christopher D. van der Kaay, Ph.D. (August 15, 2024)" in
  log_output border ;;
  log_output ("|" +:+ PyStr.center 78 title +:+ "|") ;;
  log_output ("|" +:+ PyStr.center 78 creator +:+ "|") ;;
  log_output border ;;
  log_output ("|" +:+ PyStr.times " " 78 +:+ "|") ;;
  log_output "| This script performs the following tasks:                                     |" ;;
  log_output "| 1. Converts all DOC and DOCX files in a specified input folder to PDF format. |" ;;
  log_output "| 2. Merges all PDF files (including the newly converted ones) into a single    |" ;;
  log_output "|    PDF.                                                                       |" ;;
  log_output "| 3. Converts the merged PDF back into a DOCX file.                             |" ;;
  log_output "| 4. Counts the frequency of user-specified words in the final document.        |" ;;
  log_output "|    (Case-insensitive matching)                                                |" ;;
  log_output "| 5. Generates a timestamped audit log file of all operations.                  |" ;;
  log_output ("|" +:+ PyStr.times " " 78 +:+ "|") ;;
  log_output "| The script will prompt you for:                                               |" ;;
  log_output "| 1. The input folder containing the files to be processed                      |" ;;
  log_output "| 2. The name of the final output DOCX file  e.g., merged_doc.docx              |" ;;
  log_output "| 3. Words to search for in the final document                                  |" ;;
  log_output ("|" +:+ PyStr.times " " 78 +:+ "|") ;;
  log_output "| The final DOCX file and audit log will be saved in your Documents folder.     |" ;;
  log_output "| The audit log (audit_log.txt) contains a detailed record of all operations    |" ;;
  log_output "| performed by the script, including timestamps and any errors encountered.     |" ;;
  log_output border ;;
  _ <- input "Press Enter to begin..." ;;
  ret tt.

(** [convert_docx_to_pdf(docx_file, output_dir)] *)
Definition convert_docx_to_pdf (docx_file output_dir : string) : M string :=
  Word.Dispatch ;;
  doc <- Word.Documents_Open docx_file ;;
  let output_pdf :=
    OsPath.join output_dir
      ((OsPath.splitext (OsPath.basename docx_file)).1 +:+ ".pdf") in
  Word.SaveAs docx_file doc output_pdf ;;
  Word.Close docx_file ;;
  Word.Quit ;;
  ret output_pdf.

(** [merge_pdfs(pdf_files, output_pdf)] *)
Definition merge_pdfs (pdf_files : list string) (output_pdf : string) : M unit :=
  merger <- PyPDF2.PdfMerger ;;
  merger <- for_each pdf_files (fun merger pdf => PyPDF2.append merger pdf) merger ;;
  PyPDF2.write merger output_pdf ;;
  PyPDF2.close.

(** [convert_pdf_to_docx(pdf_file, output_file)] *)
Definition convert_pdf_to_docx (pdf_file output_file : string) : M unit :=
  cv <- Pdf2docx.Converter pdf_file ;;
  Pdf2docx.convert pdf_file cv output_file ;;
  Pdf2docx.close.

(** [file.lower().endswith(('.docx', '.doc'))] and
    [file.lower().endswith('.pdf')] *)
Definition is_word_file (file : string) : bool :=
  PyStr.endswith (PyStr.lower file) ".docx" || PyStr.endswith (PyStr.lower file) ".doc".

Definition is_pdf_file (file : string) : bool :=
  PyStr.endswith (PyStr.lower file) ".pdf".

(** [ensure_pdf_format(files, output_dir)] *)
Definition ensure_pdf_format (files : list string) (output_dir : string)
    : M (list string) :=
  for_each files (fun pdf_files file =>
    try_except
      (if is_word_file file then
         pdf_file <- convert_docx_to_pdf file output_dir ;;
         let pdf_files := pdf_files ++ [pdf_file] in
         log_output ("Converted " +:+ file +:+ " to PDF") ;;
         ret pdf_files
       else if is_pdf_file file then
         let pdf_files := pdf_files ++ [file] in
         log_output ("Added existing PDF: " +:+ file) ;;
         ret pdf_files
       else
         log_output ("Skipping unsupported file format: " +:+ file) ;;
         ret pdf_files)
      (fun e =>
         log_output ("Error processing file " +:+ file +:+ ": " +:+ e) ;;
         ret pdf_files))
    [].

(** The [while True] loop of [get_words_to_search].  Every iteration reads
    one line, so the lines still to be typed bound the iterations: the
    recursion is on them.  [pending] is the input not yet read when the loop
    is entered; its empty case stands after an [input] that has raised
    already. *)
Fixpoint read_words (pending : list string) (words : list string) : M (list string) :=
  line <- input "" ;;
  let word := PyStr.lower (PyStr.strip line) in
  if String.eqb word "" then ret words
  else
    match pending with
    | [] => raise "EOF when reading a line"
    | _ :: pending' =>
        let words := words ++ [word] in
        log_output ("Added search word: " +:+ word) ;;
        read_words pending' words
    end.

(** [get_words_to_search()] *)
Definition get_words_to_search : M (list string) :=
  log_output "Enter words to search for (one per line). Press Enter on a blank line to finish:" ;;
  w <- get ;;
  read_words (stdin w) [].

(** [len(re.findall(r'\b' + re.escape(word) + r'\b', text, re.IGNORECASE))] *)
Definition count_matches (word text : string) : M nat :=
  match Re.findall ("\b" +:+ Re.escape word +:+ "\b") text true with
  | Some found => ret (length found)
  | None => raise "re.error"
  end.

(** [count_word_frequency(pdf_file, words_to_search)] *)
Definition count_word_frequency (pdf_file : string) (words_to_search : list string)
    : M dict :=
  let word_counts := fold_left (fun d word => dict_set word 0 d) words_to_search [] in
  pages <- PyPDF2.PdfReader pdf_file ;;
  for_each pages (fun word_counts page =>
    text <- PyPDF2.extract_text pdf_file page ;;
    let text := PyStr.lower text in
    for_each words_to_search (fun word_counts word =>
      old <- dict_getitem word word_counts ;;
      found <- count_matches word text ;;
      ret (dict_set word (old + found) word_counts))
      word_counts)
    word_counts.

(** The body of the [with] block of [main], [temp_dir] being the
    temporary directory. *)
Definition main_with_body (input_dir output_file temp_dir : string) : M unit :=
  docx <- glob (OsPath.join input_dir "*.docx") ;;
  doc <- glob (OsPath.join input_dir "*.doc") ;;
  pdf <- glob (OsPath.join input_dir "*.pdf") ;;
  let input_files := docx ++ doc ++ pdf in
  match input_files with
  | [] =>
      log_output "No DOC, DOCX, or PDF files found in the directory." ;;
      return_
  | _ :: _ =>
      log_output "Ensuring all files are in PDF format..." ;;
      pdf_files <- ensure_pdf_format input_files temp_dir ;;
      let merged_pdf := OsPath.join temp_dir "merged.pdf" in
      log_output "Merging PDF files..." ;;
      merge_pdfs pdf_files merged_pdf ;;
      log_output "Converting merged PDF to DOCX..." ;;
      convert_pdf_to_docx merged_pdf output_file ;;
      words_to_search <- get_words_to_search ;;
      match words_to_search with
      | [] => ret tt
      | _ :: _ =>
          word_counts <- count_word_frequency merged_pdf words_to_search ;;
          log_output (nl +:+ "Word Frequency Results:") ;;
          for_each word_counts (fun _ item =>
            log_output ("'" +:+ item.1 +:+ "': " +:+ pretty item.2 +:+ " occurrences"))
            tt
      end
  end.

(** [main(input_dir, output_file)] *)
Definition main (input_dir output_file : string) : M unit :=
  call
    (try_finally
       (try_except
          (log_output ("Analysis started for input directory: " +:+ input_dir) ;;
           with_temporary_directory (main_with_body input_dir output_file) ;;
           log_output ("Merged document saved as " +:+ output_file))
          (fun e => log_output ("An error occurred: " +:+ e)))
       (time_sleep 2)).

(** The body under [if __name__ == "__main__":] *)
Definition script : M unit :=
  start_time <- datetime_now ;;
  log_output ("Script execution started at " +:+ strftime start_time) ;;
  display_intro ;;
  input_folder <- input "Enter the path to the folder containing the files: " ;;
  let input_folder := PyStr.strip input_folder in
  is_dir <- os_path_isdir input_folder ;;
  (if negb is_dir then
     log_output "The provided path is not a valid directory."
   else
     output_docx <- input "Enter the name for the final output DOCX file (e.g., final_document.docx): " ;;
     let output_docx := PyStr.strip output_docx in
     let output_docx :=
       if negb (PyStr.endswith output_docx ".docx") then output_docx +:+ ".docx"
       else output_docx in
     home_dir <- expanduser_home ;;
     let output_docx := OsPath.join (OsPath.join home_dir "Documents") output_docx in
     main input_folder output_docx ;;
     log_output ("File should be saved at: " +:+ abspath output_docx) ;;
     created <- os_path_exists output_docx ;;
     (if created then log_output "File successfully created!"
      else log_output "ERROR! File was not created. Please check the permissions and try again.") ;;
     let audit_log_file := OsPath.join (OsPath.dirname output_docx) "audit_log.txt" in
     w <- get ;;
     write_file audit_log_file (output_capture w) ;;
     log_output ("Audit log file created at: " +:+ audit_log_file)) ;;
  end_time <- datetime_now ;;
  log_output ("Script execution completed at " +:+ strftime end_time) ;;
  log_output ("Total execution time: " +:+ pretty (end_time - start_time)) ;;
  _ <- input (nl +:+ "Press Enter to close the window...") ;;
  ret tt.

(** * Vocabulary of the statements *)

(** The pattern the script searches for a word, once parsed. *)
Definition word_regex (l : list ascii) : Re.regex :=
  Re.Boundary :: map Re.Lit l ++ [Re.Boundary].



(** Whole-word matches of [word] in a page text, as the inner statement of
    [count_word_frequency] counts them in the lowercased text. *)
Definition matches (word text : string) : nat :=
  length (Re.scan true (word_regex (PyStr.chars word)) None
            (PyStr.chars (PyStr.lower text)) 0).

(** Matches of [word] over all the pages. *)
Definition total (word : string) (pages : list string) : nat :=
  foldr (fun page n => matches word page + n) 0 pages.

(** How many times [word] stands in the list of search words. *)
Definition multiplicity (word : string) (words : list string) : nat :=
  length (filter (fun k => k = word) words).

(** The distinct words, each at the place of its first occurrence. *)
Fixpoint first_occurrences (words : list string) : list string :=
  match words with
  | [] => []
  | k :: words' => k :: filter (fun k' => k' <> k) (first_occurrences words')
  end.

(** The dictionary [count_word_frequency] returns for a document of the
    given pages. *)
Definition tally (words pages : list string) : dict :=
  map (fun k => (k, multiplicity k words * total k pages)) (first_occurrences words).

(** The reader can open [pdf_file] and extract its pages. *)
Definition readable (pdf_file : string) (pages : list string) (w : World) : Prop :=
  fs w !! pdf_file = Some (PdfDoc pages)
  /\ forall n, faulty w n (EvReaderNew pdf_file) = None
            /\ faulty w n (EvExtractText pdf_file) = None.


(** Keys are added at the end, and only when new. *)
Definition add_key (ks : list string) (k : string) : list string :=
  if decide (k ∈ ks) then ks else ks ++ [k].


(** The dictionary before the first page, and the effect of one page. *)
Definition init_counts (words : list string) (d : dict) : dict :=
  fold_left (fun d word => dict_set word 0 d) words d.

Definition add_page (words : list string) (page : string) (d : dict) : dict :=
  fold_left
    (fun d word => dict_set word (default 0 (dict_get word d) + matches word page) d)
    words d.

(** The world after the external calls [evs], none of which raised or
    touched a file. *)
Definition emit (evs : list event) (w : World) : World :=
  set_trace (fun t => t ++ evs) w.


(** A world for examples: the given files and directories, the lines the
    user will type, and the calls that fail. *)
Definition sample_world (files : list (string * content)) (directories : list string)
    (typed : list string) (faults : nat -> event -> option string) : World :=
  mkWorld (list_to_map files) (list_to_set directories) typed [] 0 0 [] [] []
    faults "C:\Temp\tmp1" "C:\Users\u".

Definition no_faults : nat -> event -> option string := fun _ _ => None.




(** The merger does not fail in this world. *)
Definition merger_ok (w : World) : Prop :=
  forall n,
    faulty w n EvMergerNew = None
    /\ (forall pdf, faulty w n (EvMergerAppend pdf) = None)
    /\ (forall output_pdf pages, faulty w n (EvMergerWrite output_pdf pages) = None)
    /\ faulty w n EvMergerClose = None.

(** [pdf_files] are PDFs whose page sequences are [pagess], in order. *)
Definition pdfs_of (w : World) (pdf_files : list string) (pagess : list (list string))
    : Prop :=
  Forall2 (fun pdf pages => fs w !! pdf = Some (PdfDoc pages)) pdf_files pagess.


(** What the normalizer is to do, entry by entry: a PDF is passed through,
    a word-processor document is replaced by the PDF its conversion
    returns, an unsupported entry and an entry whose conversion raises are
    logged and left out; in every case the remaining entries follow.
    [normalized dir files w pdf_files w'] relates the entries and the world
    before to the list returned and the world after. *)
Inductive normalized (output_dir : string)
    : list string -> World -> list string -> World -> Prop :=
  | normalized_done w :
      normalized output_dir [] w [] w
  | normalized_converted file files w pdf_file w1 pdf_files w' :
      is_word_file file = true ->
      convert_docx_to_pdf file output_dir w = (Next pdf_file, w1) ->
      normalized output_dir files
        (log_output ("Converted " +:+ file +:+ " to PDF") w1).2 pdf_files w' ->
      normalized output_dir (file :: files) w (pdf_file :: pdf_files) w'
  | normalized_failed file files w e w1 pdf_files w' :
      is_word_file file = true ->
      convert_docx_to_pdf file output_dir w = (Raised e, w1) ->
      normalized output_dir files
        (log_output ("Error processing file " +:+ file +:+ ": " +:+ e) w1).2
        pdf_files w' ->
      normalized output_dir (file :: files) w pdf_files w'
  | normalized_pdf file files w pdf_files w' :
      is_word_file file = false ->
      is_pdf_file file = true ->
      normalized output_dir files
        (log_output ("Added existing PDF: " +:+ file) w).2 pdf_files w' ->
      normalized output_dir (file :: files) w (file :: pdf_files) w'
  | normalized_skipped file files w pdf_files w' :
      is_word_file file = false ->
      is_pdf_file file = false ->
      normalized output_dir files
        (log_output ("Skipping unsupported file format: " +:+ file) w).2
        pdf_files w' ->
      normalized output_dir (file :: files) w pdf_files w'.

(** The path [convert_docx_to_pdf] saves to. *)
Definition pdf_path (docx_file output_dir : string) : string :=
  OsPath.join output_dir
    ((OsPath.splitext (OsPath.basename docx_file)).1 +:+ ".pdf").


(** The PDF that stands for a supported entry after normalizing. *)
Definition normal_form (output_dir file : string) : string :=
  if is_word_file file then pdf_path file output_dir else file.

Definition supported (file : string) : Prop :=
  is_word_file file = true \/ is_pdf_file file = true.


(** The line [log_output] prints for a message at a given time, and the
    world after it has printed it. *)
Definition log_line (now : nat) (message : string) : string :=
  "[" +:+ strftime now +:+ "] " +:+ message.

Definition logged (message : string) (w : World) : World :=
  set_output_capture (fun b => b ++ [log_line (clock w) message])
    (set_console (fun c => c ++ [log_line (clock w) message]) w).

(** The files [main] enumerates in [input_dir]. *)
Definition input_files_of (input_dir : string) (w : World) : list string :=
  glob_files (OsPath.join input_dir "*.docx") w
  ++ glob_files (OsPath.join input_dir "*.doc") w
  ++ glob_files (OsPath.join input_dir "*.pdf") w.

(** The world in which [main] enters the normalizer: the start of the
    analysis is logged, the temporary directory exists, and the step is
    announced. *)
Definition at_normalize (input_dir : string) (w : World) : World :=
  logged "Ensuring all files are in PDF format..."
    (mkdtemp (logged ("Analysis started for input directory: " +:+ input_dir) w)).

(** The paths the script derives from the name typed for the output. *)
Definition output_path (typed_name : string) (w : World) : string :=
  let output_docx := PyStr.strip typed_name in
  let output_docx :=
    if negb (PyStr.endswith output_docx ".docx") then output_docx +:+ ".docx"
    else output_docx in
  OsPath.join (OsPath.join (home w) "Documents") output_docx.

Definition audit_path (typed_name : string) (w : World) : string :=
  OsPath.join (OsPath.dirname (output_path typed_name w)) "audit_log.txt".

Definition is_file_write (ev : event) : bool :=
  match ev with
  | EvFileWrite _ => true
  | _ => false
  end.

(** [w'] is a later world of the same run, reached without writing a file
    through [open]: the environment is the same, and the trace and the
    captured log have only grown. *)
Definition extends (w w' : World) : Prop :=
  faulty w' = faulty w /\ tmp_name w' = tmp_name w /\ home w' = home w
  /\ (exists evs, trace w' = trace w ++ evs
                  /\ Forall (fun ev => is_file_write ev = false) evs)
  /\ (exists lines, output_capture w' = output_capture w ++ lines).

(** A computation that only leads to later worlds. *)
Definition steady {A} (m : M A) : Prop := forall w, extends w (m w).2.

(** Nothing is left of the directory [dir]. *)
Definition removed (dir : string) (w : World) : Prop :=
  forall p, inside dir p = true -> fs w !! p = None /\ p ∉ dirs w.


(** [w'] differs from [w] only by what was printed and captured, and by
    the lines read from the user. *)
Definition talked (w w' : World) : Prop :=
  fs w' = fs w /\ dirs w' = dirs w /\ clock w' = clock w /\ trace w' = trace w
  /\ faulty w' = faulty w /\ tmp_name w' = tmp_name w /\ home w' = home w
  /\ exists lines, output_capture w' = output_capture w ++ lines.


(** The world [main] leaves when it finds no file to process. *)
Definition after_no_files (input_dir : string) (w : World) : World :=
  set_clock (fun t => t + 2)
    (set_trace (fun t => t ++ [EvSleep 2])
       (rmtree (tmp_name w)
          (logged "No DOC, DOCX, or PDF files found in the directory."
             (mkdtemp
                (logged ("Analysis started for input directory: " +:+ input_dir) w))))).

(** The three lines the script logs after it has written the audit log,
    at time [t] of a run started at time [t0]. *)
Definition closing_lines (audit_log_file : string) (t0 t : nat) : list string :=
  [log_line t ("Audit log file created at: " +:+ audit_log_file);
   log_line t ("Script execution completed at " +:+ strftime t);
   log_line t ("Total execution time: " +:+ pretty (t - t0))].


(** A run in a folder that holds nothing to process: the user presses
    Enter, names the folder and the output, and presses Enter at the end. *)
Definition idle_run : World :=
  sample_world [("C:\in\notes.txt", Blob)] ["C:\in"; "C:\Users\u\Documents"]
    [""; "C:\in"; "out"; ""] no_faults.


(** What [get_words_to_search] stores for a typed line. *)
Definition norm_word (line : string) : string := PyStr.lower (PyStr.strip line).

(** [w'] is [w] after [lines] were logged, and after nothing else but
    prompting and reading: files, directories, clock, trace, Word and the
    environment are the same. *)
Definition said (lines : list string) (w w' : World) : Prop :=
  fs w' = fs w /\ dirs w' = dirs w /\ clock w' = clock w /\ trace w' = trace w
  /\ faulty w' = faulty w /\ tmp_name w' = tmp_name w /\ home w' = home w
  /\ word_sessions w' = word_sessions w /\ open_documents w' = open_documents w
  /\ output_capture w' = output_capture w ++ lines.

(** The lines [get_words_to_search] logs for the typed words, at time [t]. *)
Definition word_prompt_lines (t : nat) (typed : list string) : list string :=
  log_line t "Enter words to search for (one per line). Press Enter on a blank line to finish:"
  :: map (fun line => log_line t ("Added search word: " +:+ norm_word line)) typed.

(** What a library call leaves alone: the log, the input, the clock, the
    directories and the oracle. *)
Definition backstage (w w' : World) : Prop :=
  output_capture w' = output_capture w /\ stdin w' = stdin w /\ clock w' = clock w
  /\ dirs w' = dirs w /\ faulty w' = faulty w /\ tmp_name w' = tmp_name w.

(** The library calls of a run over a folder of PDFs, between the creation
    of the temporary directory and its removal. *)
Definition pdf_folder_events (files : list string) (merged output_file : string)
    (pages words : list string) : list event :=
  [EvMergerNew] ++ map EvMergerAppend files
  ++ [EvMergerWrite merged pages; EvMergerClose;
      EvConverterNew merged; EvConvert merged output_file; EvConverterClose]
  ++ match words with
     | [] => []
     | _ :: _ => EvReaderNew merged :: repeat (EvExtractText merged) (length pages)
     end.

(** The report of the counts: nothing for an empty word list. *)
Definition result_lines (t : nat) (words pages : list string) : list string :=
  match words with
  | [] => []
  | _ :: _ =>
      log_line t (nl +:+ "Word Frequency Results:")
      :: map (fun item : string * nat =>
                log_line t ("'" +:+ item.1 +:+ "': " +:+ pretty item.2 +:+ " occurrences"))
           (tally words pages)
  end.

(** The lines logged inside the [with] block over a folder of PDFs. *)
Definition pdf_folder_lines (t : nat) (files typed pages : list string) : list string :=
  [log_line t "Ensuring all files are in PDF format..."]
  ++ map (fun file => log_line t ("Added existing PDF: " +:+ file)) files
  ++ [log_line t "Merging PDF files..."; log_line t "Converting merged PDF to DOCX..."]
  ++ word_prompt_lines t typed
  ++ result_lines t (map norm_word typed) pages.

(** A computation that creates and removes no directory, and leaves alone
    every file that is neither in the directory [dir] nor the file [out]. *)
Definition spares {A} (dir out : string) (m : M A) : Prop :=
  forall w : World,
    dirs (m w).2 = dirs w
    /\ forall p : string,
         inside dir p = false -> p <> out -> fs (m w).2 !! p = fs w !! p.

(** A directory name below which [os.path.join] puts what it is given: not
    empty, and not a bare drive. *)
Definition proper_dir (dir : string) : Prop :=
  PyStr.chars dir <> [] /\ last (PyStr.chars dir) <> Some ":"%char.

(** A computation every run of which is related to its start by [R]. *)
Definition keeps {A} (R : World -> World -> Prop) (m : M A) : Prop :=
  forall w : World, R w (m w).2.

(** From [w] to [w'] the console and the log buffer have only grown, and
    the lines added to the buffer are among those added to the console, in
    the same order. *)
Definition echo (w w' : World) : Prop :=
  exists shown lines,
    console w' = console w ++ shown
    /\ output_capture w' = output_capture w ++ lines
    /\ sublist lines shown.

(** * The counter over code points

    [str.lower] and the [re] module work on Unicode code points, and the
    8-bit strings above are their restriction to ASCII.  This module embeds
    the counting expression of [count_word_frequency] over code points,
    with the character tables extended beyond ASCII by U+0130 (capital I
    with dot above, whose lowercase form is the two code points U+0069
    U+0307) and U+0307 (combining dot above).  A string with a code point
    outside these tables is not modelled: the functions return [None] on
    it. *)

Module Unicode.

Definition str : Type := list N.

(** The code point of an 8-bit character, and of the characters of a
    string. *)
Definition cp (c : ascii) : N := N_of_ascii c.
Definition of_string (s : string) : str := map cp (PyStr.chars s).

(** The code points of the tables: ASCII, U+0130 and U+0307. *)
Definition covered (c : N) : bool :=
  (c <? 128)%N || (c =? 304)%N || (c =? 775)%N.

Definition in_range (lo hi c : N) : bool := (lo <=? c)%N && (c <=? hi)%N.

Definition is_upper (c : N) : bool := in_range 65 90 c.
Definition is_lower (c : N) : bool := in_range 97 122 c.
Definition is_digit (c : N) : bool := in_range 48 57 c.

(** [str.lower] on one code point (the full case mapping): the lowercase
    form of U+0130 has two code points. *)
Definition lower_cp (c : N) : list N :=
  if is_upper c then [(c + 32)%N]
  else if (c =? 304)%N then [105%N; 775%N]
  else [c].

(** [s.lower()] *)
Definition lower (s : str) : option str :=
  if forallb covered s then Some (flat_map lower_cp s) else None.

(** The simple case mapping, one code point to one code point, by which
    [re] compares characters under [re.IGNORECASE]: U+0130 goes to "i". *)
Definition tolower (c : N) : N :=
  if is_upper c then (c + 32)%N
  else if (c =? 304)%N then 105%N
  else c.

(** [\w]: [str.isalnum] or the underscore.  U+0130 is a letter, U+0307 a
    combining mark. *)
Definition is_word_char (c : N) : bool :=
  is_upper c || is_lower c || is_digit c || (c =? 95)%N || (c =? 304)%N.

(** [re.escape(s)]: only the ASCII special characters get a backslash. *)
Definition is_special (c : N) : bool :=
  existsb (N.eqb c) (map cp Re.special_chars).

Definition escape (s : str) : str :=
  flat_map (fun c => if is_special c then [92%N; c] else [c]) s.

Definition is_meta (c : N) : bool :=
  existsb (N.eqb c) (of_string ".^$*+?{}[]\|()").

Inductive item : Type :=
  | Boundary
  | Lit (c : N).

Definition regex : Type := list item.

(** As [Re.parse]: a backslash before an ASCII letter or digit is a class,
    an assertion or a group reference, of which only [\b] is supported; a
    backslash before anything else makes that character literal. *)
Fixpoint parse (p : str) : option regex :=
  match p with
  | [] => Some []
  | c :: p' =>
      if (c =? 92)%N then
        match p' with
        | [] => None
        | e :: p'' =>
            if (e =? 98)%N then cons Boundary <$> parse p''
            else if is_upper e || is_lower e || is_digit e then None
            else cons (Lit e) <$> parse p''
        end
      else if is_meta c then None
      else cons (Lit c) <$> parse p'
  end.

Definition is_word (o : option N) : bool :=
  match o with
  | Some c => is_word_char c
  | None => false
  end.

Definition at_boundary (prev next : option N) : bool :=
  xorb (is_word prev) (is_word next).

(** A literal of the pattern against a character of the text, under
    [re.IGNORECASE]. *)
Definition char_eq (a b : N) : bool := (tolower a =? tolower b)%N.

Fixpoint match_here (r : regex) (prev : option N) (s : str) : option str :=
  match r with
  | [] => Some []
  | Boundary :: r' =>
      if at_boundary prev (head s) then match_here r' prev s else None
  | Lit c :: r' =>
      match s with
      | x :: s' =>
          if char_eq c x then cons x <$> match_here r' (Some x) s' else None
      | [] => None
      end
  end.

(** As [Re.scan]: left to right, non-overlapping. *)
Fixpoint scan (r : regex) (prev : option N) (s : str) (skip : nat) : list str :=
  match skip with
  | S k =>
      match s with
      | [] => []
      | x :: s' => scan r (Some x) s' k
      end
  | O =>
      match match_here r prev s with
      | Some m =>
          m :: match s with
               | [] => []
               | x :: s' => scan r (Some x) s' (pred (length m))
               end
      | None =>
          match s with
          | [] => []
          | x :: s' => scan r (Some x) s' 0
          end
      end
  end.

(** [len(re.findall(r'\b' + re.escape(word) + r'\b', text, re.IGNORECASE))] *)
Definition count_matches (word text : str) : option nat :=
  if forallb covered word && forallb covered text then
    r ← parse ([92%N; 98%N] ++ escape word ++ [92%N; 98%N]);
    Some (length (scan r None text 0))
  else None.


End Unicode.



(** * Properties *)

(** Reduce the projections of updated worlds, and nothing else. *)
Ltac world_simpl :=
  cbn [set_fs set_dirs set_stdin set_console set_clock set_word_sessions
       set_open_documents set_trace set_output_capture emit logged mkdtemp rmtree
       fs dirs stdin console clock word_sessions open_documents trace
       output_capture faulty tmp_name home fst snd].

(** ** Strings *)

Lemma chars_app (a b : string) :
  PyStr.chars (a +:+ b) = PyStr.chars a ++ PyStr.chars b.
Proof.
  unfold PyStr.chars.
  induction a as [|c a IH]; [reflexivity|].
  change (String c a +:+ b) with (String c (a +:+ b)).
  cbn. now f_equal.
Qed.

Lemma chars_of_chars (l : list ascii) : PyStr.chars (PyStr.of_chars l) = l.
Proof. apply list_ascii_of_string_of_list_ascii. Qed.

Lemma lower_chars (s : string) :
  PyStr.chars (PyStr.lower s) = map PyStr.lower_char (PyStr.chars s).
Proof. apply chars_of_chars. Qed.

(** A property of characters that holds of all 256 of them. *)
Ltac each_char c := destruct c as [[] [] [] [] [] [] [] []]; vm_compute; reflexivity.

Lemma special_not_alnum (c : ascii) :
  Re.is_special c = true ->
  Ascii.eqb c "b" = false /\ PyStr.is_alnum c = false.
Proof.
  intros H.
  assert (Hb : implb (Re.is_special c)
                 (negb (Ascii.eqb c "b") && negb (PyStr.is_alnum c)) = true)
    by each_char c.
  rewrite H in Hb. cbn in Hb.
  apply andb_true_iff in Hb as [H1 H2].
  split; [now apply negb_true_iff in H1 | now apply negb_true_iff in H2].
Qed.

Lemma plain_not_meta (c : ascii) :
  Re.is_special c = false ->
  Ascii.eqb c "\" = false /\ Re.is_meta c = false.
Proof.
  intros H.
  assert (Hb : implb (negb (Re.is_special c))
                 (negb (Ascii.eqb c "\") && negb (Re.is_meta c)) = true)
    by each_char c.
  rewrite H in Hb. cbn in Hb.
  apply andb_true_iff in Hb as [H1 H2].
  split; [now apply negb_true_iff in H1 | now apply negb_true_iff in H2].
Qed.

(** ** Patterns built by [re.escape] *)

Lemma parse_escape_chars (l tail : list ascii) (r : Re.regex) :
  Re.parse tail = Some r ->
  Re.parse (Re.escape_chars l ++ tail) = Some (map Re.Lit l ++ r).
Proof.
  intros Htail. induction l as [|c l IH]; [exact Htail|].
  unfold Re.escape_chars in *. cbn [flat_map].
  destruct (Re.is_special c) eqn:Hs.
  - apply special_not_alnum in Hs as [Hb Ha].
    cbn [app Re.parse]. rewrite Ascii.eqb_refl, Hb, Ha, IH. reflexivity.
  - apply plain_not_meta in Hs as [Hb Hm].
    cbn [app Re.parse]. rewrite Hb, Hm, IH. reflexivity.
Qed.

(** A search word is taken literally, whatever characters it has. *)
Lemma parse_word_pattern (word : string) :
  Re.parse (PyStr.chars ("\b" +:+ Re.escape word +:+ "\b"))
  = Some (word_regex (PyStr.chars word)).
Proof.
  rewrite !chars_app. unfold Re.escape. rewrite chars_of_chars.
  change (PyStr.chars "\b") with ["\"%char; "b"%char].
  cbn [app Re.parse]. rewrite Ascii.eqb_refl.
  change (Ascii.eqb "b" "b") with true. cbv iota.
  rewrite (parse_escape_chars _ _ [Re.Boundary]); [reflexivity|reflexivity].
Qed.

Lemma findall_word (word text : string) :
  Re.findall ("\b" +:+ Re.escape word +:+ "\b") text true
  = Some (map PyStr.of_chars
            (Re.scan true (word_regex (PyStr.chars word)) None (PyStr.chars text) 0)).
Proof. unfold Re.findall. rewrite parse_word_pattern. reflexivity. Qed.

(** ** Matching *)






(** ** Dictionaries *)

Lemma dict_get_set_eq (k : string) (v : nat) (d : dict) :
  dict_get k (dict_set k v d) = Some v.
Proof.
  induction d as [|[k' v'] d IH]; cbn.
  - now rewrite String.eqb_refl.
  - destruct (String.eqb_spec k k') as [->|Hne]; cbn.
    + now rewrite String.eqb_refl.
    + destruct (String.eqb_spec k k'); [contradiction|exact IH].
Qed.

Lemma dict_get_set_ne (k k' : string) (v : nat) (d : dict) :
  k <> k' -> dict_get k' (dict_set k v d) = dict_get k' d.
Proof.
  intros Hne. induction d as [|[k0 v0] d IH]; cbn.
  - destruct (String.eqb_spec k' k); [congruence|reflexivity].
  - destruct (String.eqb_spec k k0) as [->|Hk]; cbn.
    + destruct (String.eqb_spec k' k0); [congruence|reflexivity].
    + now rewrite IH.
Qed.

Lemma dict_get_keys (k : string) (d : dict) :
  is_Some (dict_get k d) <-> k ∈ map fst d.
Proof.
  induction d as [|[k' v'] d IH]; cbn.
  - split; [intros [? ?]; discriminate | intros H; inversion H].
  - destruct (String.eqb_spec k k') as [->|Hne].
    + split; [intros _; left | intros _; eauto].
    + rewrite IH. split; [now right | intros H; inversion H; subst; [contradiction|assumption]].
Qed.

Lemma dict_set_keys_present (k : string) (v : nat) (d : dict) :
  k ∈ map fst d -> map fst (dict_set k v d) = map fst d.
Proof.
  induction d as [|[k' v'] d IH]; cbn; intros H.
  - inversion H.
  - destruct (String.eqb_spec k k') as [->|Hne]; cbn; [reflexivity|].
    f_equal. apply IH. inversion H; subst; [contradiction|assumption].
Qed.

Lemma dict_set_keys_absent (k : string) (v : nat) (d : dict) :
  k ∉ map fst d -> map fst (dict_set k v d) = map fst d ++ [k].
Proof.
  induction d as [|[k' v'] d IH]; cbn; intros H; [reflexivity|].
  destruct (String.eqb_spec k k') as [->|Hne]; cbn.
  - exfalso. apply H. left.
  - f_equal. apply IH. intros Hin. apply H. now right.
Qed.

(** A dictionary is determined by its keys and what they map to. *)
Lemma dict_canonical (d : dict) :
  NoDup (map fst d) ->
  d = map (fun k => (k, default 0 (dict_get k d))) (map fst d).
Proof.
  induction d as [|[k v] d IH]; cbn; intros Hnd; [reflexivity|].
  apply NoDup_cons in Hnd as [Hk Hnd].
  rewrite String.eqb_refl. cbn. f_equal.
  rewrite (IH Hnd) at 1.
  apply map_ext_in. intros k' Hin.
  destruct (String.eqb_spec k' k) as [->|Hne]; [|reflexivity].
  exfalso. apply Hk. now apply list_elem_of_In.
Qed.

(** ** First occurrences *)

Lemma first_occurrences_elem (k : string) (words : list string) :
  k ∈ first_occurrences words <-> k ∈ words.
Proof.
  induction words as [|x words IH]; cbn; [reflexivity|].
  rewrite !elem_of_cons, list_elem_of_filter, IH.
  destruct (decide (k = x)); tauto.
Qed.

Lemma first_occurrences_NoDup (words : list string) :
  NoDup (first_occurrences words).
Proof.
  induction words as [|x words IH]; cbn; [constructor|].
  apply NoDup_cons. split.
  - rewrite list_elem_of_filter. tauto.
  - now apply NoDup_filter.
Qed.

Lemma add_keys_first_occurrences (words ks : list string) :
  fold_left add_key words ks
  = ks ++ filter (fun k => k ∉ ks) (first_occurrences words).
Proof.
  revert ks. induction words as [|x words IH]; intros ks;
    cbn [first_occurrences fold_left].
  - cbn. now rewrite app_nil_r.
  - rewrite IH. unfold add_key. destruct (decide (x ∈ ks)) as [Hin|Hin].
    + rewrite filter_cons_False by tauto.
      rewrite list_filter_filter. f_equal.
      apply list_filter_iff. intros y. split; [|tauto].
      intros Hy. split; [exact Hy|]. intros ->. contradiction.
    + rewrite filter_cons_True by exact Hin.
      rewrite <- app_assoc. cbn. do 2 f_equal.
      rewrite list_filter_filter.
      apply list_filter_iff. intros y.
      rewrite elem_of_app, list_elem_of_singleton. tauto.
Qed.

(** ** Counting *)

Lemma init_counts_keys (words : list string) (d : dict) :
  map fst (init_counts words d) = fold_left add_key words (map fst d).
Proof.
  revert d. induction words as [|k words IH]; intros d; [reflexivity|].
  cbn [init_counts fold_left]. fold (init_counts words (dict_set k 0 d)).
  rewrite IH. f_equal. unfold add_key.
  destruct (decide (k ∈ map fst d)).
  - now apply dict_set_keys_present.
  - now apply dict_set_keys_absent.
Qed.

Lemma init_counts_get (words : list string) (d : dict) (k : string) :
  dict_get k (init_counts words d)
  = if decide (k ∈ words) then Some 0 else dict_get k d.
Proof.
  revert d. induction words as [|x words IH]; intros d; [reflexivity|].
  cbn [init_counts fold_left]. fold (init_counts words (dict_set x 0 d)).
  rewrite IH.
  destruct (decide (k ∈ words)) as [Hw|Hw].
  - rewrite decide_True by now right. reflexivity.
  - destruct (decide (k = x)) as [->|Hne].
    + rewrite decide_True by left. apply dict_get_set_eq.
    + rewrite decide_False by (rewrite elem_of_cons; tauto).
      apply dict_get_set_ne. congruence.
Qed.

Lemma filter_all {A} (P : A -> Prop) `{forall x, Decision (P x)} (l : list A) :
  Forall P l -> filter P l = l.
Proof.
  induction 1 as [|x l Hx Hl IH]; [reflexivity|].
  rewrite filter_cons_True by exact Hx. now f_equal.
Qed.

Lemma add_page_keys (words : list string) (page : string) (d : dict) :
  Forall (fun k => k ∈ map fst d) words ->
  map fst (add_page words page d) = map fst d.
Proof.
  revert d. induction words as [|k words IH]; intros d Hall; [reflexivity|].
  apply Forall_cons in Hall as [Hk Hall].
  cbn [add_page fold_left].
  set (d1 := dict_set k _ d). fold (add_page words page d1).
  assert (Hkeys : map fst d1 = map fst d) by now apply dict_set_keys_present.
  rewrite IH; [exact Hkeys|]. now rewrite Hkeys.
Qed.

Lemma multiplicity_cons (k x : string) (words : list string) :
  multiplicity k (x :: words)
  = (if decide (x = k) then 1 else 0) + multiplicity k words.
Proof.
  unfold multiplicity. rewrite filter_cons.
  destruct (decide (x = k)); reflexivity.
Qed.

Lemma add_page_get (words : list string) (page : string) (d : dict)
    (k : string) (v : nat) :
  dict_get k d = Some v ->
  dict_get k (add_page words page d)
  = Some (v + multiplicity k words * matches k page).
Proof.
  revert d v. induction words as [|x words IH]; intros d v Hget.
  - cbn. rewrite Hget. f_equal. lia.
  - cbn [add_page fold_left].
    set (d1 := dict_set x _ d). fold (add_page words page d1).
    rewrite multiplicity_cons.
    destruct (decide (x = k)) as [->|Hne].
    + rewrite (IH d1 (v + matches k page)).
      * f_equal. lia.
      * subst d1. rewrite dict_get_set_eq, Hget. reflexivity.
    + rewrite (IH d1 v); [reflexivity|].
      subst d1. now rewrite dict_get_set_ne.
Qed.

(** All the pages: the keys stay, each count grows by the matches on every
    page once per occurrence of its word in the list. *)
Lemma add_pages_spec (words pages : list string) (d : dict) :
  Forall (fun k => k ∈ map fst d) words ->
  let d' := fold_left (fun d page => add_page words page d) pages d in
  map fst d' = map fst d
  /\ forall k v, dict_get k d = Some v ->
       dict_get k d' = Some (v + multiplicity k words * total k pages).
Proof.
  revert d. induction pages as [|page pages IH]; intros d Hall; cbn [fold_left].
  - split; [reflexivity|]. intros k v ->. cbn. f_equal. lia.
  - assert (Hkeys := add_page_keys words page d Hall).
    destruct (IH (add_page words page d)) as [IHk IHv]; [now rewrite Hkeys|].
    split; [now rewrite IHk|].
    intros k v Hget.
    rewrite (IHv k _ (add_page_get words page d k v Hget)).
    cbn [total foldr]. f_equal. fold (total k pages). lia.
Qed.

(** The pure content of [count_word_frequency]. *)
Lemma count_pages_tally (words pages : list string) :
  fold_left (fun d page => add_page words page d) pages (init_counts words [])
  = tally words pages.
Proof.
  assert (Hkeys0 : map fst (init_counts words []) = first_occurrences words).
  { rewrite init_counts_keys, add_keys_first_occurrences. cbn.
    apply filter_all, Forall_forall. intros k _. apply not_elem_of_nil. }
  assert (Hall : Forall (fun k => k ∈ map fst (init_counts words [])) words).
  { rewrite Hkeys0. apply Forall_forall. intros k Hk.
    now apply first_occurrences_elem. }
  destruct (add_pages_spec words pages _ Hall) as [Hk Hv].
  cbv zeta in Hk, Hv.
  set (d' := fold_left _ pages _) in *.
  rewrite (dict_canonical d') by (rewrite Hk, Hkeys0; apply first_occurrences_NoDup).
  rewrite Hk, Hkeys0. unfold tally.
  apply map_ext_in. intros k Hin.
  apply list_elem_of_In in Hin.
  apply (proj1 (first_occurrences_elem _ _)) in Hin.
  rewrite (Hv k 0); [reflexivity|].
  rewrite init_counts_get. now rewrite decide_True.
Qed.

(** ** External calls that do not fail *)

Lemma emit_emit (a b : list event) (w : World) :
  emit b (emit a w) = emit (a ++ b) w.
Proof. unfold emit, set_trace. cbn. now rewrite app_assoc. Qed.

Lemma external_ok (ev : event) (w : World) :
  faulty w (length (trace w)) ev = None ->
  external ev w = (Next tt, emit [ev] w).
Proof. intros H. unfold external. now rewrite H. Qed.

Lemma external_raises (ev : event) (e : string) (w : World) :
  faulty w (length (trace w)) ev = Some e ->
  external ev w = (Raised e, emit [ev] w).
Proof. intros H. unfold external. now rewrite H. Qed.

Lemma count_matches_run (word page : string) (w : World) :
  count_matches word (PyStr.lower page) w = (Next (matches word page), w).
Proof.
  unfold count_matches. rewrite findall_word.
  unfold matches, ret. now rewrite length_map.
Qed.

(** The inner loop of [count_word_frequency] on one page. *)
Lemma count_page_run (words : list string) (page : string) :
  forall (d : dict) (w : World),
    Forall (fun k => k ∈ map fst d) words ->
    for_each words
      (fun word_counts word =>
         old <- dict_getitem word word_counts ;;
         found <- count_matches word (PyStr.lower page) ;;
         ret (dict_set word (old + found) word_counts)) d w
    = (Next (add_page words page d), w).
Proof.
  induction words as [|k words IH]; intros d w Hall; [reflexivity|].
  apply Forall_cons in Hall as [Hk Hall].
  cbn [for_each add_page fold_left].
  unfold bind at 1. unfold bind at 1. unfold dict_getitem at 1.
  apply dict_get_keys in Hk as [v Hv]. rewrite Hv. unfold ret at 1.
  unfold bind at 1. rewrite count_matches_run. unfold ret at 1.
  cbn [default]. apply IH.
  rewrite dict_set_keys_present; [exact Hall|].
  apply dict_get_keys. eauto.
Qed.

Lemma count_pages_run (pdf_file : string) (words pages : list string) :
  forall (d : dict) (w : World),
    (forall n, faulty w n (EvExtractText pdf_file) = None) ->
    Forall (fun k => k ∈ map fst d) words ->
    for_each pages
      (fun word_counts page =>
         text <- PyPDF2.extract_text pdf_file page ;;
         let text := PyStr.lower text in
         for_each words
           (fun word_counts word =>
              old <- dict_getitem word word_counts ;;
              found <- count_matches word text ;;
              ret (dict_set word (old + found) word_counts)) word_counts) d w
    = (Next (fold_left (fun d page => add_page words page d) pages d),
       emit (repeat (EvExtractText pdf_file) (length pages)) w).
Proof.
  induction pages as [|page pages IH]; intros d w Hok Hall.
  - cbn. unfold ret, emit, set_trace. rewrite app_nil_r. now destruct w.
  - cbn [for_each fold_left length repeat].
    unfold bind at 1. unfold bind at 1. unfold PyPDF2.extract_text at 1.
    unfold bind at 1. rewrite external_ok by apply Hok. unfold ret at 1.
    cbv zeta. rewrite count_page_run by exact Hall.
    rewrite IH.
    + now rewrite emit_emit.
    + intros n. apply Hok.
    + now rewrite add_page_keys.
Qed.

(** What [count_word_frequency] returns for a document that can be read. *)
Lemma count_word_frequency_run (pdf_file : string) (words pages : list string)
    (w : World) :
  readable pdf_file pages w ->
  count_word_frequency pdf_file words w
  = (Next (tally words pages),
     emit (EvReaderNew pdf_file :: repeat (EvExtractText pdf_file) (length pages)) w).
Proof.
  intros [Hfile Hok].
  unfold count_word_frequency, PyPDF2.PdfReader.
  unfold bind at 1. unfold bind at 1.
  rewrite external_ok by apply Hok.
  unfold bind at 1. unfold get at 1.
  change (fs (emit _ w)) with (fs w). rewrite Hfile. unfold ret at 1.
  rewrite count_pages_run.
  - rewrite emit_emit. f_equal. f_equal.
    apply (count_pages_tally words pages).
  - intros n. apply Hok.
  - change (fold_left _ words []) with (init_counts words []).
    rewrite init_counts_keys, add_keys_first_occurrences. cbn [map app].
    apply Forall_forall. intros k Hk.
    rewrite filter_all by (apply Forall_forall; intros ? _; apply not_elem_of_nil).
    now apply first_occurrences_elem.
Qed.







(** ** The 8-bit strings as code points *)


























Lemma dict_get_map (f : string -> nat) (keys : list string) (k : string) :
  k ∈ keys -> dict_get k (map (fun k => (k, f k)) keys) = Some (f k).
Proof.
  induction keys as [|x keys IH]; intros Hin; [inversion Hin|].
  cbn. destruct (String.eqb_spec k x) as [->|Hne]; [reflexivity|].
  apply IH. apply elem_of_cons in Hin as [?|?]; [contradiction|assumption].
Qed.

(** C3, as the code has it: duplicate search words collapse into one entry
    and its count accumulates.  The result has one entry for each distinct
    search word, at the place of the word's first occurrence, and the count
    of a word is the number of its whole-word matches in the document
    multiplied by the number of times the word is listed. *)
Theorem duplicate_words_accumulate (pdf_file : string) (words pages : list string)
    (w : World) :
  readable pdf_file pages w ->
  exists counts w',
    count_word_frequency pdf_file words w = (Next counts, w')
    /\ map fst counts = first_occurrences words
    /\ NoDup (map fst counts)
    /\ forall k, k ∈ words ->
         dict_get k counts = Some (multiplicity k words * total k pages).
Proof.
  intros Hr. exists (tally words pages). eexists.
  split; [now apply count_word_frequency_run|].
  assert (Hkeys : map fst (tally words pages) = first_occurrences words).
  { unfold tally. rewrite map_map. cbn. apply map_id. }
  split; [exact Hkeys|]. split.
  - rewrite Hkeys. apply first_occurrences_NoDup.
  - intros k Hk. unfold tally.
    apply (dict_get_map (fun k => multiplicity k words * total k pages)).
    now apply first_occurrences_elem.
Qed.

Lemma duplicate_words_accumulate_witness :
  let w := sample_world [("C:\Temp\merged.pdf", PdfDoc ["The cat sat"])] [] [] no_faults in
  readable "C:\Temp\merged.pdf" ["The cat sat"] w
  /\ exists counts w',
       count_word_frequency "C:\Temp\merged.pdf" ["the"; "the"] w = (Next counts, w')
       /\ map fst counts = first_occurrences ["the"; "the"]
       /\ NoDup (map fst counts)
       /\ forall k, k ∈ ["the"; "the"] ->
            dict_get k counts
            = Some (multiplicity k ["the"; "the"] * total k ["The cat sat"]).
Proof.
  cbv zeta.
  assert (Hr : readable "C:\Temp\merged.pdf" ["The cat sat"]
                 (sample_world [("C:\Temp\merged.pdf", PdfDoc ["The cat sat"])]
                    [] [] no_faults)).
  { split; [reflexivity|]. intros n. split; reflexivity. }
  split; [exact Hr|].
  exact (duplicate_words_accumulate _ ["the"; "the"] _ _ Hr).
Defined.

(** C3, as stated, fails: the words "the" and "The" typed at the prompt are
    both stored as "the", and counting them in "The cat sat" gives the
    single entry "the" with count 2, not two entries with count 1 each. *)
Lemma the_The_single_entry :
  let w := sample_world [("C:\Temp\merged.pdf", PdfDoc ["The cat sat"])] []
             ["the"; "The"; ""] no_faults in
  (exists w1 w2,
      get_words_to_search w = (Next ["the"; "the"], w1)
      /\ count_word_frequency "C:\Temp\merged.pdf" ["the"; "the"] w1
         = (Next [("the", 2)], w2))
  /\ ~ (exists words w1 counts w2,
          get_words_to_search w = (Next words, w1)
          /\ count_word_frequency "C:\Temp\merged.pdf" words w1 = (Next counts, w2)
          /\ length counts = 2
          /\ Forall (fun entry => entry.2 = 1) counts).
Proof.
  cbv zeta. split.
  - do 2 eexists. split; vm_compute; reflexivity.
  - intros (words & w1 & counts & w2 & Hwords & Hcounts & Hlen & _).
    vm_compute in Hwords. injection Hwords as <- <-.
    vm_compute in Hcounts. injection Hcounts as <- _.
    discriminate Hlen.
Qed.

(** Words that differ in case, handed to [count_word_frequency] as they
    are, are two keys, not one key twice. *)
Lemma the_The_as_given :
  let w := sample_world [("C:\Temp\merged.pdf", PdfDoc ["The cat sat"])] [] [] no_faults in
  exists w',
    count_word_frequency "C:\Temp\merged.pdf" ["the"; "The"] w
    = (Next [("the", 1); ("The", 1)], w').
Proof. cbv zeta. eexists. vm_compute. reflexivity. Qed.

(** ** Merging *)

Lemma emit_nil (w : World) : emit [] w = w.
Proof. unfold emit, set_trace. rewrite app_nil_r. now destruct w. Qed.

Lemma append_all (pdf_files : list string) (pagess : list (list string)) (w : World) :
  pdfs_of w pdf_files pagess ->
  (forall n pdf, faulty w n (EvMergerAppend pdf) = None) ->
  forall (w0 : World) (merger : list string),
    fs w0 = fs w -> faulty w0 = faulty w ->
    for_each pdf_files (fun merger pdf => PyPDF2.append merger pdf) merger w0
    = (Next (merger ++ concat pagess), emit (map EvMergerAppend pdf_files) w0).
Proof.
  intros Hpdfs Hok.
  induction Hpdfs as [|pdf pages pdf_files pagess Hpdf Hrest IH];
    intros w0 merger Hfs Hf.
  - cbn. now rewrite app_nil_r, emit_nil.
  - cbn [for_each map concat].
    unfold bind at 1. unfold PyPDF2.append at 1. unfold bind at 1.
    rewrite external_ok by (rewrite Hf; apply Hok).
    unfold bind at 1. unfold get at 1.
    change (fs (emit _ w0)) with (fs w0). rewrite Hfs, Hpdf. unfold ret at 1.
    rewrite IH by assumption.
    now rewrite emit_emit, <- app_assoc.
Qed.

Lemma length_concat_sum {A} (ls : list (list A)) :
  length (concat ls) = sum_list_with length ls.
Proof.
  induction ls as [|l ls IH]; [reflexivity|].
  cbn. now rewrite length_app, IH.
Qed.

(** What [merge_pdfs] does when its inputs are PDFs and the merger works. *)
Lemma merge_pdfs_run (pdf_files : list string) (pagess : list (list string))
    (output_pdf : string) (w : World) :
  pdfs_of w pdf_files pagess ->
  merger_ok w ->
  exists w',
    merge_pdfs pdf_files output_pdf w = (Next tt, w')
    /\ fs w' = <[output_pdf := PdfDoc (concat pagess)]> (fs w)
    /\ trace w' = trace w ++ [EvMergerNew] ++ map EvMergerAppend pdf_files
                  ++ [EvMergerWrite output_pdf (concat pagess); EvMergerClose].
Proof.
  intros Hpdfs Hok.
  unfold merge_pdfs, PyPDF2.PdfMerger.
  unfold bind at 1. unfold bind at 1.
  rewrite external_ok by apply Hok. unfold ret at 1.
  unfold bind at 1.
  rewrite (append_all pdf_files pagess w Hpdfs) by (reflexivity || apply Hok).
  cbn [app]. unfold PyPDF2.write, PyPDF2.close.
  unfold bind at 1. unfold bind at 1.
  rewrite external_ok by apply Hok.
  unfold modify at 1.
  rewrite external_ok by apply Hok.
  eexists. split; [reflexivity|]. split; [reflexivity|].
  world_simpl. now rewrite <- !app_assoc.
Qed.

(** C1: for every ordered list of input PDFs, [merge_pdfs] writes one
    output PDF whose pages are the pages of the inputs, input after input in
    the order of the list, so that its page count is the sum of theirs. *)
Theorem merge_pdfs_concatenates (pdf_files : list string)
    (pagess : list (list string)) (output_pdf : string) (w : World) :
  pdfs_of w pdf_files pagess ->
  merger_ok w ->
  exists w',
    merge_pdfs pdf_files output_pdf w = (Next tt, w')
    /\ fs w' = <[output_pdf := PdfDoc (concat pagess)]> (fs w)
    /\ length (concat pagess) = sum_list_with length pagess.
Proof.
  intros Hpdfs Hok.
  destruct (merge_pdfs_run pdf_files pagess output_pdf w Hpdfs Hok)
    as (w' & Hrun & Hfs & _).
  exists w'. split; [exact Hrun|]. split; [exact Hfs|].
  apply length_concat_sum.
Qed.

Lemma merge_pdfs_concatenates_witness :
  let w := sample_world [("C:\in\a.pdf", PdfDoc ["a1"; "a2"]); ("C:\in\b.pdf", PdfDoc ["b1"])]
             [] [] no_faults in
  pdfs_of w ["C:\in\a.pdf"; "C:\in\b.pdf"; "C:\in\a.pdf"] [["a1"; "a2"]; ["b1"]; ["a1"; "a2"]]
  /\ merger_ok w
  /\ exists w',
       merge_pdfs ["C:\in\a.pdf"; "C:\in\b.pdf"; "C:\in\a.pdf"] "C:\out\merged.pdf" w
       = (Next tt, w')
       /\ fs w' = <["C:\out\merged.pdf" := PdfDoc ["a1"; "a2"; "b1"; "a1"; "a2"]]> (fs w)
       /\ length ["a1"; "a2"; "b1"; "a1"; "a2"] = 5.
Proof.
  cbv zeta.
  assert (Hp : pdfs_of
                 (sample_world [("C:\in\a.pdf", PdfDoc ["a1"; "a2"]);
                                ("C:\in\b.pdf", PdfDoc ["b1"])] [] [] no_faults)
                 ["C:\in\a.pdf"; "C:\in\b.pdf"; "C:\in\a.pdf"]
                 [["a1"; "a2"]; ["b1"]; ["a1"; "a2"]]).
  { repeat constructor. }
  assert (Hm : merger_ok
                 (sample_world [("C:\in\a.pdf", PdfDoc ["a1"; "a2"]);
                                ("C:\in\b.pdf", PdfDoc ["b1"])] [] [] no_faults)).
  { intros n. repeat split. }
  split; [exact Hp|]. split; [exact Hm|].
  exact (merge_pdfs_concatenates _ _ "C:\out\merged.pdf" _ Hp Hm).
Defined.

(** ** Converting and normalizing *)

Lemma log_output_run (message : string) (w : World) :
  log_output message w = (Next tt, (log_output message w).2).
Proof. reflexivity. Qed.

Ltac case_faults :=
  repeat match goal with
    | |- context [match faulty ?w ?n ?ev with _ => _ end] =>
        let F := fresh "F" in destruct (faulty w n ev) eqn:F; world_simpl
    | |- context [match fs ?w !! ?p with _ => _ end] =>
        let F := fresh "F" in destruct (fs w !! p) as [[]|] eqn:F; world_simpl
    end.

(** The converter has no [return] that could end its caller. *)
Lemma convert_docx_to_pdf_ends (docx_file output_dir : string) (w w' : World) :
  convert_docx_to_pdf docx_file output_dir w <> (Returned, w').
Proof.
  unfold convert_docx_to_pdf, Word.Dispatch, Word.Documents_Open, Word.SaveAs,
    Word.Close, Word.Quit, bind, external, get, modify, ret, raise.
  world_simpl. case_faults; discriminate.
Qed.

Lemma normalize_loop (output_dir : string) (files : list string) :
  forall (pdf_files : list string) (w : World),
  exists added w',
    for_each files
      (fun pdf_files file =>
         try_except
           (if is_word_file file then
              pdf_file <- convert_docx_to_pdf file output_dir ;;
              let pdf_files := pdf_files ++ [pdf_file] in
              log_output ("Converted " +:+ file +:+ " to PDF") ;;
              ret pdf_files
            else if is_pdf_file file then
              let pdf_files := pdf_files ++ [file] in
              log_output ("Added existing PDF: " +:+ file) ;;
              ret pdf_files
            else
              log_output ("Skipping unsupported file format: " +:+ file) ;;
              ret pdf_files)
           (fun e =>
              log_output ("Error processing file " +:+ file +:+ ": " +:+ e) ;;
              ret pdf_files))
      pdf_files w
    = (Next (pdf_files ++ added), w')
    /\ normalized output_dir files w added w'.
Proof.
  induction files as [|file files IH]; intros pdf_files w.
  - exists [], w. rewrite app_nil_r. split; [reflexivity|constructor].
  - cbn [for_each]. unfold bind at 1. unfold try_except at 1.
    destruct (is_word_file file) eqn:Hword; [|destruct (is_pdf_file file) eqn:Hpdf].
    + unfold bind at 1.
      destruct (convert_docx_to_pdf file output_dir w) as [[pdf_file| |e] w1] eqn:Hconv.
      * cbv zeta. unfold bind at 1. rewrite log_output_run. unfold ret at 1.
        destruct (IH (pdf_files ++ [pdf_file])
                    (log_output ("Converted " +:+ file +:+ " to PDF") w1).2)
          as (added & w' & Hrun & Hnorm).
        exists (pdf_file :: added), w'. split.
        -- cbv zeta in Hrun. rewrite Hrun. now rewrite <- app_assoc.
        -- eapply normalized_converted; eauto.
      * exfalso. exact (convert_docx_to_pdf_ends _ _ _ _ Hconv).
      * unfold bind at 1. rewrite log_output_run. unfold ret at 1.
        destruct (IH pdf_files
                    (log_output ("Error processing file " +:+ file +:+ ": " +:+ e) w1).2)
          as (added & w' & Hrun & Hnorm).
        exists added, w'. split; [exact Hrun|].
        eapply normalized_failed; eauto.
    + cbv zeta. unfold bind at 1. rewrite log_output_run. unfold ret at 1.
      destruct (IH (pdf_files ++ [file])
                  (log_output ("Added existing PDF: " +:+ file) w).2)
        as (added & w' & Hrun & Hnorm).
      exists (file :: added), w'. split.
      * cbv zeta in Hrun. rewrite Hrun. now rewrite <- app_assoc.
      * now apply normalized_pdf.
    + unfold bind at 1. rewrite log_output_run. unfold ret at 1.
      destruct (IH pdf_files
                  (log_output ("Skipping unsupported file format: " +:+ file) w).2)
        as (added & w' & Hrun & Hnorm).
      exists added, w'. split; [exact Hrun|].
      now apply normalized_skipped.
Qed.

Lemma convert_docx_to_pdf_path (docx_file output_dir pdf_file : string)
    (w w' : World) :
  convert_docx_to_pdf docx_file output_dir w = (Next pdf_file, w') ->
  pdf_file = pdf_path docx_file output_dir.
Proof.
  unfold convert_docx_to_pdf, Word.Dispatch, Word.Documents_Open, Word.SaveAs,
    Word.Close, Word.Quit, bind, external, get, modify, ret, raise.
  world_simpl. case_faults; intros H; try discriminate H.
  now injection H as <- _.
Qed.

(** The entries that are kept form a subsequence of the input. *)
Lemma normalized_sublist (output_dir : string) (files pdf_files : list string)
    (w w' : World) :
  normalized output_dir files w pdf_files w' ->
  exists kept,
    sublist kept files
    /\ pdf_files = map (normal_form output_dir) kept
    /\ Forall supported kept.
Proof.
  induction 1 as [w
                 |file files w pdf_file w1 pdf_files w' Hword Hconv _ (kept & Hs & Hm & Hk)
                 |file files w e w1 pdf_files w' Hword Hconv _ (kept & Hs & Hm & Hk)
                 |file files w pdf_files w' Hword Hpdf _ (kept & Hs & Hm & Hk)
                 |file files w pdf_files w' Hword Hpdf _ (kept & Hs & Hm & Hk)].
  - exists []. repeat split; constructor.
  - exists (file :: kept). split; [now constructor|]. split.
    + cbn. unfold normal_form at 1. rewrite Hword.
      now rewrite (convert_docx_to_pdf_path _ _ _ _ _ Hconv), Hm.
    + constructor; [now left|exact Hk].
  - exists kept. split; [now constructor|]. now split.
  - exists (file :: kept). split; [now constructor|]. split.
    + cbn. unfold normal_form at 1. now rewrite Hword, Hm.
    + constructor; [now right|exact Hk].
  - exists kept. split; [now constructor|]. now split.
Qed.

(** C2: [ensure_pdf_format] never aborts, and the list it returns is the
    input with, in the same order, every PDF kept, every word-processor
    document replaced by the PDF its conversion returned, and every
    unsupported entry and every entry whose conversion raised logged and
    left out.  The entries kept are thus a subsequence of the input. *)
Theorem ensure_pdf_format_normalizes (files : list string) (output_dir : string)
    (w : World) :
  exists pdf_files w',
    ensure_pdf_format files output_dir w = (Next pdf_files, w')
    /\ normalized output_dir files w pdf_files w'
    /\ exists kept,
         sublist kept files
         /\ pdf_files = map (normal_form output_dir) kept
         /\ Forall supported kept.
Proof.
  destruct (normalize_loop output_dir files [] w) as (added & w' & Hrun & Hnorm).
  exists added, w'. split; [exact Hrun|]. split; [exact Hnorm|].
  now apply normalized_sublist with w w'.
Qed.

Lemma bind_next {A B} (m : M A) (k : A -> M B) (w w1 : World) (a : A) :
  m w = (Next a, w1) -> bind m k w = k a w1.
Proof. intros H. unfold bind. now rewrite H. Qed.

Lemma bind_raised {A B} (m : M A) (k : A -> M B) (w w1 : World) (e : string) :
  m w = (Raised e, w1) -> bind m k w = (Raised e, w1).
Proof. intros H. unfold bind. now rewrite H. Qed.

(** Run the first statement of a sequence, given what it does. *)
Ltac run_next lem tac :=
  erewrite bind_next; [cbv beta | eapply lem; solve [tac]].
Ltac run_raised lem tac :=
  erewrite bind_raised; [cbv beta | eapply lem; solve [tac]].

Lemma Dispatch_ok (w : World) :
  faulty w (length (trace w)) EvDispatch = None ->
  Word.Dispatch w = (Next tt, set_word_sessions S (emit [EvDispatch] w)).
Proof.
  intros H. unfold Word.Dispatch.
  now rewrite (bind_next _ _ _ _ _ (external_ok _ _ H)).
Qed.

Lemma Documents_Open_ok (docx_file : string) (doc : list string) (w : World) :
  faulty w (length (trace w)) (EvOpen docx_file) = None ->
  fs w !! docx_file = Some (WordDoc doc) ->
  Word.Documents_Open docx_file w
  = (Next doc, set_open_documents (cons docx_file) (emit [EvOpen docx_file] w)).
Proof.
  intros H Hdoc. unfold Word.Documents_Open.
  rewrite (bind_next _ _ _ _ _ (external_ok _ _ H)).
  unfold bind at 1, get at 1.
  change (fs (emit _ w)) with (fs w). now rewrite Hdoc.
Qed.

Lemma SaveAs_ok (docx_file output_pdf : string) (doc : list string) (w : World) :
  faulty w (length (trace w)) (EvSaveAs docx_file output_pdf) = None ->
  Word.SaveAs docx_file doc output_pdf w
  = (Next tt, set_fs (<[output_pdf := PdfDoc doc]>) (emit [EvSaveAs docx_file output_pdf] w)).
Proof.
  intros H. unfold Word.SaveAs.
  now rewrite (bind_next _ _ _ _ _ (external_ok _ _ H)).
Qed.

Lemma SaveAs_raises (docx_file output_pdf e : string) (doc : list string) (w : World) :
  faulty w (length (trace w)) (EvSaveAs docx_file output_pdf) = Some e ->
  Word.SaveAs docx_file doc output_pdf w
  = (Raised e, emit [EvSaveAs docx_file output_pdf] w).
Proof.
  intros H. unfold Word.SaveAs.
  now rewrite (bind_raised _ _ _ _ _ (external_raises _ _ _ H)).
Qed.

Lemma Close_ok (docx_file : string) (w : World) :
  faulty w (length (trace w)) (EvClose docx_file) = None ->
  Word.Close docx_file w
  = (Next tt, set_open_documents (Word.remove_first docx_file) (emit [EvClose docx_file] w)).
Proof.
  intros H. unfold Word.Close.
  now rewrite (bind_next _ _ _ _ _ (external_ok _ _ H)).
Qed.

Lemma Quit_ok (w : World) :
  faulty w (length (trace w)) EvQuit = None ->
  Word.Quit w = (Next tt, set_word_sessions pred (emit [EvQuit] w)).
Proof.
  intros H. unfold Word.Quit.
  now rewrite (bind_next _ _ _ _ _ (external_ok _ _ H)).
Qed.

(** The converter on the path where nothing fails: one document is opened,
    exported and closed, and the session is quit. *)
Lemma convert_docx_to_pdf_releases (docx_file output_dir : string)
    (doc : list string) (w : World) :
  fs w !! docx_file = Some (WordDoc doc) ->
  (forall n ev, faulty w n ev = None) ->
  exists w',
    convert_docx_to_pdf docx_file output_dir w
    = (Next (pdf_path docx_file output_dir), w')
    /\ trace w' = trace w ++ [EvDispatch; EvOpen docx_file;
                              EvSaveAs docx_file (pdf_path docx_file output_dir);
                              EvClose docx_file; EvQuit]
    /\ fs w' = <[pdf_path docx_file output_dir := PdfDoc doc]> (fs w)
    /\ word_sessions w' = word_sessions w
    /\ open_documents w' = open_documents w.
Proof.
  intros Hdoc Hok. unfold convert_docx_to_pdf.
  run_next Dispatch_ok ltac:(apply Hok).
  run_next Documents_Open_ok ltac:(apply Hok || exact Hdoc).
  fold (pdf_path docx_file output_dir).
  run_next SaveAs_ok ltac:(apply Hok).
  run_next Close_ok ltac:(apply Hok).
  run_next Quit_ok ltac:(apply Hok).
  eexists. split; [reflexivity|]. world_simpl. cbn [Word.remove_first Nat.pred].
  rewrite String.eqb_refl, <- !app_assoc. repeat split.
Qed.

(** C7 fails where the export raises: a call whose [SaveAs] raises ends
    with the document still open and the Word session still running, since
    [doc.Close()] and [word.Quit()] are reached only after a successful
    export. *)
Theorem export_failure_leaves_session_open (docx_file output_dir : string)
    (doc : list string) (e : string) (w : World) :
  fs w !! docx_file = Some (WordDoc doc) ->
  (forall n, faulty w n EvDispatch = None) ->
  (forall n, faulty w n (EvOpen docx_file) = None) ->
  (forall n, faulty w n (EvSaveAs docx_file (pdf_path docx_file output_dir)) = Some e) ->
  exists w',
    convert_docx_to_pdf docx_file output_dir w = (Raised e, w')
    /\ trace w' = trace w ++ [EvDispatch; EvOpen docx_file;
                              EvSaveAs docx_file (pdf_path docx_file output_dir)]
    /\ word_sessions w' = S (word_sessions w)
    /\ open_documents w' = docx_file :: open_documents w.
Proof.
  intros Hdoc Hdispatch Hopen Hsave. unfold convert_docx_to_pdf.
  run_next Dispatch_ok ltac:(apply Hdispatch).
  run_next Documents_Open_ok ltac:(apply Hopen || exact Hdoc).
  fold (pdf_path docx_file output_dir).
  run_raised SaveAs_raises ltac:(apply Hsave).
  eexists. split; [reflexivity|]. world_simpl.
  rewrite <- !app_assoc. repeat split.
Qed.

Lemma export_failure_leaves_session_open_witness :
  let w := sample_world [("C:\in\a.docx", WordDoc ["page one"])] [] []
             (fun _ ev => match ev with
                          | EvSaveAs _ _ => Some "export failed"
                          | _ => None
                          end) in
  exists w',
    convert_docx_to_pdf "C:\in\a.docx" "C:\Temp\tmp1" w = (Raised "export failed", w')
    /\ trace w' = [EvDispatch; EvOpen "C:\in\a.docx";
                   EvSaveAs "C:\in\a.docx" "C:\Temp\tmp1\a.pdf"]
    /\ word_sessions w' = 1
    /\ open_documents w' = ["C:\in\a.docx"].
Proof.
  cbv zeta.
  apply (export_failure_leaves_session_open "C:\in\a.docx" "C:\Temp\tmp1" ["page one"]);
    reflexivity.
Defined.

(** ** Later worlds *)

Lemma extends_refl (w : World) : extends w w.
Proof.
  repeat split; [exists []|exists []]; rewrite app_nil_r; auto.
Qed.

Lemma extends_trans (w1 w2 w3 : World) :
  extends w1 w2 -> extends w2 w3 -> extends w1 w3.
Proof.
  intros (Hf1 & Ht1 & Hh1 & (e1 & He1 & Hn1) & (l1 & Hl1))
         (Hf2 & Ht2 & Hh2 & (e2 & He2 & Hn2) & (l2 & Hl2)).
  repeat split; try congruence.
  - exists (e1 ++ e2). split.
    + now rewrite He2, He1, app_assoc.
    + now apply Forall_app.
  - exists (l1 ++ l2). now rewrite Hl2, Hl1, app_assoc.
Qed.

Section Steady.
Context {A B : Type}.

Lemma steady_ret (a : A) : steady (ret a).
Proof. intros w. apply extends_refl. Qed.

Lemma steady_raise (e : string) : steady (@raise A e).
Proof. intros w. apply extends_refl. Qed.

Lemma steady_return : steady (@return_ A).
Proof. intros w. apply extends_refl. Qed.

Lemma steady_bind (m : M A) (k : A -> M B) :
  steady m -> (forall a, steady (k a)) -> steady (bind m k).
Proof.
  intros Hm Hk w. unfold bind. specialize (Hm w).
  destruct (m w) as [[a| |e] w1]; cbn in *; [|exact Hm|exact Hm].
  eapply extends_trans; [exact Hm|apply Hk].
Qed.

Lemma steady_try_except (body : M A) (handler : string -> M A) :
  steady body -> (forall e, steady (handler e)) -> steady (try_except body handler).
Proof.
  intros Hb Hh w. unfold try_except. specialize (Hb w).
  destruct (body w) as [[a| |e] w1]; cbn in *; [exact Hb|exact Hb|].
  eapply extends_trans; [exact Hb|apply Hh].
Qed.

Lemma steady_try_finally (body : M A) (final : M unit) :
  steady body -> steady final -> steady (try_finally body final).
Proof.
  intros Hb Hf w. unfold try_finally. specialize (Hb w).
  destruct (body w) as [r w1]. specialize (Hf w1).
  destruct (final w1) as [[[]| |e] w2]; cbn in *;
    eapply extends_trans; eauto.
Qed.

Lemma steady_for_each (xs : list B) (body : A -> B -> M A) (s : A) :
  (forall s x, steady (body s x)) -> steady (for_each xs body s).
Proof.
  intros Hb. revert s. induction xs as [|x xs IH]; intros s; cbn [for_each].
  - apply steady_ret.
  - intros w. unfold bind. specialize (Hb s x w).
    destruct (body s x w) as [[s'| |e] w1]; cbn in *; [|exact Hb|exact Hb].
    eapply extends_trans; [exact Hb|apply IH].
Qed.

Lemma steady_with_temporary_directory (body : string -> M A) :
  (forall dir, steady (body dir)) -> steady (with_temporary_directory body).
Proof.
  intros Hb w. unfold with_temporary_directory.
  specialize (Hb (tmp_name w) (mkdtemp w)).
  destruct (body (tmp_name w) (mkdtemp w)) as [r w1]. cbn in *.
  destruct Hb as (Hf & Ht & Hh & (evs & He & Hn) & (ls & Hl)).
  repeat split; try assumption.
  - exists ([EvMkdtemp (tmp_name w)] ++ evs ++ [EvCleanup (tmp_name w)]). split.
    + cbn [rmtree set_fs set_dirs set_trace trace]. rewrite He. cbn [mkdtemp set_dirs set_trace trace].
      now rewrite <- !app_assoc.
    + repeat (apply Forall_app; split); try assumption; repeat constructor.
  - exists ls. exact Hl.
Qed.
End Steady.

Lemma steady_call (body : M unit) : steady body -> steady (call body).
Proof.
  intros Hb w. unfold call. specialize (Hb w).
  destruct (body w) as [[a| |e] w1]; exact Hb.
Qed.

Lemma steady_get : steady get.
Proof. intros w. apply extends_refl. Qed.

Lemma steady_external (ev : event) :
  is_file_write ev = false -> steady (external ev).
Proof.
  intros Hev w. unfold external.
  assert (H : extends w (set_trace (fun t => t ++ [ev]) w)).
  { repeat split.
    - exists [ev]. split; [reflexivity|]. now constructor.
    - exists []. cbn. now rewrite app_nil_r. }
  destruct (faulty w (length (trace w)) ev); exact H.
Qed.

Lemma steady_quiet {A} (m : M A) :
  (forall w, faulty (m w).2 = faulty w /\ tmp_name (m w).2 = tmp_name w
             /\ home (m w).2 = home w /\ trace (m w).2 = trace w
             /\ output_capture (m w).2 = output_capture w) ->
  steady m.
Proof.
  intros H w. destruct (H w) as (Hf & Ht & Hh & Htr & Hc).
  repeat split; try assumption.
  - exists []. rewrite app_nil_r. auto.
  - exists []. now rewrite app_nil_r.
Qed.

Lemma steady_log_output (message : string) : steady (log_output message).
Proof.
  intros w. repeat split.
  - exists []. cbn. rewrite app_nil_r. auto.
  - eexists. reflexivity.
Qed.

Lemma steady_time_sleep (n : nat) : steady (time_sleep n).
Proof.
  intros w. repeat split.
  - exists [EvSleep n]. split; [reflexivity|]. now constructor.
  - exists []. cbn. now rewrite app_nil_r.
Qed.

Lemma steady_input (prompt : string) : steady (input prompt).
Proof.
  apply steady_quiet. intros w. unfold input.
  destruct (stdin w); repeat split.
Qed.

Lemma steady_glob (pattern : string) : steady (glob pattern).
Proof. intros w. apply extends_refl. Qed.

Lemma steady_modify_fs (f : gmap string content -> gmap string content) :
  steady (modify (set_fs f)).
Proof. apply steady_quiet. intros w. repeat split. Qed.

Lemma steady_modify_word_sessions (f : nat -> nat) :
  steady (modify (set_word_sessions f)).
Proof. apply steady_quiet. intros w. repeat split. Qed.

Lemma steady_modify_open_documents (f : list string -> list string) :
  steady (modify (set_open_documents f)).
Proof. apply steady_quiet. intros w. repeat split. Qed.

Lemma steady_dict_getitem (k : string) (d : dict) : steady (dict_getitem k d).
Proof.
  unfold dict_getitem. destruct (dict_get k d); [apply steady_ret|apply steady_raise].
Qed.

Lemma steady_count_matches (word text : string) : steady (count_matches word text).
Proof.
  unfold count_matches. destruct (Re.findall _ _ _); [apply steady_ret|apply steady_raise].
Qed.

Create HintDb steady.
#[local] Hint Resolve steady_ret steady_raise steady_return steady_get
  steady_log_output steady_time_sleep steady_input steady_glob
  steady_modify_fs steady_modify_word_sessions steady_modify_open_documents
  steady_dict_getitem steady_count_matches : steady.
#[local] Hint Extern 1 (steady (external _)) =>
  apply steady_external; reflexivity : steady.

(** Take a computation apart along its statements. *)
Ltac steady_steps :=
  repeat first
    [ progress cbv zeta
    | solve [auto with steady]
    | apply steady_bind; [|intro]
    | apply steady_for_each; intros
    | apply steady_try_except; [|intro]
    | apply steady_try_finally
    | apply steady_call
    | apply steady_with_temporary_directory; intro
    | match goal with
      | |- steady (if ?b then _ else _) => destruct b
      | |- steady (match ?x with _ => _ end) => destruct x
      end ].

Lemma steady_convert_docx_to_pdf (docx_file output_dir : string) :
  steady (convert_docx_to_pdf docx_file output_dir).
Proof.
  unfold convert_docx_to_pdf, Word.Dispatch, Word.Documents_Open, Word.SaveAs,
    Word.Close, Word.Quit.
  steady_steps.
Qed.

Lemma steady_merge_pdfs (pdf_files : list string) (output_pdf : string) :
  steady (merge_pdfs pdf_files output_pdf).
Proof.
  unfold merge_pdfs, PyPDF2.PdfMerger, PyPDF2.append, PyPDF2.write, PyPDF2.close.
  steady_steps.
Qed.

Lemma steady_convert_pdf_to_docx (pdf_file output_file : string) :
  steady (convert_pdf_to_docx pdf_file output_file).
Proof.
  unfold convert_pdf_to_docx, Pdf2docx.Converter, Pdf2docx.convert, Pdf2docx.close.
  steady_steps.
Qed.

#[local] Hint Resolve steady_convert_docx_to_pdf steady_merge_pdfs
  steady_convert_pdf_to_docx : steady.

Lemma steady_ensure_pdf_format (files : list string) (output_dir : string) :
  steady (ensure_pdf_format files output_dir).
Proof. unfold ensure_pdf_format. steady_steps. Qed.

Lemma steady_read_words (pending words : list string) :
  steady (read_words pending words).
Proof.
  revert words. induction pending as [|line pending IH]; intros words;
    cbn [read_words]; steady_steps.
Qed.

Lemma steady_get_words_to_search : steady get_words_to_search.
Proof.
  unfold get_words_to_search. steady_steps. apply steady_read_words.
Qed.

Lemma steady_count_word_frequency (pdf_file : string) (words : list string) :
  steady (count_word_frequency pdf_file words).
Proof.
  unfold count_word_frequency, PyPDF2.PdfReader, PyPDF2.extract_text.
  steady_steps.
Qed.

#[local] Hint Resolve steady_ensure_pdf_format steady_get_words_to_search
  steady_count_word_frequency : steady.

Lemma steady_main_with_body (input_dir output_file temp_dir : string) :
  steady (main_with_body input_dir output_file temp_dir).
Proof. unfold main_with_body. steady_steps. Qed.

#[local] Hint Resolve steady_main_with_body : steady.

Lemma steady_main (input_dir output_file : string) :
  steady (main input_dir output_file).
Proof. unfold main. steady_steps. Qed.

(** ** The temporary directory *)

Lemma rmtree_removed (dir : string) (w : World) : removed dir (rmtree dir w).
Proof.
  intros p Hp. unfold rmtree. world_simpl. split.
  - apply map_lookup_filter_None_2. right. intros x _. cbn. congruence.
  - rewrite elem_of_filter. intros [Hin _]. congruence.
Qed.

Lemma removed_preserved (dir : string) (w w' : World) :
  removed dir w -> fs w' = fs w -> dirs w' = dirs w -> removed dir w'.
Proof. intros H Hfs Hdirs p Hp. rewrite Hfs, Hdirs. now apply H. Qed.

Lemma log_output_logged (message : string) (w : World) :
  log_output message w = (Next tt, logged message w).
Proof. reflexivity. Qed.

Lemma with_temporary_directory_run {A} (body : string -> M A) (w : World) :
  exists r w2, with_temporary_directory body w = (r, rmtree (tmp_name w) w2).
Proof.
  unfold with_temporary_directory.
  destruct (body (tmp_name w) (mkdtemp w)) as [r w2]. eauto.
Qed.

(** [main] swallows every exception: it always returns normally. *)
Lemma main_returns (input_dir output_file : string) (w : World) :
  exists w', main input_dir output_file w = (Next tt, w').
Proof.
  unfold main, call, try_finally, try_except.
  unfold bind at 1. rewrite log_output_logged.
  unfold bind at 1.
  match goal with
  | |- context [with_temporary_directory ?body ?w1] =>
      destruct (with_temporary_directory_run body w1) as ([[]| |e] & w2 & ->)
  end; rewrite ?log_output_logged; unfold time_sleep; eexists; reflexivity.
Qed.

(** C6: however the run of the pipeline ends (normally, by the early
    return, or by an exception raised in any step), [main] returns with the
    temporary directory and everything in it deleted. *)
Theorem main_removes_workspace (input_dir output_file : string) (w : World) :
  exists w',
    main input_dir output_file w = (Next tt, w')
    /\ removed (tmp_name w) w'
    /\ EvCleanup (tmp_name w) ∈ trace w'.
Proof.
  unfold main, call, try_finally, try_except.
  unfold bind at 1. rewrite log_output_logged.
  unfold bind at 1.
  match goal with
  | |- context [with_temporary_directory ?body ?w1] =>
      destruct (with_temporary_directory_run body w1) as ([[]| |e] & w2 & ->)
  end.
  change (tmp_name (logged _ w)) with (tmp_name w).
  - rewrite log_output_logged. unfold time_sleep.
    eexists. split; [reflexivity|]. split.
    + eapply removed_preserved; [apply rmtree_removed|reflexivity|reflexivity].
    + unfold rmtree. world_simpl. rewrite !elem_of_app, !list_elem_of_singleton. tauto.
  - unfold time_sleep.
    eexists. split; [reflexivity|]. split.
    + eapply removed_preserved; [apply rmtree_removed|reflexivity|reflexivity].
    + unfold rmtree. world_simpl. rewrite !elem_of_app, !list_elem_of_singleton. tauto.
  - rewrite log_output_logged. unfold time_sleep.
    eexists. split; [reflexivity|]. split.
    + eapply removed_preserved; [apply rmtree_removed|reflexivity|reflexivity].
    + unfold rmtree. world_simpl. rewrite !elem_of_app, !list_elem_of_singleton. tauto.
Qed.

(** ** The controller *)

Lemma extends_trace (w w' : World) :
  extends w w' -> exists evs, trace w' = trace w ++ evs.
Proof. intros (_ & _ & _ & (evs & H & _) & _). eauto. Qed.

Lemma extends_faulty (w w' : World) : extends w w' -> faulty w' = faulty w.
Proof. now intros (H & _). Qed.

(** Whatever the body of the [with] block does, the trace of [main] ends
    with what the block left, the cleanup and the final sleep. *)
Lemma main_trace (input_dir output_file : string) (w : World) :
  exists (r : ctl unit) (w2 : World),
    main_with_body input_dir output_file (tmp_name w)
      (mkdtemp (logged ("Analysis started for input directory: " +:+ input_dir) w))
    = (r, w2)
    /\ trace (main input_dir output_file w).2
       = trace w2 ++ [EvCleanup (tmp_name w); EvSleep 2].
Proof.
  destruct (main_with_body input_dir output_file (tmp_name w)
              (mkdtemp (logged ("Analysis started for input directory: " +:+ input_dir) w)))
    as [r w2] eqn:Hrun.
  exists r, w2. split; [reflexivity|].
  unfold main, call, try_finally, try_except.
  unfold bind at 1. rewrite log_output_logged.
  unfold bind at 1. unfold with_temporary_directory.
  change (tmp_name (logged _ w)) with (tmp_name w).
  rewrite Hrun.
  destruct r as [[]| |e]; rewrite ?log_output_logged; unfold time_sleep;
    world_simpl; now rewrite <- app_assoc.
Qed.

Lemma glob_run (pattern : string) (w : World) :
  glob pattern w = (Next (glob_files pattern w), w).
Proof. reflexivity. Qed.

Lemma merger_ok_later (w w' : World) :
  faulty w' = faulty w -> merger_ok w -> merger_ok w'.
Proof. intros H Hok n. rewrite H. apply Hok. Qed.

(** C10: when files were found but none of them came out of the normalizer
    (each was unsupported or failed to convert), [main] goes on to the merge
    step with the empty list: a merger is created, nothing is appended, and
    an empty [merged.pdf] is written in the temporary directory. *)
Theorem empty_list_is_still_merged (input_dir output_file : string) (w : World) :
  input_files_of input_dir w <> [] ->
  (ensure_pdf_format (input_files_of input_dir w) (tmp_name w)
     (at_normalize input_dir w)).1 = Next [] ->
  merger_ok w ->
  exists before after,
    trace (main input_dir output_file w).2
    = before
      ++ [EvMergerNew;
          EvMergerWrite (OsPath.join (tmp_name w) "merged.pdf") [];
          EvMergerClose]
      ++ after.
Proof.
  intros Hfiles Hempty Hok.
  destruct (main_trace input_dir output_file w) as (r & w2 & Hbody & Hmain).
  rewrite Hmain. clear Hmain.
  revert Hbody. unfold main_with_body.
  set (w1 := mkdtemp (logged ("Analysis started for input directory: " +:+ input_dir) w)).
  run_next glob_run idtac. run_next glob_run idtac. run_next glob_run idtac.
  cbv zeta.
  change (glob_files (OsPath.join input_dir "*.docx") w1
          ++ glob_files (OsPath.join input_dir "*.doc") w1
          ++ glob_files (OsPath.join input_dir "*.pdf") w1)
    with (input_files_of input_dir w).
  destruct (input_files_of input_dir w) as [|file files] eqn:Hin; [contradiction|].
  run_next log_output_logged idtac.
  change (logged "Ensuring all files are in PDF format..." w1)
    with (at_normalize input_dir w).
  assert (Hlater := steady_ensure_pdf_format (file :: files) (tmp_name w)
                      (at_normalize input_dir w)).
  destruct (ensure_pdf_format (file :: files) (tmp_name w) (at_normalize input_dir w))
    as [listed w3] eqn:Hnorm.
  cbn [fst snd] in Hempty, Hlater. subst listed.
  run_next Hnorm idtac.
  run_next log_output_logged idtac.
  destruct (merge_pdfs_run [] [] (OsPath.join (tmp_name w) "merged.pdf")
              (logged "Merging PDF files..." w3)) as (w4 & Hmerge & _ & Htrace).
  { constructor. }
  { apply (merger_ok_later w); [|exact Hok]. apply (extends_faulty _ _ Hlater). }
  run_next Hmerge idtac.
  match goal with
  | |- ?rest w4 = _ -> _ =>
      assert (Hrest : steady rest) by steady_steps;
      specialize (Hrest w4); intros Hrun; rewrite Hrun in Hrest
  end.
  cbn [snd] in Hrest.
  apply extends_trace in Hrest as (evs & ->).
  rewrite Htrace. world_simpl.
  exists (trace w3), (evs ++ [EvCleanup (tmp_name w); EvSleep 2]).
  cbn [map concat app]. now rewrite <- !app_assoc.
Qed.

Lemma empty_list_is_still_merged_witness :
  let w := sample_world [("C:\in\a.docx", Blob)] ["C:\in"] [] no_faults in
  input_files_of "C:\in" w <> []
  /\ (ensure_pdf_format (input_files_of "C:\in" w) (tmp_name w)
        (at_normalize "C:\in" w)).1 = Next []
  /\ merger_ok w
  /\ exists before after,
       trace (main "C:\in" "C:\Users\u\Documents\out.docx" w).2
       = before
         ++ [EvMergerNew; EvMergerWrite "C:\Temp\tmp1\merged.pdf" []; EvMergerClose]
         ++ after.
Proof.
  cbv zeta.
  assert (H1 : input_files_of "C:\in"
                 (sample_world [("C:\in\a.docx", Blob)] ["C:\in"] [] no_faults) <> [])
    by (vm_compute; discriminate).
  assert (H2 : (ensure_pdf_format
                  (input_files_of "C:\in"
                     (sample_world [("C:\in\a.docx", Blob)] ["C:\in"] [] no_faults))
                  (tmp_name (sample_world [("C:\in\a.docx", Blob)] ["C:\in"] [] no_faults))
                  (at_normalize "C:\in"
                     (sample_world [("C:\in\a.docx", Blob)] ["C:\in"] [] no_faults))).1
               = Next [])
    by (vm_compute; reflexivity).
  assert (H3 : merger_ok (sample_world [("C:\in\a.docx", Blob)] ["C:\in"] [] no_faults))
    by (intros n; repeat split).
  split; [exact H1|]. split; [exact H2|]. split; [exact H3|].
  exact (empty_list_is_still_merged "C:\in" "C:\Users\u\Documents\out.docx" _ H1 H2 H3).
Defined.

(** ** The script *)

Lemma input_run (prompt line : string) (rest : list string) (w : World) :
  stdin w = line :: rest ->
  input prompt w
  = (Next line, set_stdin (fun _ => rest) (set_console (fun c => c ++ [prompt]) w)).
Proof. intros H. unfold input. now rewrite H. Qed.

Lemma talked_trans (w1 w2 w3 : World) :
  talked w1 w2 -> talked w2 w3 -> talked w1 w3.
Proof.
  intros (? & ? & ? & ? & ? & ? & ? & (l1 & Hl1)) (? & ? & ? & ? & ? & ? & ? & (l2 & Hl2)).
  repeat split; try congruence.
  exists (l1 ++ l2). now rewrite Hl2, Hl1, app_assoc.
Qed.

Lemma talked_logged (message : string) (w : World) : talked w (logged message w).
Proof. repeat split. eexists. reflexivity. Qed.

Lemma display_intro_run (line : string) (rest : list string) (w : World) :
  stdin w = line :: rest ->
  exists w1,
    display_intro w = (Next tt, w1) /\ stdin w1 = rest /\ talked w w1.
Proof.
  intros Hin. unfold display_intro. cbv zeta.
  do 23 (run_next log_output_logged idtac).
  erewrite bind_next; [|apply (input_run _ line rest); exact Hin].
  eexists. split; [reflexivity|]. split; [reflexivity|].
  repeat split. world_simpl. eexists. rewrite <- !app_assoc. reflexivity.
Qed.

Lemma main_no_files (input_dir output_file : string) (w : World) :
  input_files_of input_dir w = [] ->
  main input_dir output_file w = (Next tt, after_no_files input_dir w).
Proof.
  intros Hnone. unfold main, call, try_finally, try_except.
  unfold bind at 1. rewrite log_output_logged.
  unfold bind at 1. unfold with_temporary_directory, main_with_body.
  set (w1 := mkdtemp (logged ("Analysis started for input directory: " +:+ input_dir) w)).
  run_next glob_run idtac. run_next glob_run idtac. run_next glob_run idtac.
  cbv zeta.
  change (glob_files (OsPath.join input_dir "*.docx") w1
          ++ glob_files (OsPath.join input_dir "*.doc") w1
          ++ glob_files (OsPath.join input_dir "*.pdf") w1)
    with (input_files_of input_dir w).
  rewrite Hnone.
  run_next log_output_logged idtac.
  reflexivity.
Qed.

Lemma input_files_of_fs (input_dir : string) (w w' : World) :
  fs w' = fs w -> input_files_of input_dir w' = input_files_of input_dir w.
Proof. intros H. unfold input_files_of, glob_files. now rewrite H. Qed.

Lemma log_either (b : bool) (message1 message2 : string) (w : World) :
  exists message,
    (if b then log_output message1 else log_output message2) w
    = (Next tt, logged message w).
Proof.
  destruct b; [exists message1|exists message2]; apply log_output_logged.
Qed.

Lemma get_run (w : World) : get w = (Next w, w).
Proof. reflexivity. Qed.

Lemma datetime_now_run (w : World) : datetime_now w = (Next (clock w), w).
Proof. reflexivity. Qed.

Lemma write_file_ok (path : string) (lines : list string) (w : World) :
  faulty w (length (trace w)) (EvFileWrite path) = None ->
  write_file path lines w
  = (Next tt, set_fs (<[path := TextFile lines]>) (emit [EvFileWrite path] w)).
Proof.
  intros H. unfold write_file.
  now rewrite (bind_next _ _ _ _ _ (external_ok _ _ H)).
Qed.

(** The run of the script once the user has named a folder that exists:
    [main] is entered with nothing done yet but talking, it returns, and
    the audit log is then written once, three lines before the end. *)
Lemma script_run (line folder name : string) (rest : list string) (w : World) :
  stdin w = line :: folder :: name :: rest ->
  PyStr.strip folder ∈ dirs w ->
  (forall n path, faulty w n (EvFileWrite path) = None) ->
  exists w0 w1 lines t,
    talked w w0 /\ stdin w0 = rest
    /\ main (PyStr.strip folder) (output_path name w) w0 = (Next tt, w1)
    /\ (exists more, lines = output_capture w1 ++ more)
    /\ fs (script w).2 = <[audit_path name w := TextFile lines]> (fs w1)
    /\ trace (script w).2 = trace w1 ++ [EvFileWrite (audit_path name w)]
    /\ output_capture (script w).2
       = lines ++ closing_lines (audit_path name w) (clock w) t.
Proof.
  intros Hin Hdir Hwrite.
  destruct (script w) as [r wf] eqn:Hscript. cbn [snd].
  revert Hscript. unfold script.
  run_next (eq_refl (datetime_now w)) idtac.
  run_next log_output_logged idtac.
  set (wa := logged ("Script execution started at " +:+ strftime (clock w)) w).
  destruct (display_intro_run line (folder :: name :: rest) wa Hin)
    as (wb & Hintro & Hinb & Htalk).
  run_next Hintro idtac.
  run_next (input_run "Enter the path to the folder containing the files: "
              folder (name :: rest) wb Hinb) idtac.
  cbv zeta.
  set (wc := set_stdin _ (set_console _ wb)).
  assert (Htc : talked w wc).
  { apply (talked_trans _ wa); [apply talked_logged|].
    apply (talked_trans _ wb); [exact Htalk|]. repeat split.
    exists []. now rewrite app_nil_r. }
  unfold bind at 1. unfold os_path_isdir at 1.
  destruct Htc as (Hfs & Hdirs & Hclock & Htrace & Hfaulty & Htmp & Hhome & Hcap).
  rewrite Hdirs, bool_decide_eq_true_2 by exact Hdir. cbn [negb].
  unfold bind at 1.
  run_next (input_run "Enter the name for the final output DOCX file (e.g., final_document.docx): "
              name rest wc eq_refl) idtac.
  cbv zeta.
  unfold bind at 1. unfold expanduser_home at 1. world_simpl.
  rewrite Hhome.
  change (OsPath.join (OsPath.join (home w) "Documents")
            (if negb (PyStr.endswith (PyStr.strip name) ".docx")
             then PyStr.strip name +:+ ".docx" else PyStr.strip name))
    with (output_path name w).
  change (OsPath.join (OsPath.dirname (output_path name w)) "audit_log.txt")
    with (audit_path name w).
  set (w0 := set_stdin (fun _ => rest) (set_console _ wc)).
  destruct (main_returns (PyStr.strip folder) (output_path name w) w0)
    as (w1 & Hmain).
  assert (Hlater := steady_main (PyStr.strip folder) (output_path name w) w0).
  rewrite Hmain in Hlater. cbn [snd] in Hlater.
  run_next Hmain idtac.
  run_next log_output_logged idtac.
  unfold bind at 1. unfold os_path_exists at 1.
  set (w2 := logged _ w1).
  match goal with
  | |- context [bind (if ?b then log_output ?m1 else log_output ?m2) _ w2] =>
      destruct (log_either b m1 m2 w2) as (message & Hlog)
  end.
  run_next Hlog idtac.
  run_next get_run idtac.
  set (w3 := logged message w2).
  assert (Hf3 : faulty w3 = faulty w).
  { change (faulty w3) with (faulty w1).
    rewrite (extends_faulty _ _ Hlater). exact Hfaulty. }
  run_next write_file_ok ltac:(rewrite Hf3; apply Hwrite).
  rewrite log_output_logged.
  cbv beta iota.
  run_next datetime_now_run idtac.
  run_next log_output_logged idtac.
  run_next log_output_logged idtac.
  unfold bind at 1. unfold input at 1. world_simpl.
  assert (Hc0 : talked w w0).
  { repeat split; try assumption. }
  assert (Hfinal : forall wf' : World,
             fs wf' = <[audit_path name w := TextFile (output_capture w3)]> (fs w1) ->
             trace wf' = trace w1 ++ [EvFileWrite (audit_path name w)] ->
             output_capture wf'
             = output_capture w3
               ++ closing_lines (audit_path name w) (clock w) (clock w1) ->
             exists w0 w1 lines t,
               talked w w0 /\ stdin w0 = rest
               /\ main (PyStr.strip folder) (output_path name w) w0 = (Next tt, w1)
               /\ (exists more, lines = output_capture w1 ++ more)
               /\ fs wf' = <[audit_path name w := TextFile lines]> (fs w1)
               /\ trace wf' = trace w1 ++ [EvFileWrite (audit_path name w)]
               /\ output_capture wf'
                  = lines ++ closing_lines (audit_path name w) (clock w) t).
  { intros wf' H1 H2 H3.
    exists w0, w1, (output_capture w3), (clock w1).
    split; [exact Hc0|]. split; [reflexivity|]. split; [exact Hmain|].
    split; [|auto].
    eexists. subst w3 w2. world_simpl. rewrite <- app_assoc. reflexivity. }
  destruct (stdin w3); unfold ret; intros [= <- <-]; apply Hfinal;
    subst w3 w2; world_simpl; try reflexivity;
    unfold closing_lines; now rewrite <- !app_assoc.
Qed.

Lemma filter_none {A} (f : A -> bool) (l : list A) :
  Forall (fun x => f x = false) l -> List.filter f l = [].
Proof.
  induction 1 as [|x l Hx _ IH]; [reflexivity|]. cbn. now rewrite Hx.
Qed.

(** C4, as the code has it: in a run whose source folder exists, the audit
    log is written exactly once; the file holds, in order, every timestamped
    message emitted before it is written, and exactly three timestamped
    messages follow the write (that the file was created, the completion
    time, the total time), which the file does not hold. *)
Theorem audit_log_precedes_closing_lines (line folder name : string)
    (rest : list string) (w : World) :
  stdin w = line :: folder :: name :: rest ->
  PyStr.strip folder ∈ dirs w ->
  (forall n path, faulty w n (EvFileWrite path) = None) ->
  exists lines t,
    fs (script w).2 !! audit_path name w = Some (TextFile lines)
    /\ (exists earlier, lines = output_capture w ++ earlier)
    /\ output_capture (script w).2
       = lines ++ closing_lines (audit_path name w) (clock w) t
    /\ List.filter is_file_write (trace (script w).2)
       = List.filter is_file_write (trace w) ++ [EvFileWrite (audit_path name w)].
Proof.
  intros Hin Hdir Hwrite.
  destruct (script_run line folder name rest w Hin Hdir Hwrite)
    as (w0 & w1 & lines & t & Htalk & _ & Hmain & (more & Hlines) & Hfs & Htrace & Hcap).
  assert (Hlater := steady_main (PyStr.strip folder) (output_path name w) w0).
  rewrite Hmain in Hlater. cbn [snd] in Hlater.
  destruct Hlater as (_ & _ & _ & (evs & Hevs & Hnone) & (logged1 & Hlogged1)).
  destruct Htalk as (_ & _ & _ & Htrace0 & _ & _ & _ & (logged0 & Hlogged0)).
  exists lines, t. split; [|split; [|split]].
  - rewrite Hfs. apply lookup_insert_eq.
  - exists (logged0 ++ logged1 ++ more).
    now rewrite Hlines, Hlogged1, Hlogged0, <- !app_assoc.
  - exact Hcap.
  - rewrite Htrace, Hevs, Htrace0, !List.filter_app, (filter_none _ evs Hnone).
    now rewrite app_nil_r.
Qed.

(** C5, as the code has it: when the source directory holds no file with a
    word-processor or PDF extension, the pipeline logs that none were found
    and ends without calling a converter or the merger and without creating
    any document; the script then goes on and writes the audit log, which
    holds that message. *)
Theorem no_files_audit_log_still_written (line folder name : string)
    (rest : list string) (w : World) :
  stdin w = line :: folder :: name :: rest ->
  PyStr.strip folder ∈ dirs w ->
  input_files_of (PyStr.strip folder) w = [] ->
  (forall n path, faulty w n (EvFileWrite path) = None) ->
  exists lines,
    log_line (clock w) "No DOC, DOCX, or PDF files found in the directory." ∈ lines
    /\ fs (script w).2 !! audit_path name w = Some (TextFile lines)
    /\ trace (script w).2
       = trace w ++ [EvMkdtemp (tmp_name w); EvCleanup (tmp_name w); EvSleep 2;
                     EvFileWrite (audit_path name w)]
    /\ forall p, p <> audit_path name w ->
         fs w !! p = None -> fs (script w).2 !! p = None.
Proof.
  intros Hin Hdir Hnone Hwrite.
  destruct (script_run line folder name rest w Hin Hdir Hwrite)
    as (w0 & w1 & lines & t & Htalk & _ & Hmain & (more & Hlines) & Hfs & Htrace & _).
  destruct Htalk as (Hfs0 & _ & Hclock0 & Htrace0 & _ & Htmp0 & _ & (logged0 & Hlogged0)).
  rewrite main_no_files in Hmain
    by (rewrite (input_files_of_fs _ w w0 Hfs0); exact Hnone).
  injection Hmain as <-.
  exists lines. split; [|split; [|split]].
  - rewrite Hlines. unfold after_no_files. world_simpl. rewrite Hclock0.
    rewrite !elem_of_app, !list_elem_of_singleton. tauto.
  - rewrite Hfs. apply lookup_insert_eq.
  - rewrite Htrace. unfold after_no_files. world_simpl.
    now rewrite Htrace0, Htmp0, <- !app_assoc.
  - intros p Hp Habsent. rewrite Hfs, lookup_insert_ne by congruence.
    unfold after_no_files. world_simpl.
    apply map_lookup_filter_None_2. left. now rewrite Hfs0.
Qed.

Lemma audit_log_precedes_closing_lines_witness :
  stdin idle_run = [""; "C:\in"; "out"; ""]
  /\ PyStr.strip "C:\in" ∈ dirs idle_run
  /\ exists lines t,
       fs (script idle_run).2 !! audit_path "out" idle_run = Some (TextFile lines)
       /\ (exists earlier, lines = output_capture idle_run ++ earlier)
       /\ output_capture (script idle_run).2
          = lines ++ closing_lines (audit_path "out" idle_run) (clock idle_run) t
       /\ List.filter is_file_write (trace (script idle_run).2)
          = List.filter is_file_write (trace idle_run)
            ++ [EvFileWrite (audit_path "out" idle_run)].
Proof.
  assert (Hdir : PyStr.strip "C:\in" ∈ dirs idle_run) by (vm_compute; reflexivity).
  split; [reflexivity|]. split; [exact Hdir|].
  apply (audit_log_precedes_closing_lines "" "C:\in" "out" [""] idle_run);
    [reflexivity | exact Hdir | intros n path; reflexivity].
Defined.

(** C4, as stated, fails: in this run the audit log is written, and the
    line that reports the completion of the script is emitted after the
    write, so the file does not hold every timestamped message of the run. *)
Lemma audit_log_misses_closing_lines :
  exists lines,
    fs (script idle_run).2 !! "C:\Users\u\Documents\audit_log.txt"
    = Some (TextFile lines)
    /\ "[2] Script execution completed at 2" ∈ output_capture (script idle_run).2
    /\ "[2] Script execution completed at 2" ∉ lines.
Proof.
  eexists. split; [vm_compute; reflexivity|]. split.
  - refine (bool_decide_unpack (_ ∈ _) _). vm_compute. exact I.
  - refine (proj1 (bool_decide_eq_false (_ ∈ _)) _). vm_compute. reflexivity.
Qed.

Lemma no_files_audit_log_still_written_witness :
  stdin idle_run = [""; "C:\in"; "out"; ""]
  /\ PyStr.strip "C:\in" ∈ dirs idle_run
  /\ input_files_of (PyStr.strip "C:\in") idle_run = []
  /\ exists lines,
       log_line (clock idle_run) "No DOC, DOCX, or PDF files found in the directory."
         ∈ lines
       /\ fs (script idle_run).2 !! audit_path "out" idle_run = Some (TextFile lines)
       /\ trace (script idle_run).2
          = trace idle_run
            ++ [EvMkdtemp (tmp_name idle_run); EvCleanup (tmp_name idle_run);
                EvSleep 2; EvFileWrite (audit_path "out" idle_run)]
       /\ forall p, p <> audit_path "out" idle_run ->
            fs idle_run !! p = None -> fs (script idle_run).2 !! p = None.
Proof.
  assert (Hdir : PyStr.strip "C:\in" ∈ dirs idle_run) by (vm_compute; reflexivity).
  split; [reflexivity|]. split; [exact Hdir|]. split; [reflexivity|].
  apply (no_files_audit_log_still_written "" "C:\in" "out" [""] idle_run);
    [reflexivity | exact Hdir | reflexivity | intros n path; reflexivity].
Defined.

(** C5, as stated, fails: the folder of this run holds no word-processor or
    PDF file, [main] returns early, and the audit log, absent before the
    run, exists after it. *)
Lemma no_files_audit_log_exists :
  input_files_of "C:\in" idle_run = []
  /\ fs idle_run !! "C:\Users\u\Documents\audit_log.txt" = None
  /\ is_Some (fs (script idle_run).2 !! "C:\Users\u\Documents\audit_log.txt")
  /\ trace (script idle_run).2
     = [EvMkdtemp "C:\Temp\tmp1"; EvCleanup "C:\Temp\tmp1"; EvSleep 2;
        EvFileWrite "C:\Users\u\Documents\audit_log.txt"].
Proof.
  split; [reflexivity|]. split; [reflexivity|]. split.
  - eexists. vm_compute. reflexivity.
  - vm_compute. reflexivity.
Qed.

(** * Further properties *)

(** ** Talking *)

Lemma said_nil (w : World) : said [] w w.
Proof. repeat split. now rewrite app_nil_r. Qed.

Lemma said_app (l1 l2 : list string) (w1 w2 w3 : World) :
  said l1 w1 w2 -> said l2 w2 w3 -> said (l1 ++ l2) w1 w3.
Proof.
  intros (A1 & A2 & A3 & A4 & A5 & A6 & A7 & A8 & A9 & A10)
         (B1 & B2 & B3 & B4 & B5 & B6 & B7 & B8 & B9 & B10).
  repeat split; try congruence.
  now rewrite B10, A10, app_assoc.
Qed.

Lemma said_logged (message : string) (w : World) :
  said [log_line (clock w) message] w (logged message w).
Proof. repeat split. Qed.

Lemma said_read (prompt : string) (rest : list string) (w : World) :
  said [] w (set_stdin (fun _ => rest) (set_console (fun c => c ++ [prompt]) w)).
Proof. repeat split. cbn. now rewrite app_nil_r. Qed.

Lemma lower_char_idem (c : ascii) :
  PyStr.lower_char (PyStr.lower_char c) = PyStr.lower_char c.
Proof. each_char c. Qed.

Lemma lower_idem (s : string) : PyStr.lower (PyStr.lower s) = PyStr.lower s.
Proof.
  unfold PyStr.lower at 1. rewrite lower_chars, map_map.
  unfold PyStr.lower. f_equal. apply map_ext. intros c. apply lower_char_idem.
Qed.

(** ** Reading the search words *)

Lemma read_words_run (blank : string) (rest : list string) (typed : list string) :
  norm_word blank = "" ->
  Forall (fun line => norm_word line <> "") typed ->
  forall (words : list string) (w : World),
    stdin w = typed ++ blank :: rest ->
    exists w',
      read_words (typed ++ blank :: rest) words w
      = (Next (words ++ map norm_word typed), w')
      /\ stdin w' = rest
      /\ said (map (fun line => log_line (clock w)
                                  ("Added search word: " +:+ norm_word line)) typed)
           w w'.
Proof.
  intros Hblank Htyped.
  induction Htyped as [|line typed Hline _ IH]; intros words w Hin.
  - cbn [app read_words map].
    run_next (input_run "" blank rest w Hin) idtac. cbv zeta.
    fold (norm_word blank). rewrite Hblank. cbn [String.eqb].
    eexists. split; [unfold ret; now rewrite app_nil_r|]. split; [reflexivity|].
    apply said_read.
  - cbn [app read_words map].
    run_next (input_run "" line (typed ++ blank :: rest) w Hin) idtac. cbv zeta.
    fold (norm_word line).
    destruct (String.eqb_spec (norm_word line) "") as [Heq|_]; [contradiction|].
    run_next log_output_logged idtac.
    set (w0 := set_stdin _ (set_console _ w)).
    set (w1 := logged _ w0).
    destruct (IH (words ++ [norm_word line]) w1 eq_refl) as (w' & Hrun & Hrest & Hsaid).
    exists w'. split; [rewrite Hrun; now rewrite <- app_assoc|]. split; [exact Hrest|].
    apply (said_app [_] _ w w1 w'); [|exact Hsaid].
    apply (said_app [] [_] w w0 w1); [apply said_read|exact (said_logged _ w0)].
Qed.

Lemma get_words_to_search_run (blank : string) (typed rest : list string) (w : World) :
  stdin w = typed ++ blank :: rest ->
  norm_word blank = "" ->
  Forall (fun line => norm_word line <> "") typed ->
  exists w',
    get_words_to_search w = (Next (map norm_word typed), w')
    /\ stdin w' = rest
    /\ said (word_prompt_lines (clock w) typed) w w'.
Proof.
  intros Hin Hblank Htyped. unfold get_words_to_search.
  run_next log_output_logged idtac.
  run_next get_run idtac.
  set (w0 := logged _ w).
  change (stdin w0) with (stdin w). rewrite Hin.
  destruct (read_words_run blank rest typed Hblank Htyped [] w0 Hin)
    as (w' & Hrun & Hrest & Hsaid).
  exists w'. split; [exact Hrun|]. split; [exact Hrest|].
  unfold word_prompt_lines.
  apply (said_app [_] _ w w0 w'); [apply said_logged|exact Hsaid].
Qed.

(** X1: [get_words_to_search] reads the typed lines up to the first blank
    one, which it consumes, and leaves the lines after it unread; it returns
    the lines before it stripped and lowercased, in the order typed, and
    logs the prompt and one line for each word.  It touches no file and
    makes no external call. *)
Theorem get_words_to_search_reads_until_blank (blank : string)
    (typed rest : list string) (w : World) :
  stdin w = typed ++ blank :: rest ->
  norm_word blank = "" ->
  Forall (fun line => norm_word line <> "") typed ->
  exists w',
    get_words_to_search w = (Next (map norm_word typed), w')
    /\ stdin w' = rest
    /\ output_capture w' = output_capture w ++ word_prompt_lines (clock w) typed
    /\ Forall (fun word => PyStr.lower word = word /\ word <> "") (map norm_word typed)
    /\ fs w' = fs w /\ trace w' = trace w.
Proof.
  intros Hin Hblank Htyped.
  destruct (get_words_to_search_run blank typed rest w Hin Hblank Htyped)
    as (w' & Hrun & Hrest & (Hfs & _ & _ & Htrace & _ & _ & _ & _ & _ & Hcap)).
  exists w'. repeat split; try assumption.
  apply Forall_forall. intros word Hword.
  apply list_elem_of_In, in_map_iff in Hword as (line & <- & Hline).
  split; [apply lower_idem|].
  rewrite Forall_forall in Htyped. apply Htyped. now apply list_elem_of_In.
Qed.

Lemma get_words_to_search_reads_until_blank_witness :
  let w := sample_world [] [] [" Cat"; "DOG "; "  "; "unread"] no_faults in
  exists w',
    get_words_to_search w = (Next ["cat"; "dog"], w')
    /\ stdin w' = ["unread"]
    /\ output_capture w' = output_capture w ++ word_prompt_lines (clock w) [" Cat"; "DOG "]
    /\ Forall (fun word => PyStr.lower word = word /\ word <> "") ["cat"; "dog"]
    /\ fs w' = fs w /\ trace w' = trace w.
Proof.
  cbv zeta.
  apply (get_words_to_search_reads_until_blank "  " [" Cat"; "DOG "] ["unread"]).
  - reflexivity.
  - reflexivity.
  - repeat constructor; vm_compute; discriminate.
Defined.

Lemma read_words_eof (pending : list string) :
  Forall (fun line => norm_word line <> "") pending ->
  forall (words : list string) (w : World),
    stdin w = pending ->
    exists w',
      read_words pending words w = (Raised "EOF when reading a line", w')
      /\ stdin w' = [] /\ fs w' = fs w /\ trace w' = trace w.
Proof.
  induction 1 as [|line pending Hline _ IH]; intros words w Hin.
  - cbn [read_words]. unfold bind, input. rewrite Hin.
    eexists. repeat split. exact Hin.
  - cbn [read_words].
    run_next (input_run "" line pending w Hin) idtac. cbv zeta.
    fold (norm_word line).
    destruct (String.eqb_spec (norm_word line) "") as [Heq|_]; [contradiction|].
    run_next log_output_logged idtac.
    match goal with
    | |- context [read_words pending ?ws ?w1] =>
        destruct (IH ws w1 eq_refl) as (w' & Hrun & Hrest & Hfs & Htrace)
    end.
    exists w'. split; [exact Hrun|]. split; [exact Hrest|]. split; assumption.
Qed.

(** X2: when the input ends before a blank line is typed,
    [get_words_to_search] does not return the words read so far: it raises
    the [EOFError] of [input], having read every line. *)
Theorem get_words_to_search_needs_blank_line (w : World) :
  Forall (fun line => norm_word line <> "") (stdin w) ->
  exists w',
    get_words_to_search w = (Raised "EOF when reading a line", w')
    /\ stdin w' = [].
Proof.
  intros Htyped. unfold get_words_to_search.
  run_next log_output_logged idtac.
  run_next get_run idtac.
  match goal with
  | |- context [read_words ?p ?ws ?w1] =>
      destruct (read_words_eof p Htyped ws w1 eq_refl) as (w' & Hrun & Hrest & _)
  end.
  exists w'. split; [exact Hrun|exact Hrest].
Qed.

Lemma get_words_to_search_needs_blank_line_witness :
  let w := sample_world [] [] ["cat"; "dog"] no_faults in
  exists w',
    get_words_to_search w = (Raised "EOF when reading a line", w')
    /\ stdin w' = [].
Proof.
  cbv zeta. apply get_words_to_search_needs_blank_line.
  repeat constructor; vm_compute; discriminate.
Defined.

(** ** The script outside [main] *)

Ltac world_simpl_all :=
  cbn [set_fs set_dirs set_stdin set_console set_clock set_word_sessions
       set_open_documents set_trace set_output_capture emit logged mkdtemp rmtree
       fs dirs stdin console clock word_sessions open_documents trace
       output_capture faulty tmp_name home fst snd] in *.

(** X3: when the folder the user names is not a directory, the script
    logs that the path is not valid and goes straight to its closing lines:
    [main] is not run, no external call is made, no file is created or
    changed (so no audit log is written), and the name of the output is
    never asked for. *)
Theorem script_rejects_missing_folder (line folder : string) (rest : list string)
    (w : World) :
  stdin w = line :: folder :: rest ->
  PyStr.strip folder ∉ dirs w ->
  fs (script w).2 = fs w
  /\ dirs (script w).2 = dirs w
  /\ trace (script w).2 = trace w
  /\ stdin (script w).2 = tail rest
  /\ exists before,
       output_capture (script w).2
       = before
         ++ [log_line (clock w) "The provided path is not a valid directory.";
             log_line (clock w) ("Script execution completed at " +:+ strftime (clock w));
             log_line (clock w) ("Total execution time: " +:+ pretty (clock w - clock w))].
Proof.
  intros Hin Hdir.
  destruct (script w) as [r wf] eqn:Hscript. cbn [snd].
  revert Hscript. unfold script.
  run_next (eq_refl (datetime_now w)) idtac.
  run_next log_output_logged idtac.
  destruct (display_intro_run line (folder :: rest)
              (logged ("Script execution started at " +:+ strftime (clock w)) w) Hin)
    as (wb & Hintro & Hinb & (Hfs & Hdirs & Hclock & Htrace & _ & _ & _ & (said_b & Hcap))).
  world_simpl_all.
  run_next Hintro idtac.
  run_next (input_run "Enter the path to the folder containing the files: "
              folder rest wb Hinb) idtac.
  cbv zeta.
  unfold bind at 1. unfold os_path_isdir at 1. world_simpl.
  rewrite Hdirs, bool_decide_eq_false_2 by exact Hdir. cbn [negb].
  unfold bind at 1. rewrite log_output_logged.
  run_next datetime_now_run idtac.
  run_next log_output_logged idtac.
  run_next log_output_logged idtac.
  unfold bind at 1. unfold input at 1. world_simpl.
  rewrite Hclock.
  destruct rest as [|last rest']; unfold ret; intros [= <- <-]; world_simpl;
    rewrite ?Hclock, Hfs, Hdirs, Htrace, Hcap;
    (split; [reflexivity|]); (split; [reflexivity|]); (split; [reflexivity|]);
    (split; [reflexivity|]);
    exists ((output_capture w
             ++ [log_line (clock w)
                   ("Script execution started at " +:+ strftime (clock w))])
            ++ said_b);
    rewrite <- !app_assoc; cbn [app]; reflexivity.
Qed.
Lemma script_rejects_missing_folder_witness :
  let w := sample_world [("C:\in\a.pdf", PdfDoc ["a"])] ["C:\in"]
             [""; "C:\nowhere"; "out"; ""] no_faults in
  fs (script w).2 = fs w
  /\ dirs (script w).2 = dirs w
  /\ trace (script w).2 = trace w
  /\ stdin (script w).2 = [""]
  /\ exists before,
       output_capture (script w).2
       = before
         ++ [log_line (clock w) "The provided path is not a valid directory.";
             log_line (clock w) ("Script execution completed at " +:+ strftime (clock w));
             log_line (clock w) ("Total execution time: " +:+ pretty (clock w - clock w))].
Proof.
  cbv zeta.
  apply (script_rejects_missing_folder "" "C:\nowhere" ["out"; ""]).
  - reflexivity.
  - vm_compute. discriminate.
Defined.

(** ** The normalizer *)

(** The converter neither logs nor reads input. *)
Lemma convert_docx_to_pdf_silent (docx_file output_dir : string) (w w' : World)
    (r : ctl string) :
  convert_docx_to_pdf docx_file output_dir w = (r, w') ->
  output_capture w' = output_capture w /\ stdin w' = stdin w /\ clock w' = clock w.
Proof.
  unfold convert_docx_to_pdf, Word.Dispatch, Word.Documents_Open, Word.SaveAs,
    Word.Close, Word.Quit, bind, external, get, modify, ret, raise.
  world_simpl. case_faults; intros H; injection H as <- <-; repeat split.
Qed.

Lemma normalized_logs_each (output_dir : string) (files pdf_files : list string)
    (w w' : World) :
  normalized output_dir files w pdf_files w' ->
  length (output_capture w') = length (output_capture w) + length files.
Proof.
  induction 1 as [w
                 |file files w pdf_file w1 pdf_files w' _ Hconv _ IH
                 |file files w e w1 pdf_files w' _ Hconv _ IH
                 |file files w pdf_files w' _ _ _ IH
                 |file files w pdf_files w' _ _ _ IH];
    cbn [length]; [lia| | | |];
    rewrite IH; cbn [log_output fst snd]; world_simpl;
    try (apply convert_docx_to_pdf_silent in Hconv as (Hcap & _); rewrite <- Hcap);
    unfold log_output, bind, datetime_now, print, print_to_capture, modify;
    world_simpl; rewrite length_app; cbn [length]; lia.
Qed.

Lemma ensure_pdf_format_run (files : list string) (output_dir : string) (w : World) :
  exists pdf_files w',
    ensure_pdf_format files output_dir w = (Next pdf_files, w')
    /\ normalized output_dir files w pdf_files w'.
Proof.
  destruct (normalize_loop output_dir files [] w) as (added & w' & Hrun & Hnorm).
  exists added, w'. split; [exact Hrun|exact Hnorm].
Qed.

(** X4: whatever the entries are and whatever fails, [ensure_pdf_format]
    logs exactly one line for each entry of its input (converted, added,
    skipped, or the error). *)
Theorem ensure_pdf_format_logs_each_entry (files : list string) (output_dir : string)
    (w : World) :
  length (output_capture (ensure_pdf_format files output_dir w).2)
  = length (output_capture w) + length files.
Proof.
  destruct (ensure_pdf_format_run files output_dir w) as (added & w' & Hrun & Hnorm).
  rewrite Hrun. cbn [snd].
  now apply normalized_logs_each with output_dir added.
Qed.

Lemma normalized_pdfs (output_dir : string) (files pdf_files : list string)
    (w w' : World) :
  Forall (fun file => is_word_file file = false /\ is_pdf_file file = true) files ->
  normalized output_dir files w pdf_files w' ->
  pdf_files = files
  /\ said (map (fun file => log_line (clock w) ("Added existing PDF: " +:+ file)) files)
       w w'.
Proof.
  intros Hall Hnorm. induction Hnorm as [w
                 |file files w pdf_file w1 pdf_files w' Hword _ _ _
                 |file files w e w1 pdf_files w' Hword _ _ _
                 |file files w pdf_files w' _ _ _ IH
                 |file files w pdf_files w' _ Hpdf _ _].
  - split; [reflexivity|apply said_nil].
  - apply Forall_cons in Hall as ((Hw & _) & _). congruence.
  - apply Forall_cons in Hall as ((Hw & _) & _). congruence.
  - apply Forall_cons in Hall as (_ & Hall).
    destruct (IH Hall) as (-> & Hsaid). split; [reflexivity|].
    cbn [map]. change (?x :: ?l) with ([x] ++ l).
    eapply said_app; [apply said_logged|exact Hsaid].
  - apply Forall_cons in Hall as ((_ & Hp) & _). congruence.
Qed.

(** X5: a list that holds only PDF paths comes back from
    [ensure_pdf_format] as it is, duplicates included; no external
    library is called, no file is touched, and the log gains one
    "Added existing PDF" line for each entry, in order. *)
Theorem ensure_pdf_format_keeps_pdfs (files : list string) (output_dir : string)
    (w : World) :
  Forall (fun file => is_word_file file = false /\ is_pdf_file file = true) files ->
  exists w',
    ensure_pdf_format files output_dir w = (Next files, w')
    /\ fs w' = fs w
    /\ trace w' = trace w
    /\ output_capture w'
       = output_capture w
         ++ map (fun file => log_line (clock w) ("Added existing PDF: " +:+ file)) files.
Proof.
  intros Hall.
  destruct (ensure_pdf_format_run files output_dir w) as (added & w' & Hrun & Hnorm).
  destruct (normalized_pdfs _ _ _ _ _ Hall Hnorm)
    as (-> & Hfs & _ & _ & Htrace & _ & _ & _ & _ & _ & Hcap).
  exists w'. auto.
Qed.

Lemma ensure_pdf_format_keeps_pdfs_witness :
  exists w',
    ensure_pdf_format ["C:\in\b.pdf"; "C:\in\A.PDF"; "C:\in\b.pdf"] "C:\tmp"
      (sample_world [] [] [] no_faults)
    = (Next ["C:\in\b.pdf"; "C:\in\A.PDF"; "C:\in\b.pdf"], w')
    /\ fs w' = fs (sample_world [] [] [] no_faults)
    /\ trace w' = trace (sample_world [] [] [] no_faults)
    /\ output_capture w'
       = output_capture (sample_world [] [] [] no_faults)
         ++ map (fun file =>
                   log_line (clock (sample_world [] [] [] no_faults))
                     ("Added existing PDF: " +:+ file))
              ["C:\in\b.pdf"; "C:\in\A.PDF"; "C:\in\b.pdf"].
Proof.
  apply (ensure_pdf_format_keeps_pdfs ["C:\in\b.pdf"; "C:\in\A.PDF"; "C:\in\b.pdf"]).
  repeat constructor.
Defined.

Lemma convert_docx_to_pdf_export_fails (docx_file output_dir : string)
    (doc : list string) (e : string) (w : World) :
  fs w !! docx_file = Some (WordDoc doc) ->
  (forall n, faulty w n EvDispatch = None) ->
  (forall n, faulty w n (EvOpen docx_file) = None) ->
  (forall n, faulty w n (EvSaveAs docx_file (pdf_path docx_file output_dir)) = Some e) ->
  exists w',
    convert_docx_to_pdf docx_file output_dir w = (Raised e, w')
    /\ word_sessions w' = S (word_sessions w)
    /\ open_documents w' = docx_file :: open_documents w
    /\ fs w' = fs w
    /\ faulty w' = faulty w
    /\ output_capture w' = output_capture w
    /\ clock w' = clock w.
Proof.
  intros Hdoc Hdispatch Hopen Hsave. unfold convert_docx_to_pdf.
  run_next Dispatch_ok ltac:(apply Hdispatch).
  run_next Documents_Open_ok ltac:(apply Hopen || exact Hdoc).
  fold (pdf_path docx_file output_dir).
  run_raised SaveAs_raises ltac:(apply Hsave).
  eexists. split; [reflexivity|]. world_simpl. repeat split.
Qed.

Lemma normalized_exports_fail (output_dir : string) (files pdf_files : list string)
    (e : string) (w w' : World) :
  normalized output_dir files w pdf_files w' ->
  (forall n, faulty w n EvDispatch = None) ->
  (forall n file, faulty w n (EvOpen file) = None) ->
  (forall n file pdf, faulty w n (EvSaveAs file pdf) = Some e) ->
  Forall (fun file => is_word_file file = true
                      /\ exists doc, fs w !! file = Some (WordDoc doc)) files ->
  pdf_files = []
  /\ word_sessions w' = length files + word_sessions w
  /\ open_documents w' = rev files ++ open_documents w
  /\ fs w' = fs w
  /\ output_capture w'
     = output_capture w
       ++ map (fun file =>
                 log_line (clock w) ("Error processing file " +:+ file +:+ ": " +:+ e))
            files.
Proof.
  induction 1 as [w
                 |file files w pdf_file w1 pdf_files w' _ Hconv _ _
                 |file files w e' w1 pdf_files w' _ Hconv _ IH
                 |file files w pdf_files w' Hword _ _ _
                 |file files w pdf_files w' Hword _ _ _];
    intros Hdispatch Hopen Hsave Hall.
  - cbn. now rewrite app_nil_r.
  - apply Forall_cons in Hall as ((_ & doc & Hdoc) & _).
    destruct (convert_docx_to_pdf_export_fails file output_dir doc e w)
      as (w2 & Hrun & _); auto. congruence.
  - apply Forall_cons in Hall as ((_ & doc & Hdoc) & Hall).
    destruct (convert_docx_to_pdf_export_fails file output_dir doc e w)
      as (w2 & Hrun & Hsessions & Hdocs & Hfs & Hfaulty & Hcap & Hclock); auto.
    rewrite Hrun in Hconv. injection Hconv as <- <-.
    destruct IH as (-> & IHs & IHd & IHfs & IHcap).
    + intros n. cbn. rewrite Hfaulty. apply Hdispatch.
    + intros n f. cbn. rewrite Hfaulty. apply Hopen.
    + intros n f p. cbn. rewrite Hfaulty. apply Hsave.
    + eapply Forall_impl; [exact Hall|]. cbn. intros f (? & d & ?).
      split; [assumption|]. exists d. now rewrite Hfs.
    + cbn in IHs, IHd, IHfs, IHcap.
      rewrite IHs, IHd, IHfs, IHcap, Hsessions, Hdocs, Hfs, Hcap.
      cbn [length rev map]. rewrite <- !app_assoc. cbn [app].
      rewrite Hclock. repeat split. lia.
  - apply Forall_cons in Hall as ((Hw & _) & _). congruence.
  - apply Forall_cons in Hall as ((Hw & _) & _). congruence.
Qed.

(** X6: when every entry is a document that Word opens but cannot export,
    [ensure_pdf_format] still returns (an empty list), no file is
    written, each failure is logged, and every entry leaves one Word
    session running and its document open: the leftovers accumulate over
    the loop. *)
Theorem ensure_pdf_format_accumulates_sessions (files : list string)
    (output_dir e : string) (w : World) :
  (forall n, faulty w n EvDispatch = None) ->
  (forall n file, faulty w n (EvOpen file) = None) ->
  (forall n file pdf, faulty w n (EvSaveAs file pdf) = Some e) ->
  Forall (fun file => is_word_file file = true
                      /\ exists doc, fs w !! file = Some (WordDoc doc)) files ->
  exists w',
    ensure_pdf_format files output_dir w = (Next [], w')
    /\ word_sessions w' = length files + word_sessions w
    /\ open_documents w' = rev files ++ open_documents w
    /\ fs w' = fs w
    /\ output_capture w'
       = output_capture w
         ++ map (fun file =>
                   log_line (clock w) ("Error processing file " +:+ file +:+ ": " +:+ e))
              files.
Proof.
  intros Hdispatch Hopen Hsave Hall.
  destruct (ensure_pdf_format_run files output_dir w) as (added & w' & Hrun & Hnorm).
  destruct (normalized_exports_fail _ _ _ e _ _ Hnorm Hdispatch Hopen Hsave Hall)
    as (-> & Hrest).
  exists w'. split; [exact Hrun|exact Hrest].
Qed.

Lemma ensure_pdf_format_accumulates_sessions_witness :
  let w := sample_world [("C:\in\a.docx", WordDoc ["page one"]);
                         ("C:\in\b.doc", WordDoc ["page two"])] [] []
             (fun _ ev => match ev with
                          | EvSaveAs _ _ => Some "export failed"
                          | _ => None
                          end) in
  exists w',
    ensure_pdf_format ["C:\in\a.docx"; "C:\in\b.doc"] "C:\Temp\tmp1" w = (Next [], w')
    /\ word_sessions w' = 2
    /\ open_documents w' = ["C:\in\b.doc"; "C:\in\a.docx"]
    /\ fs w' = fs w
    /\ output_capture w'
       = [log_line 0 "Error processing file C:\in\a.docx: export failed";
          log_line 0 "Error processing file C:\in\b.doc: export failed"].
Proof.
  cbv zeta.
  apply (ensure_pdf_format_accumulates_sessions ["C:\in\a.docx"; "C:\in\b.doc"]
           "C:\Temp\tmp1" "export failed").
  - reflexivity.
  - reflexivity.
  - reflexivity.
  - repeat constructor; eexists; reflexivity.
Defined.

(** ** Paths and extensions *)

Lemma starts_with_app (p l : list ascii) : PyStr.starts_with p (p ++ l) = true.
Proof.
  induction p as [|c p IH]; [now destruct l|].
  cbn. now rewrite Ascii.eqb_refl, IH.
Qed.

Lemma endswith_chars (s suffix : string) (pre : list ascii) :
  PyStr.chars s = pre ++ PyStr.chars suffix -> PyStr.endswith s suffix = true.
Proof.
  intros H. unfold PyStr.endswith. rewrite H, rev_app_distr. apply starts_with_app.
Qed.

(** The second component is never lost by [os.path.join]. *)
Lemma join_ends (a b : string) :
  exists pre, PyStr.chars (OsPath.join a b) = pre ++ PyStr.chars b.
Proof.
  unfold OsPath.join.
  destruct (PyStr.chars b) as [|c l] eqn:Hb.
  - eexists. now rewrite app_nil_r.
  - destruct (OsPath.is_sep c); [exists []; now rewrite Hb|].
    destruct (rev (PyStr.chars a)) as [|x r]; [exists []; now rewrite Hb|].
    destruct (OsPath.is_sep x || Ascii.eqb x ":"%char).
    + exists (PyStr.chars a). now rewrite chars_app, Hb.
    + exists (PyStr.chars a ++ PyStr.chars "\").
      now rewrite !chars_app, Hb, <- app_assoc.
Qed.

Lemma pdf_path_chars (docx_file output_dir : string) :
  exists pre, PyStr.chars (PyStr.lower (pdf_path docx_file output_dir))
              = pre ++ PyStr.chars ".pdf".
Proof.
  unfold pdf_path.
  destruct (join_ends output_dir
              ((OsPath.splitext (OsPath.basename docx_file)).1 +:+ ".pdf"))
    as (pre & Hjoin).
  rewrite lower_chars, Hjoin, chars_app, app_assoc, map_app. eauto.
Qed.

Lemma pdf_path_is_pdf (docx_file output_dir : string) :
  is_word_file (pdf_path docx_file output_dir) = false
  /\ is_pdf_file (pdf_path docx_file output_dir) = true.
Proof.
  destruct (pdf_path_chars docx_file output_dir) as (pre & Hchars).
  unfold is_word_file, is_pdf_file, PyStr.endswith.
  rewrite Hchars, rev_app_distr. split; reflexivity.
Qed.

(** X7: the path the converter returns is one the normalizer classifies as
    a PDF and not as a document, whatever the input path and directory;
    so replacing an entry by its normal form twice is the same as
    replacing it once. *)
Theorem converted_path_is_pdf (docx_file output_dir : string) :
  is_word_file (pdf_path docx_file output_dir) = false
  /\ is_pdf_file (pdf_path docx_file output_dir) = true
  /\ forall dir, normal_form dir (normal_form output_dir docx_file)
                 = normal_form output_dir docx_file.
Proof.
  destruct (pdf_path_is_pdf docx_file output_dir) as (Hword & Hpdf).
  repeat split; [exact Hword|exact Hpdf|].
  intros dir. unfold normal_form at 2 3.
  destruct (is_word_file docx_file) eqn:H; unfold normal_form.
  - now rewrite Hword.
  - now rewrite H.
Qed.

Lemma normalized_all_pdfs (output_dir : string) (files pdf_files : list string)
    (w w' : World) :
  normalized output_dir files w pdf_files w' ->
  Forall (fun file => is_word_file file = false /\ is_pdf_file file = true) pdf_files.
Proof.
  induction 1 as [w
                 |file files w pdf_file w1 pdf_files w' Hword Hconv _ IH
                 |file files w e w1 pdf_files w' _ _ _ IH
                 |file files w pdf_files w' Hword Hpdf _ IH
                 |file files w pdf_files w' _ _ _ IH]; auto.
  apply convert_docx_to_pdf_path in Hconv as ->.
  constructor; [apply pdf_path_is_pdf|exact IH].
Qed.

(** X8: [ensure_pdf_format] is idempotent: every entry of its result is a
    PDF path, and handing the result to it again, with any directory,
    returns the same list without calling a library or touching a file. *)
Theorem ensure_pdf_format_idempotent (files : list string) (output_dir dir : string)
    (w : World) :
  exists pdf_files w1 w2,
    ensure_pdf_format files output_dir w = (Next pdf_files, w1)
    /\ Forall (fun file => is_pdf_file file = true) pdf_files
    /\ ensure_pdf_format pdf_files dir w1 = (Next pdf_files, w2)
    /\ trace w2 = trace w1
    /\ fs w2 = fs w1.
Proof.
  destruct (ensure_pdf_format_run files output_dir w) as (pdf_files & w1 & Hrun & Hnorm).
  apply normalized_all_pdfs in Hnorm.
  destruct (ensure_pdf_format_run pdf_files dir w1) as (again & w2 & Hrun2 & Hnorm2).
  destruct (normalized_pdfs _ _ _ _ _ Hnorm Hnorm2)
    as (-> & Hfs & _ & _ & Htrace & _).
  exists pdf_files, w1, w2. repeat split; auto.
  eapply Forall_impl; [exact Hnorm|]. now intros file (_ & H).
Qed.

(** X9: two documents whose names differ only in what precedes the base
    name or in the extension are converted to the same path in the
    temporary directory: the list then holds that path twice, and the file
    holds the pages of the second document only. *)
Theorem same_stem_documents_collide (first second output_dir : string)
    (doc1 doc2 : list string) (w : World) :
  is_word_file first = true ->
  is_word_file second = true ->
  pdf_path first output_dir = pdf_path second output_dir ->
  fs w !! first = Some (WordDoc doc1) ->
  fs w !! second = Some (WordDoc doc2) ->
  (forall n ev, faulty w n ev = None) ->
  exists w',
    ensure_pdf_format [first; second] output_dir w
    = (Next [pdf_path second output_dir; pdf_path second output_dir], w')
    /\ fs w' = <[pdf_path second output_dir := PdfDoc doc2]> (fs w).
Proof.
  intros Hword1 Hword2 Hsame Hdoc1 Hdoc2 Hok.
  destruct (convert_docx_to_pdf_releases first output_dir doc1 w Hdoc1 Hok)
    as (w1 & Hrun1 & _ & Hfs1 & _).
  pose proof (steady_convert_docx_to_pdf first output_dir w) as Hext1.
  rewrite Hrun1 in Hext1. apply extends_faulty in Hext1. cbn [snd] in Hext1.
  assert (Hne : pdf_path first output_dir <> second).
  { intros Heq. destruct (pdf_path_is_pdf first output_dir) as (H & _).
    rewrite Heq in H. congruence. }
  set (w1' := (log_output ("Converted " +:+ first +:+ " to PDF") w1).2).
  destruct (convert_docx_to_pdf_releases second output_dir doc2 w1')
    as (w2 & Hrun2 & _ & Hfs2 & _).
  { subst w1'. cbn. rewrite Hfs1, lookup_insert_ne; [exact Hdoc2|exact Hne]. }
  { intros n ev. subst w1'. cbn. rewrite Hext1. apply Hok. }
  subst w1'.
  destruct (ensure_pdf_format_run [first; second] output_dir w)
    as (pdf_files & w' & Hrun & Hnorm).
  exists w'. rewrite Hrun.
  inversion Hnorm as [|? ? ? p1 u1 rest1 ? _ Hconv1 Hnorm1
                      |? ? ? ? ? ? ? _ Hconv1 _| |]; subst; try congruence.
  rewrite Hrun1 in Hconv1. injection Hconv1 as <- <-.
  inversion Hnorm1 as [|? ? ? p2 u2 rest2 ? _ Hconv2 Hnorm2
                       |? ? ? ? ? ? ? _ Hconv2 _| |]; subst; try congruence.
  rewrite Hrun2 in Hconv2. injection Hconv2 as <- <-.
  inversion Hnorm2; subst.
  rewrite Hsame. split; [reflexivity|].
  cbn. rewrite Hfs2. cbn. rewrite Hfs1, Hsame. apply insert_insert_eq.
Qed.

Lemma same_stem_documents_collide_witness :
  let w := sample_world [("C:\in\a.docx", WordDoc ["new"]);
                         ("C:\in\a.doc", WordDoc ["old"])] [] [] no_faults in
  exists w',
    ensure_pdf_format ["C:\in\a.docx"; "C:\in\a.doc"] "C:\Temp\tmp1" w
    = (Next ["C:\Temp\tmp1\a.pdf"; "C:\Temp\tmp1\a.pdf"], w')
    /\ fs w' = <["C:\Temp\tmp1\a.pdf" := PdfDoc ["old"]]> (fs w).
Proof.
  cbv zeta.
  apply (same_stem_documents_collide "C:\in\a.docx" "C:\in\a.doc" "C:\Temp\tmp1"
           ["new"] ["old"]); reflexivity.
Defined.

(** ** The merger on a file it cannot read *)

Lemma for_each_app {A S} (xs ys : list A) (body : S -> A -> M S) (s : S) (w : World) :
  for_each (xs ++ ys) body s w
  = bind (for_each xs body s) (fun s' => for_each ys body s') w.
Proof.
  revert s w. induction xs as [|x xs IH]; intros s w; [reflexivity|].
  cbn [app for_each]. unfold bind.
  destruct (body s x w) as [[s'| |e] w']; [|reflexivity|reflexivity].
  rewrite IH. reflexivity.
Qed.

Lemma append_unreadable (merger : list string) (pdf : string) (w : World) :
  faulty w (length (trace w)) (EvMergerAppend pdf) = None ->
  (forall pages, fs w !! pdf <> Some (PdfDoc pages)) ->
  PyPDF2.append merger pdf w
  = (Raised ("cannot read " +:+ pdf), emit [EvMergerAppend pdf] w).
Proof.
  intros Hok Hbad. unfold PyPDF2.append.
  rewrite (bind_next _ _ _ _ _ (external_ok _ _ Hok)).
  unfold bind, get. world_simpl.
  destruct (fs w !! pdf) as [[]|] eqn:H; try reflexivity.
  now destruct (Hbad pages).
Qed.

Lemma merge_pdfs_unreadable_run (good : list string) (bad : string)
    (rest : list string) (pagess : list (list string)) (output_pdf : string)
    (w : World) :
  pdfs_of w good pagess ->
  (forall pages, fs w !! bad <> Some (PdfDoc pages)) ->
  (forall n, faulty w n EvMergerNew = None) ->
  (forall n pdf, faulty w n (EvMergerAppend pdf) = None) ->
  exists w',
    merge_pdfs (good ++ bad :: rest) output_pdf w
    = (Raised ("cannot read " +:+ bad), w')
    /\ fs w' = fs w
    /\ trace w' = trace w ++ [EvMergerNew] ++ map EvMergerAppend good
                  ++ [EvMergerAppend bad]
    /\ backstage w w'.
Proof.
  intros Hgood Hbad Hnew Happend.
  unfold merge_pdfs, PyPDF2.PdfMerger.
  unfold bind at 1. unfold bind at 1.
  rewrite external_ok by apply Hnew. unfold ret at 1.
  unfold bind at 1. rewrite for_each_app.
  rewrite (bind_next _ _ _ _ _
             (append_all good pagess w Hgood Happend
                (emit [EvMergerNew] w) [] eq_refl eq_refl)).
  cbn [for_each].
  erewrite bind_raised;
    [|apply append_unreadable; world_simpl; [apply Happend|exact Hbad]].
  eexists. split; [reflexivity|]. world_simpl.
  rewrite <- !app_assoc. repeat split.
Qed.

(** X10: when an entry of the list cannot be read as a PDF, [merge_pdfs]
    raises at that entry: the entries before it have been appended, the
    entries after it are never looked at, nothing is written to the
    output path, nothing is logged, and the merger is not closed. *)
Theorem merge_pdfs_stops_at_unreadable (good : list string) (bad : string)
    (rest : list string) (pagess : list (list string)) (output_pdf : string)
    (w : World) :
  pdfs_of w good pagess ->
  (forall pages, fs w !! bad <> Some (PdfDoc pages)) ->
  (forall n, faulty w n EvMergerNew = None) ->
  (forall n pdf, faulty w n (EvMergerAppend pdf) = None) ->
  exists w',
    merge_pdfs (good ++ bad :: rest) output_pdf w
    = (Raised ("cannot read " +:+ bad), w')
    /\ fs w' = fs w
    /\ trace w' = trace w ++ [EvMergerNew] ++ map EvMergerAppend good
                  ++ [EvMergerAppend bad]
    /\ output_capture w' = output_capture w.
Proof.
  intros Hgood Hbad Hnew Happend.
  destruct (merge_pdfs_unreadable_run good bad rest pagess output_pdf w
              Hgood Hbad Hnew Happend)
    as (w' & Hrun & Hfs & Htrace & Hcap & _).
  exists w'. auto.
Qed.

Lemma merge_pdfs_stops_at_unreadable_witness :
  let w := sample_world [("C:\t\a.pdf", PdfDoc ["a1"; "a2"]);
                         ("C:\t\b.pdf", Blob);
                         ("C:\t\c.pdf", PdfDoc ["c1"])] [] [] no_faults in
  exists w',
    merge_pdfs (["C:\t\a.pdf"] ++ "C:\t\b.pdf" :: ["C:\t\c.pdf"]) "C:\t\merged.pdf" w
    = (Raised "cannot read C:\t\b.pdf", w')
    /\ fs w' = fs w
    /\ trace w' = [EvMergerNew; EvMergerAppend "C:\t\a.pdf"; EvMergerAppend "C:\t\b.pdf"]
    /\ output_capture w' = [].
Proof.
  cbv zeta.
  apply (merge_pdfs_stops_at_unreadable ["C:\t\a.pdf"] "C:\t\b.pdf" ["C:\t\c.pdf"]
           [["a1"; "a2"]]).
  - repeat constructor.
  - intros pages. vm_compute. discriminate.
  - reflexivity.
  - reflexivity.
Defined.

(** ** A folder of PDFs, end to end *)

Lemma backstage_refl (w : World) : backstage w w.
Proof. repeat split. Qed.

Lemma backstage_trans (w1 w2 w3 : World) :
  backstage w1 w2 -> backstage w2 w3 -> backstage w1 w3.
Proof.
  intros (A1 & A2 & A3 & A4 & A5 & A6) (B1 & B2 & B3 & B4 & B5 & B6).
  repeat split; congruence.
Qed.

Lemma normalized_stdin (output_dir : string) (files pdf_files : list string)
    (w w' : World) :
  normalized output_dir files w pdf_files w' -> stdin w' = stdin w.
Proof.
  induction 1 as [w
                 |file files w pdf_file w1 pdf_files w' _ Hconv _ IH
                 |file files w e w1 pdf_files w' _ Hconv _ IH
                 |file files w pdf_files w' _ _ _ IH
                 |file files w pdf_files w' _ _ _ IH];
    [reflexivity|..]; rewrite IH; cbn;
    try (apply convert_docx_to_pdf_silent in Hconv as (_ & Hin & _); exact Hin);
    reflexivity.
Qed.

Lemma merge_pdfs_backstage (pdf_files : list string) (pagess : list (list string))
    (output_pdf : string) (w : World) :
  pdfs_of w pdf_files pagess ->
  merger_ok w ->
  exists w',
    merge_pdfs pdf_files output_pdf w = (Next tt, w')
    /\ fs w' = <[output_pdf := PdfDoc (concat pagess)]> (fs w)
    /\ trace w' = trace w ++ [EvMergerNew] ++ map EvMergerAppend pdf_files
                  ++ [EvMergerWrite output_pdf (concat pagess); EvMergerClose]
    /\ backstage w w'.
Proof.
  intros Hpdfs Hok.
  unfold merge_pdfs, PyPDF2.PdfMerger.
  unfold bind at 1. unfold bind at 1.
  rewrite external_ok by apply Hok. unfold ret at 1.
  unfold bind at 1.
  rewrite (append_all pdf_files pagess w Hpdfs) by (reflexivity || apply Hok).
  cbn [app]. unfold PyPDF2.write, PyPDF2.close.
  unfold bind at 1. unfold bind at 1.
  rewrite external_ok by apply Hok.
  unfold modify at 1.
  rewrite external_ok by apply Hok.
  eexists. split; [reflexivity|]. split; [reflexivity|].
  world_simpl. rewrite <- !app_assoc. repeat split.
Qed.

Lemma convert_pdf_to_docx_run (pdf_file output_file : string) (pages : list string)
    (w : World) :
  fs w !! pdf_file = Some (PdfDoc pages) ->
  (forall n ev, faulty w n ev = None) ->
  exists w',
    convert_pdf_to_docx pdf_file output_file w = (Next tt, w')
    /\ fs w' = <[output_file := WordDoc pages]> (fs w)
    /\ trace w' = trace w ++ [EvConverterNew pdf_file; EvConvert pdf_file output_file;
                              EvConverterClose]
    /\ backstage w w'.
Proof.
  intros Hpdf Hok.
  unfold convert_pdf_to_docx, Pdf2docx.Converter, Pdf2docx.convert, Pdf2docx.close.
  unfold bind at 1. unfold bind at 1.
  rewrite external_ok by apply Hok.
  unfold bind at 1. unfold get at 1.
  change (fs (emit _ w)) with (fs w). rewrite Hpdf. unfold ret at 1.
  unfold bind at 1. unfold bind at 1.
  rewrite external_ok by apply Hok.
  unfold modify at 1.
  rewrite external_ok by apply Hok.
  eexists. split; [reflexivity|]. split; [reflexivity|].
  world_simpl. rewrite <- !app_assoc. repeat split.
Qed.

(** The loop that reports the counts. *)
Lemma report_run (t : nat) (word_counts : dict) :
  forall w : World,
    clock w = t ->
    exists w',
      for_each word_counts
        (fun (_ : unit) (item : string * nat) =>
           log_output ("'" +:+ item.1 +:+ "': " +:+ pretty item.2 +:+ " occurrences"))
        tt w
      = (Next tt, w')
      /\ said (map (fun item : string * nat =>
                      log_line t ("'" +:+ item.1 +:+ "': " +:+ pretty item.2
                                  +:+ " occurrences"))
                 word_counts) w w'
      /\ stdin w' = stdin w.
Proof.
  induction word_counts as [|item word_counts IH]; intros w Hclock.
  - exists w. split; [reflexivity|]. split; [apply said_nil|reflexivity].
  - cbn [for_each map].
    rewrite (bind_next _ _ _ _ _ (log_output_logged _ w)).
    destruct (IH (logged ("'" +:+ item.1 +:+ "': " +:+ pretty item.2 +:+ " occurrences") w))
      as (w' & Hrun & Hsaid & Hin); [exact Hclock|].
    exists w'. split; [destruct item; exact Hrun|]. split; [|exact Hin].
    change (?x :: ?l) with ([x] ++ l).
    eapply said_app; [|exact Hsaid]. rewrite <- Hclock. apply said_logged.
Qed.

Lemma main_with_body_pdfs (input_dir output_file temp_dir blank : string)
    (pagess : list (list string)) (typed rest : list string) (w : World) :
  input_files_of input_dir w <> [] ->
  Forall (fun file => is_word_file file = false /\ is_pdf_file file = true)
    (input_files_of input_dir w) ->
  pdfs_of w (input_files_of input_dir w) pagess ->
  (forall n ev, faulty w n ev = None) ->
  output_file <> OsPath.join temp_dir "merged.pdf" ->
  stdin w = typed ++ blank :: rest ->
  norm_word blank = "" ->
  Forall (fun line => norm_word line <> "") typed ->
  exists w',
    main_with_body input_dir output_file temp_dir w = (Next tt, w')
    /\ fs w' = <[output_file := WordDoc (concat pagess)]>
                 (<[OsPath.join temp_dir "merged.pdf" := PdfDoc (concat pagess)]> (fs w))
    /\ trace w' = trace w
                  ++ pdf_folder_events (input_files_of input_dir w)
                       (OsPath.join temp_dir "merged.pdf") output_file
                       (concat pagess) (map norm_word typed)
    /\ output_capture w'
       = output_capture w
         ++ pdf_folder_lines (clock w) (input_files_of input_dir w) typed (concat pagess)
    /\ stdin w' = rest
    /\ clock w' = clock w
    /\ dirs w' = dirs w.
Proof.
  intros Hfiles Hpdf Hpages Hok Hout Hin Hblank Htyped.
  unfold main_with_body.
  run_next glob_run idtac. run_next glob_run idtac. run_next glob_run idtac.
  cbv zeta.
  change (glob_files (OsPath.join input_dir "*.docx") w
          ++ glob_files (OsPath.join input_dir "*.doc") w
          ++ glob_files (OsPath.join input_dir "*.pdf") w)
    with (input_files_of input_dir w).
  destruct (input_files_of input_dir w) as [|file files] eqn:Hlist; [contradiction|].
  clear Hfiles. set (input_files := file :: files) in *.
  set (merged := OsPath.join temp_dir "merged.pdf") in *.
  run_next log_output_logged idtac.
  (* normalize *)
  destruct (ensure_pdf_format_run input_files temp_dir
              (logged "Ensuring all files are in PDF format..." w))
    as (pdf_files & w1 & Hrun1 & Hnorm).
  pose proof (normalized_stdin _ _ _ _ _ Hnorm) as Hin1.
  destruct (normalized_pdfs _ _ _ _ _ Hpdf Hnorm)
    as (-> & Hfs1 & Hdirs1 & Hclock1 & Htrace1 & Hfaulty1 & _ & _ & _ & _ & Hcap1).
  run_next Hrun1 idtac.
  world_simpl_all.
  run_next log_output_logged idtac.
  (* merge *)
  destruct (merge_pdfs_backstage input_files pagess merged (logged "Merging PDF files..." w1))
    as (w2 & Hrun2 & Hfs2 & Htrace2
        & Hcap2 & Hin2 & Hclock2 & Hdirs2 & Hfaulty2 & _).
  { unfold pdfs_of. world_simpl. rewrite Hfs1. exact Hpages. }
  { intros n. world_simpl. rewrite Hfaulty1. repeat split; intros; apply Hok. }
  run_next Hrun2 idtac.
  world_simpl_all.
  run_next log_output_logged idtac.
  (* convert back *)
  destruct (convert_pdf_to_docx_run merged output_file (concat pagess)
              (logged "Converting merged PDF to DOCX..." w2))
    as (w3 & Hrun3 & Hfs3 & Htrace3
        & Hcap3 & Hin3 & Hclock3 & Hdirs3 & Hfaulty3 & _).
  { world_simpl. rewrite Hfs2. apply lookup_insert_eq. }
  { intros n ev. world_simpl. rewrite Hfaulty2, Hfaulty1. apply Hok. }
  run_next Hrun3 idtac.
  world_simpl_all.
  (* the words *)
  destruct (get_words_to_search_run blank typed rest w3)
    as (w4 & Hrun4 & Hin4 & Hfs4 & Hdirs4 & Hclock4 & Htrace4 & Hfaulty4 & _ & _ & _ & _
        & Hcap4); [congruence|exact Hblank|exact Htyped|].
  run_next Hrun4 idtac.
  assert (Hfs : fs w4 = <[output_file := WordDoc (concat pagess)]>
                          (<[merged := PdfDoc (concat pagess)]> (fs w)))
    by congruence.
  assert (Hclock : clock w4 = clock w) by congruence.
  assert (Hdirs : dirs w4 = dirs w) by congruence.
  assert (Hcap : output_capture w4
                 = output_capture w
                   ++ [log_line (clock w) "Ensuring all files are in PDF format..."]
                   ++ map (fun file => log_line (clock w) ("Added existing PDF: " +:+ file))
                        input_files
                   ++ [log_line (clock w) "Merging PDF files...";
                       log_line (clock w) "Converting merged PDF to DOCX..."]
                   ++ word_prompt_lines (clock w) typed).
  { rewrite Hcap4, Hcap3, Hcap2, Hcap1, Hclock3, Hclock2, Hclock1.
    rewrite <- !app_assoc. reflexivity. }
  assert (Htrace : trace w4
                   = trace w ++ [EvMergerNew] ++ map EvMergerAppend input_files
                     ++ [EvMergerWrite merged (concat pagess); EvMergerClose;
                         EvConverterNew merged; EvConvert merged output_file;
                         EvConverterClose]).
  { rewrite Htrace4, Htrace3, Htrace2, Htrace1. rewrite <- !app_assoc. reflexivity. }
  clear Hcap4 Hcap3 Hcap2 Hcap1 Htrace4 Htrace3 Htrace2 Htrace1.
  unfold pdf_folder_events, pdf_folder_lines, result_lines.
  destruct (map norm_word typed) as [|word words] eqn:Hwords.
  - exists w4. split; [reflexivity|].
    rewrite Hfs, Htrace, Hcap, Hclock, Hdirs, !app_nil_r.
    repeat split; assumption.
  - assert (Hread : readable merged (concat pagess) w4).
    { split.
      - rewrite Hfs, lookup_insert_ne by congruence. apply lookup_insert_eq.
      - intros n. rewrite Hfaulty4, Hfaulty3, Hfaulty2, Hfaulty1. split; apply Hok. }
    run_next count_word_frequency_run ltac:(exact Hread).
    run_next log_output_logged idtac.
    match goal with
    | |- context [for_each _ _ tt ?w5] =>
        destruct (report_run (clock w) (tally (word :: words) (concat pagess)) w5)
          as (w6 & Hrun6 & (Hfs6 & Hdirs6 & Hclock6 & Htrace6 & _ & _ & _ & _ & _ & Hcap6)
              & Hin6); [exact Hclock|]
    end.
    exists w6. split; [exact Hrun6|].
    world_simpl_all.
    rewrite Hfs6, Htrace6, Hcap6, Hin6, Hclock6, Hdirs6, Hfs, Htrace, Hcap, Hclock, Hdirs.
    rewrite <- !app_assoc. cbn [app]. repeat split. exact Hin4.
Qed.

Lemma rmtree_outside (dir p : string) (w : World) :
  inside dir p = false -> fs (rmtree dir w) !! p = fs w !! p.
Proof.
  intros Hp. unfold rmtree. world_simpl.
  destruct (fs w !! p) as [c|] eqn:H.
  - apply map_lookup_filter_Some_2; [exact H|exact Hp].
  - apply map_lookup_filter_None_2. now left.
Qed.

(** X11: a run of [main] over a folder that holds only readable PDFs,
    with libraries that do not fail.  The output document holds the pages
    of the inputs in the order of the enumeration; the libraries are called
    in the order merger, converter, reader (the reader only when a word was
    typed); the log holds, in order, the start line, one line per input,
    the step lines, the prompt and the words, the report, and the closing
    line; the input is consumed up to and including the blank line; files
    outside the temporary directory other than the output are as they
    were. *)
Theorem main_merges_pdf_folder (input_dir output_file blank : string)
    (pagess : list (list string)) (typed rest : list string) (w : World) :
  input_files_of input_dir w <> [] ->
  Forall (fun file => is_word_file file = false /\ is_pdf_file file = true)
    (input_files_of input_dir w) ->
  pdfs_of w (input_files_of input_dir w) pagess ->
  (forall n ev, faulty w n ev = None) ->
  inside (tmp_name w) output_file = false ->
  output_file <> OsPath.join (tmp_name w) "merged.pdf" ->
  stdin w = typed ++ blank :: rest ->
  norm_word blank = "" ->
  Forall (fun line => norm_word line <> "") typed ->
  exists w',
    main input_dir output_file w = (Next tt, w')
    /\ fs w' !! output_file = Some (WordDoc (concat pagess))
    /\ (forall p, inside (tmp_name w) p = false ->
                  p <> output_file -> p <> OsPath.join (tmp_name w) "merged.pdf" ->
                  fs w' !! p = fs w !! p)
    /\ trace w'
       = trace w ++ [EvMkdtemp (tmp_name w)]
         ++ pdf_folder_events (input_files_of input_dir w)
              (OsPath.join (tmp_name w) "merged.pdf") output_file
              (concat pagess) (map norm_word typed)
         ++ [EvCleanup (tmp_name w); EvSleep 2]
    /\ output_capture w'
       = output_capture w
         ++ [log_line (clock w) ("Analysis started for input directory: " +:+ input_dir)]
         ++ pdf_folder_lines (clock w) (input_files_of input_dir w) typed (concat pagess)
         ++ [log_line (clock w) ("Merged document saved as " +:+ output_file)]
    /\ stdin w' = rest
    /\ clock w' = clock w + 2.
Proof.
  intros Hfiles Hpdf Hpages Hok Hinside Hout Hin Hblank Htyped.
  destruct (main_with_body_pdfs input_dir output_file (tmp_name w) blank pagess typed rest
              (mkdtemp (logged ("Analysis started for input directory: " +:+ input_dir) w)))
    as (w2 & Hrun & Hfs & Htrace & Hcap & Hin2 & Hclock & Hdirs); try assumption.
  unfold main, call, try_finally, try_except.
  unfold bind at 1. rewrite log_output_logged.
  unfold bind at 1. unfold with_temporary_directory.
  change (tmp_name (logged _ w)) with (tmp_name w).
  rewrite Hrun. rewrite log_output_logged. unfold time_sleep.
  eexists. split; [reflexivity|].
  world_simpl_all.
  change (fs (set_fs ?f ?x)) with (f (fs x)).
  split; [|split; [|split; [|split; [|split]]]].
  - change (filter _ (fs _)) with (fs (rmtree (tmp_name w) w2)).
    rewrite rmtree_outside, Hfs by exact Hinside. apply lookup_insert_eq.
  - intros p Hp Hne1 Hne2.
    change (filter _ (fs _)) with (fs (rmtree (tmp_name w) w2)).
    rewrite rmtree_outside, Hfs by exact Hp.
    now rewrite !lookup_insert_ne by congruence.
  - rewrite Htrace. now rewrite <- !app_assoc.
  - rewrite Hcap, Hclock. now rewrite <- !app_assoc.
  - exact Hin2.
  - now rewrite Hclock.
Qed.

Lemma main_merges_pdf_folder_witness :
  let w := sample_world [("C:\in\a.pdf", PdfDoc ["The cat"; "sat"]);
                         ("C:\in\b.pdf", PdfDoc ["the end"]);
                         ("C:\in\notes.txt", Blob)] ["C:\in"]
             ["The "; ""; "later"] no_faults in
  exists w',
    main "C:\in" "C:\Users\u\Documents\out.docx" w = (Next tt, w')
    /\ fs w' !! "C:\Users\u\Documents\out.docx"
       = Some (WordDoc ["The cat"; "sat"; "the end"])
    /\ output_capture w'
       = [log_line 0 "Analysis started for input directory: C:\in"]
         ++ pdf_folder_lines 0 ["C:\in\a.pdf"; "C:\in\b.pdf"] ["The "]
              ["The cat"; "sat"; "the end"]
         ++ [log_line 0 "Merged document saved as C:\Users\u\Documents\out.docx"]
    /\ stdin w' = ["later"].
Proof.
  cbv zeta.
  destruct (main_merges_pdf_folder "C:\in" "C:\Users\u\Documents\out.docx" ""
              [["The cat"; "sat"]; ["the end"]] ["The "] ["later"]
              (sample_world [("C:\in\a.pdf", PdfDoc ["The cat"; "sat"]);
                             ("C:\in\b.pdf", PdfDoc ["the end"]);
                             ("C:\in\notes.txt", Blob)] ["C:\in"]
                 ["The "; ""; "later"] no_faults))
    as (w' & Hrun & Hout & _ & _ & Hcap & Hin & _).
  - vm_compute. discriminate.
  - match goal with
    | |- Forall _ ?l => let l' := eval vm_compute in l in change l with l'
    end.
    do 2 (constructor; [split; vm_compute; reflexivity|]). constructor.
  - vm_compute. do 2 (constructor; [reflexivity|]). constructor.
  - reflexivity.
  - vm_compute. reflexivity.
  - vm_compute. discriminate.
  - reflexivity.
  - reflexivity.
  - repeat constructor. vm_compute. discriminate.
  - exists w'. repeat split; assumption.
Defined.

(** ** A folder with a PDF that cannot be read *)

(** X12: when the folder holds only files named as PDFs and one of them
    cannot be read, [main] logs the merger's error and returns: the
    converter and the reader are never called, no search word is asked
    for, no file outside the temporary directory is created or changed
    (so there is no output document), and the line that announces the
    merged document is not logged. *)
Theorem main_reports_unreadable_pdf (input_dir output_file bad : string)
    (good rest : list string) (pagess : list (list string)) (w : World) :
  input_files_of input_dir w = good ++ bad :: rest ->
  Forall (fun file => is_word_file file = false /\ is_pdf_file file = true)
    (input_files_of input_dir w) ->
  pdfs_of w good pagess ->
  (forall pages, fs w !! bad <> Some (PdfDoc pages)) ->
  (forall n ev, faulty w n ev = None) ->
  exists w',
    main input_dir output_file w = (Next tt, w')
    /\ (forall p, inside (tmp_name w) p = false -> fs w' !! p = fs w !! p)
    /\ trace w'
       = trace w ++ [EvMkdtemp (tmp_name w); EvMergerNew]
         ++ map EvMergerAppend good
         ++ [EvMergerAppend bad; EvCleanup (tmp_name w); EvSleep 2]
    /\ output_capture w'
       = output_capture w
         ++ [log_line (clock w) ("Analysis started for input directory: " +:+ input_dir);
             log_line (clock w) "Ensuring all files are in PDF format..."]
         ++ map (fun file => log_line (clock w) ("Added existing PDF: " +:+ file))
              (good ++ bad :: rest)
         ++ [log_line (clock w) "Merging PDF files...";
             log_line (clock w) ("An error occurred: cannot read " +:+ bad)]
    /\ stdin w' = stdin w.
Proof.
  intros Hlist Hpdf Hgood Hbad Hok.
  unfold main, call, try_finally, try_except.
  unfold bind at 1. rewrite log_output_logged.
  unfold bind at 1. unfold with_temporary_directory, main_with_body.
  set (w0 := mkdtemp (logged ("Analysis started for input directory: " +:+ input_dir) w)).
  change (tmp_name (logged _ w)) with (tmp_name w).
  run_next glob_run idtac. run_next glob_run idtac. run_next glob_run idtac.
  cbv zeta.
  change (glob_files (OsPath.join input_dir "*.docx") w0
          ++ glob_files (OsPath.join input_dir "*.doc") w0
          ++ glob_files (OsPath.join input_dir "*.pdf") w0)
    with (input_files_of input_dir w).
  destruct (input_files_of input_dir w) as [|file files] eqn:Hfiles;
    [now destruct good|].
  run_next log_output_logged idtac.
  destruct (ensure_pdf_format_run (file :: files) (tmp_name w)
              (logged "Ensuring all files are in PDF format..." w0))
    as (pdf_files & w1 & Hrun1 & Hnorm).
  pose proof (normalized_stdin _ _ _ _ _ Hnorm) as Hin1.
  destruct (normalized_pdfs _ _ _ _ _ Hpdf Hnorm)
    as (-> & Hfs1 & Hdirs1 & Hclock1 & Htrace1 & Hfaulty1 & _ & _ & _ & _ & Hcap1).
  run_next Hrun1 idtac.
  run_next log_output_logged idtac.
  rewrite Hlist.
  destruct (merge_pdfs_unreadable_run good bad rest pagess
              (OsPath.join (tmp_name w) "merged.pdf") (logged "Merging PDF files..." w1))
    as (w2 & Hrun2 & Hfs2 & Htrace2 & Hcap2 & Hin2 & Hclock2 & Hdirs2 & Hfaulty2 & _).
  { unfold pdfs_of. world_simpl. rewrite Hfs1. exact Hgood. }
  { intros pages. world_simpl. rewrite Hfs1. apply Hbad. }
  { intros n. world_simpl. rewrite Hfaulty1. apply Hok. }
  { intros n pdf. world_simpl. rewrite Hfaulty1. apply Hok. }
  run_raised Hrun2 idtac.
  rewrite log_output_logged. unfold time_sleep.
  eexists. split; [reflexivity|].
  subst w0. world_simpl_all. rewrite Hlist in Hcap1.
  split; [|split; [|split]].
  - intros p Hp.
    change (filter _ (fs w2) !! p) with (fs (rmtree (tmp_name w) w2) !! p).
    rewrite rmtree_outside by exact Hp. congruence.
  - rewrite Htrace2, Htrace1. rewrite <- !app_assoc. reflexivity.
  - rewrite Hcap2, Hcap1, Hclock2, Hclock1. rewrite <- !app_assoc. reflexivity.
  - congruence.
Qed.

Lemma main_reports_unreadable_pdf_witness :
  let w := sample_world [("C:\in\a.pdf", PdfDoc ["a1"]); ("C:\in\b.pdf", Blob)]
             ["C:\in"] ["word"; ""] no_faults in
  exists w',
    main "C:\in" "C:\Users\u\Documents\out.docx" w = (Next tt, w')
    /\ fs w' !! "C:\Users\u\Documents\out.docx" = None
    /\ trace w'
       = [EvMkdtemp "C:\Temp\tmp1"; EvMergerNew; EvMergerAppend "C:\in\a.pdf";
          EvMergerAppend "C:\in\b.pdf"; EvCleanup "C:\Temp\tmp1"; EvSleep 2]
    /\ last (output_capture w')
       = Some (log_line 0 "An error occurred: cannot read C:\in\b.pdf")
    /\ stdin w' = ["word"; ""].
Proof.
  cbv zeta.
  destruct (main_reports_unreadable_pdf "C:\in" "C:\Users\u\Documents\out.docx"
              "C:\in\b.pdf" ["C:\in\a.pdf"] [] [["a1"]]
              (sample_world [("C:\in\a.pdf", PdfDoc ["a1"]); ("C:\in\b.pdf", Blob)]
                 ["C:\in"] ["word"; ""] no_faults))
    as (w' & Hrun & Hfs & Htrace & Hcap & Hin).
  - vm_compute. reflexivity.
  - match goal with
    | |- Forall _ ?l => let l' := eval vm_compute in l in change l with l'
    end.
    do 2 (constructor; [split; vm_compute; reflexivity|]). constructor.
  - constructor; [reflexivity|constructor].
  - intros pages. vm_compute. discriminate.
  - reflexivity.
  - exists w'. split; [exact Hrun|]. split.
    + rewrite Hfs by (vm_compute; reflexivity). vm_compute. reflexivity.
    + split; [exact Htrace|]. split; [|exact Hin].
      rewrite Hcap. vm_compute. reflexivity.
Defined.

(** ** More on the counter *)

Lemma total_app (word : string) (pages1 pages2 : list string) :
  total word (pages1 ++ pages2) = total word pages1 + total word pages2.
Proof.
  unfold total. induction pages1 as [|page pages1 IH]; [reflexivity|].
  cbn [app foldr]. rewrite IH. lia.
Qed.

(** X13: counting composes with merging.  For every search word, the
    count in a document whose pages are those of a first document followed
    by those of a second is the sum of the counts in the two documents
    (duplicates in the word list multiply all three alike). *)
Theorem counts_add_over_documents (pdf1 pdf2 merged word : string)
    (words pages1 pages2 : list string) (w1 w2 w : World) :
  readable pdf1 pages1 w1 ->
  readable pdf2 pages2 w2 ->
  readable merged (pages1 ++ pages2) w ->
  word ∈ words ->
  exists counts1 counts2 counts n1 n2,
    (count_word_frequency pdf1 words w1).1 = Next counts1
    /\ (count_word_frequency pdf2 words w2).1 = Next counts2
    /\ (count_word_frequency merged words w).1 = Next counts
    /\ dict_get word counts1 = Some n1
    /\ dict_get word counts2 = Some n2
    /\ dict_get word counts = Some (n1 + n2).
Proof.
  intros H1 H2 H Hword.
  rewrite (count_word_frequency_run _ _ _ _ H1), (count_word_frequency_run _ _ _ _ H2),
    (count_word_frequency_run _ _ _ _ H).
  apply (proj2 (first_occurrences_elem _ _)) in Hword.
  exists (tally words pages1), (tally words pages2), (tally words (pages1 ++ pages2)),
    (multiplicity word words * total word pages1),
    (multiplicity word words * total word pages2).
  unfold tally. repeat split.
  - now apply (dict_get_map (fun k => multiplicity k words * total k pages1)).
  - now apply (dict_get_map (fun k => multiplicity k words * total k pages2)).
  - rewrite (dict_get_map (fun k => multiplicity k words * total k (pages1 ++ pages2)))
      by exact Hword.
    now rewrite total_app, Nat.mul_add_distr_l.
Qed.

Lemma counts_add_over_documents_witness :
  let w := sample_world [("C:\t\a.pdf", PdfDoc ["The cat"; "the"]);
                         ("C:\t\b.pdf", PdfDoc ["sat on the mat"]);
                         ("C:\t\m.pdf", PdfDoc ["The cat"; "the"; "sat on the mat"])]
             [] [] no_faults in
  exists counts1 counts2 counts n1 n2,
    (count_word_frequency "C:\t\a.pdf" ["cat"; "the"] w).1 = Next counts1
    /\ (count_word_frequency "C:\t\b.pdf" ["cat"; "the"] w).1 = Next counts2
    /\ (count_word_frequency "C:\t\m.pdf" ["cat"; "the"] w).1 = Next counts
    /\ dict_get "the" counts1 = Some n1
    /\ dict_get "the" counts2 = Some n2
    /\ dict_get "the" counts = Some (n1 + n2).
Proof.
  cbv zeta.
  apply (counts_add_over_documents "C:\t\a.pdf" "C:\t\b.pdf" "C:\t\m.pdf" "the"
           ["cat"; "the"] ["The cat"; "the"] ["sat on the mat"]).
  - split; [reflexivity|]. intros n. split; reflexivity.
  - split; [reflexivity|]. intros n. split; reflexivity.
  - split; [reflexivity|]. intros n. split; reflexivity.
  - refine (bool_decide_unpack (_ ∈ _) _). vm_compute. exact I.
Defined.






(** ** The paths of the script *)

Lemma starts_with_inv (p l : list ascii) :
  PyStr.starts_with p l = true -> exists rest, l = p ++ rest.
Proof.
  revert l. induction p as [|a p IH]; intros l H; [now exists l|].
  destruct l as [|b l]; [discriminate H|]. cbn in H.
  apply andb_true_iff in H as [Hab Hrest].
  apply Ascii.eqb_eq in Hab as ->.
  destruct (IH _ Hrest) as (rest & ->). now exists rest.
Qed.

Lemma endswith_inv (s suffix : string) :
  PyStr.endswith s suffix = true ->
  exists pre, PyStr.chars s = pre ++ PyStr.chars suffix.
Proof.
  intros H. apply starts_with_inv in H as (rest & H).
  exists (rev rest). apply (f_equal (@rev _)) in H.
  now rewrite rev_involutive, rev_app_distr, rev_involutive in H.
Qed.

Lemma output_path_chars (typed_name : string) (w : World) :
  exists pre, PyStr.chars (output_path typed_name w) = pre ++ PyStr.chars ".docx".
Proof.
  unfold output_path. cbv zeta.
  match goal with
  | |- context [OsPath.join ?a ?b] => destruct (join_ends a b) as (pre & ->)
  end.
  destruct (PyStr.endswith (PyStr.strip typed_name) ".docx") eqn:Hext; cbn [negb].
  - apply endswith_inv in Hext as (pre' & ->). exists (pre ++ pre').
    now rewrite app_assoc.
  - exists (pre ++ PyStr.chars (PyStr.strip typed_name)).
    now rewrite chars_app, app_assoc.
Qed.

(** X15: whatever name is typed, the path of the output document ends in
    ".docx" (a name with another extension, or with the extension in
    capitals, gets ".docx" added), and the audit log is written to a
    different path: it cannot overwrite the document. *)
Theorem audit_log_spares_output (typed_name : string) (w : World) :
  PyStr.endswith (output_path typed_name w) ".docx" = true
  /\ audit_path typed_name w <> output_path typed_name w.
Proof.
  destruct (output_path_chars typed_name w) as (pre & Hout).
  split; [exact (endswith_chars _ _ _ Hout)|].
  intros Heq. unfold audit_path in Heq.
  destruct (join_ends (OsPath.dirname (output_path typed_name w)) "audit_log.txt")
    as (pre' & Haudit).
  rewrite Heq, Hout in Haudit.
  apply (f_equal last) in Haudit. rewrite !last_app in Haudit. discriminate Haudit.
Qed.

(** ** What the enumeration finds *)

Lemma take_until_sep_app (l r : list ascii) (c : ascii) :
  forallb (fun x => negb (OsPath.is_sep x)) l = true ->
  OsPath.is_sep c = true ->
  OsPath.take_until_sep (l ++ c :: r) = l.
Proof.
  intros Hl Hc. induction l as [|x l IH]; cbn.
  - now rewrite Hc.
  - cbn in Hl. apply andb_true_iff in Hl as [Hx Hl].
    apply negb_true_iff in Hx. rewrite Hx. now rewrite IH.
Qed.

Lemma take_until_sep_all (l : list ascii) :
  forallb (fun x => negb (OsPath.is_sep x)) l = true ->
  OsPath.take_until_sep l = l.
Proof.
  intros Hl. induction l as [|x l IH]; [reflexivity|]. cbn.
  cbn in Hl. apply andb_true_iff in Hl as [Hx Hl].
  apply negb_true_iff in Hx. rewrite Hx. now rewrite IH.
Qed.

Lemma of_chars_chars (s : string) : PyStr.of_chars (PyStr.chars s) = s.
Proof. apply string_of_list_ascii_of_string. Qed.

(** The last component of a joined path is the second argument, when that
    is a plain name and the first does not end in a colon. *)
Lemma basename_join (a b : string) (c : ascii) (l : list ascii) :
  PyStr.chars b = c :: l ->
  forallb (fun x => negb (OsPath.is_sep x)) (c :: l) = true ->
  last (PyStr.chars a) <> Some ":"%char ->
  OsPath.basename (OsPath.join a b) = b.
Proof.
  intros Hb Hplain Hcolon.
  assert (Hrev : forallb (fun x => negb (OsPath.is_sep x)) (rev (c :: l)) = true).
  { apply forallb_forall. intros x Hx. apply in_rev in Hx.
    now apply (proj1 (forallb_forall _ _) Hplain). }
  assert (Hc : OsPath.is_sep c = false).
  { cbn in Hplain. apply andb_true_iff in Hplain as [Hx _].
    now apply negb_true_iff in Hx. }
  unfold OsPath.basename, OsPath.join. rewrite Hb, Hc.
  destruct (rev (PyStr.chars a)) as [|x r] eqn:Ha.
  - rewrite Hb, take_until_sep_all, rev_involutive, <- Hb by exact Hrev.
    apply of_chars_chars.
  - assert (Hlast : last (PyStr.chars a) = Some x).
    { rewrite <- (rev_involutive (PyStr.chars a)), Ha. cbn [rev]. now rewrite last_snoc. }
    destruct (OsPath.is_sep x) eqn:Hx; cbn [orb].
    + rewrite chars_app, rev_app_distr, Ha, Hb, take_until_sep_app by assumption.
      rewrite rev_involutive, <- Hb. apply of_chars_chars.
    + destruct (Ascii.eqb_spec x ":"%char) as [->|_]; [now destruct Hcolon|].
      rewrite !chars_app, !rev_app_distr, Hb.
      change (rev (PyStr.chars "\")) with ["\"%char].
      rewrite <- app_assoc. cbn [app].
      rewrite take_until_sep_app by (exact Hrev || reflexivity).
      rewrite rev_involutive, <- Hb. apply of_chars_chars.
Qed.

Lemma lower_app (a b : string) :
  PyStr.chars (PyStr.lower (a +:+ b))
  = PyStr.chars (PyStr.lower a) ++ PyStr.chars (PyStr.lower b).
Proof. now rewrite !lower_chars, chars_app, map_app. Qed.

(** A file selected by a pattern whose last component is a star and an
    extension has that extension, case apart. *)
Lemma glob_matches_extension (pattern ext p : string) :
  OsPath.basename pattern = String "*" ext ->
  glob_matches pattern p = true ->
  PyStr.endswith (PyStr.lower p) (PyStr.lower ext) = true.
Proof.
  intros Hbase. unfold glob_matches. cbv zeta. rewrite Hbase.
  set (pat_dir := String.substring _ _ pattern).
  set (name := String.substring _ _ p).
  intros H. repeat (apply andb_true_iff in H as [H ?]).
  apply String.eqb_eq in H.
  match goal with
  | F : fnmatch name _ = true |- _ =>
      unfold fnmatch in F; cbn [PyStr.chars list_ascii_of_string] in F;
      rewrite Ascii.eqb_refl in F;
      fold (PyStr.chars ext) in F; rewrite of_chars_chars in F;
      apply endswith_inv in F as (pre & F)
  end.
  rewrite H. apply (endswith_chars _ _ (PyStr.chars (PyStr.lower pat_dir) ++ pre)).
  now rewrite lower_app, <- app_assoc, <- H0.
Qed.

(** X16: every file [main] enumerates is one the normalizer supports,
    provided the folder is not given as a bare drive ("C:"): the branch of
    [ensure_pdf_format] that skips an unsupported format is never taken on
    the list [main] passes to it. *)
Theorem enumerated_files_are_supported (input_dir : string) (w : World) :
  last (PyStr.chars input_dir) <> Some ":"%char ->
  Forall supported (input_files_of input_dir w).
Proof.
  intros Hcolon.
  assert (Hglob : forall ext c l,
             PyStr.chars (String "*" ext) = c :: l ->
             forallb (fun x => negb (OsPath.is_sep x)) (c :: l) = true ->
             Forall (fun p => PyStr.endswith (PyStr.lower p) (PyStr.lower ext) = true)
               (glob_files (OsPath.join input_dir (String "*" ext)) w)).
  { intros ext c l Hb Hplain. apply Forall_forall. intros p Hp.
    unfold glob_files in Hp. apply list_elem_of_In, filter_In in Hp as [_ Hp].
    eapply glob_matches_extension; [|exact Hp].
    now apply basename_join with c l. }
  unfold input_files_of. rewrite !Forall_app. repeat split.
  - eapply Forall_impl; [apply (Hglob ".docx" _ _ eq_refl eq_refl)|].
    intros p Hp. left. unfold is_word_file.
    change (PyStr.lower ".docx") with ".docx" in Hp. now rewrite Hp.
  - eapply Forall_impl; [apply (Hglob ".doc" _ _ eq_refl eq_refl)|].
    intros p Hp. left. unfold is_word_file.
    change (PyStr.lower ".doc") with ".doc" in Hp. rewrite Hp. apply orb_true_r.
  - eapply Forall_impl; [apply (Hglob ".pdf" _ _ eq_refl eq_refl)|].
    intros p Hp. right. exact Hp.
Qed.

Lemma enumerated_files_are_supported_witness :
  Forall supported
    (input_files_of "C:\in"
       (sample_world [("C:\in\a.DOCX", Blob); ("C:\in\b.pdf", Blob);
                      ("C:\in\notes.txt", Blob); ("C:\in\sub\c.doc", Blob)]
          ["C:\in"; "C:\in\sub"] [] no_faults)).
Proof.
  apply enumerated_files_are_supported. vm_compute. discriminate.
Defined.

(** ** The files a run leaves alone *)

Lemma plain_take_until_sep (r : list ascii) :
  forallb (fun x => negb (OsPath.is_sep x)) (OsPath.take_until_sep r) = true.
Proof.
  induction r as [|c r IH]; [reflexivity|]. cbn.
  destruct (OsPath.is_sep c) eqn:Hc; [reflexivity|]. cbn. now rewrite Hc, IH.
Qed.

Lemma plain_rev (l : list ascii) :
  forallb (fun x => negb (OsPath.is_sep x)) l = true ->
  forallb (fun x => negb (OsPath.is_sep x)) (rev l) = true.
Proof.
  intros H. apply forallb_forall. intros x Hx. apply in_rev in Hx.
  now apply (proj1 (forallb_forall _ _) H).
Qed.

Lemma ext_rev_root (r e root : list ascii) :
  OsPath.ext_rev r = Some (e, root) -> exists pre, r = pre ++ root.
Proof.
  revert e root. induction r as [|c r IH]; intros e root H; [discriminate H|].
  cbn in H. destruct (OsPath.is_sep c); [discriminate H|].
  destruct (Ascii.eqb c "."%char).
  - injection H as <- <-. now exists [c].
  - destruct (OsPath.ext_rev r) as [[e' root']|] eqn:Hr; [|discriminate H].
    injection H as <- <-. destruct (IH _ _ eq_refl) as (pre & ->).
    now exists (c :: pre).
Qed.

(** The name of the converted file is a plain name. *)
Lemma plain_pdf_name (docx_file : string) :
  exists c l,
    PyStr.chars ((OsPath.splitext (OsPath.basename docx_file)).1 +:+ ".pdf") = c :: l
    /\ forallb (fun x => negb (OsPath.is_sep x)) (c :: l) = true.
Proof.
  assert (Hbase : forallb (fun x => negb (OsPath.is_sep x))
                    (PyStr.chars (OsPath.basename docx_file)) = true).
  { unfold OsPath.basename. rewrite chars_of_chars.
    apply plain_rev, plain_take_until_sep. }
  assert (Hstem : forallb (fun x => negb (OsPath.is_sep x))
                    (PyStr.chars (OsPath.splitext (OsPath.basename docx_file)).1) = true).
  { unfold OsPath.splitext.
    destruct (OsPath.ext_rev (rev (PyStr.chars (OsPath.basename docx_file))))
      as [[e root]|] eqn:Hext; [|exact Hbase].
    destruct (OsPath.all_dots (OsPath.take_until_sep root)); [exact Hbase|].
    cbn [fst]. rewrite chars_of_chars. apply plain_rev.
    apply ext_rev_root in Hext as (pre & Hext).
    apply plain_rev in Hbase. rewrite Hext, forallb_app in Hbase.
    now apply andb_true_iff in Hbase as [_ ?]. }
  rewrite chars_app.
  destruct (PyStr.chars (OsPath.splitext (OsPath.basename docx_file)).1) as [|c l].
  - eexists _, _. split; reflexivity.
  - exists c, (l ++ PyStr.chars ".pdf"). split; [reflexivity|].
    change (c :: l ++ PyStr.chars ".pdf") with ((c :: l) ++ PyStr.chars ".pdf").
    rewrite forallb_app, Hstem. reflexivity.
Qed.

Lemma substring_skip (a b : string) (n : nat) :
  String.substring (String.length a) n (a +:+ b) = String.substring 0 n b.
Proof.
  induction a as [|c a IH]; [reflexivity|].
  change (String c a +:+ b) with (String c (a +:+ b)). exact IH.
Qed.

Lemma startswith_app (a b : string) : PyStr.startswith (a +:+ b) a = true.
Proof. unfold PyStr.startswith. rewrite chars_app. apply starts_with_app. Qed.

Lemma string_length_app (a b : string) :
  String.length (a +:+ b) = String.length a + String.length b.
Proof.
  induction a as [|c a IH]; [reflexivity|].
  change (String c a +:+ b) with (String c (a +:+ b)). cbn. now rewrite IH.
Qed.

(** A plain name joined to a proper directory lies in that directory. *)
Lemma inside_join (dir name : string) (c : ascii) (l : list ascii) :
  proper_dir dir ->
  PyStr.chars name = c :: l ->
  forallb (fun x => negb (OsPath.is_sep x)) (c :: l) = true ->
  inside dir (OsPath.join dir name) = true.
Proof.
  intros [Hne Hcolon] Hname Hplain.
  assert (Hc : OsPath.is_sep c = false).
  { cbn in Hplain. apply andb_true_iff in Hplain as [Hx _].
    now apply negb_true_iff in Hx. }
  unfold inside, OsPath.join. rewrite Hname, Hc.
  destruct (rev (PyStr.chars dir)) as [|x r] eqn:Hdir.
  - apply (f_equal (@rev _)) in Hdir. rewrite rev_involutive in Hdir. contradiction.
  - assert (Hlast : last (PyStr.chars dir) = Some x).
    { rewrite <- (rev_involutive (PyStr.chars dir)), Hdir. cbn [rev].
      now rewrite last_snoc. }
    destruct (OsPath.is_sep x) eqn:Hx; cbn [orb].
    + rewrite startswith_app. cbn. apply orb_true_r.
    + destruct (Ascii.eqb_spec x ":"%char) as [->|_]; [now destruct Hcolon|].
      rewrite startswith_app, substring_skip.
      rewrite !string_length_app. cbn [String.length].
      rewrite Nat.add_succ_r. cbn. apply orb_true_r.
Qed.

Lemma inside_pdf_path (docx_file dir : string) :
  proper_dir dir -> inside dir (pdf_path docx_file dir) = true.
Proof.
  intros Hdir. destruct (plain_pdf_name docx_file) as (c & l & Hname & Hplain).
  unfold pdf_path. now apply inside_join with c l.
Qed.

Lemma inside_merged (dir : string) :
  proper_dir dir -> inside dir (OsPath.join dir "merged.pdf") = true.
Proof. intros Hdir. eapply inside_join; [exact Hdir|reflexivity|reflexivity]. Qed.

Lemma spares_refl (dir out : string) (w : World) :
  dirs w = dirs w
  /\ forall p : string, inside dir p = false -> p <> out -> fs w !! p = fs w !! p.
Proof. split; reflexivity. Qed.

Lemma spares_trans (dir out : string) (w1 w2 w3 : World) :
  dirs w2 = dirs w1
  /\ (forall p : string, inside dir p = false -> p <> out -> fs w2 !! p = fs w1 !! p) ->
  dirs w3 = dirs w2
  /\ (forall p : string, inside dir p = false -> p <> out -> fs w3 !! p = fs w2 !! p) ->
  dirs w3 = dirs w1
  /\ (forall p : string, inside dir p = false -> p <> out -> fs w3 !! p = fs w1 !! p).
Proof.
  intros [Hd1 Hf1] [Hd2 Hf2]. split; [congruence|].
  intros p Hp Hne. now rewrite Hf2, Hf1.
Qed.

Section Spares.
Context {A B : Type} (dir out : string).

Lemma spares_quiet (m : M A) :
  (forall w, fs (m w).2 = fs w /\ dirs (m w).2 = dirs w) -> spares dir out m.
Proof. intros H w. destruct (H w) as [Hf Hd]. split; [exact Hd|]. now rewrite Hf. Qed.

Lemma spares_ret (a : A) : spares dir out (ret a).
Proof. now apply spares_quiet. Qed.

Lemma spares_raise (e : string) : spares dir out (@raise A e).
Proof. now apply spares_quiet. Qed.

Lemma spares_return : spares dir out (@return_ A).
Proof. now apply spares_quiet. Qed.

Lemma spares_bind (m : M A) (k : A -> M B) :
  spares dir out m -> (forall a, spares dir out (k a)) -> spares dir out (bind m k).
Proof.
  intros Hm Hk w. unfold bind. specialize (Hm w).
  destruct (m w) as [[a| |e] w1]; cbn [snd] in *; [|exact Hm|exact Hm].
  eapply spares_trans; [exact Hm|apply Hk].
Qed.

Lemma spares_try_except (body : M A) (handler : string -> M A) :
  spares dir out body -> (forall e, spares dir out (handler e)) ->
  spares dir out (try_except body handler).
Proof.
  intros Hb Hh w. unfold try_except. specialize (Hb w).
  destruct (body w) as [[a| |e] w1]; cbn [snd] in *; [exact Hb|exact Hb|].
  eapply spares_trans; [exact Hb|apply Hh].
Qed.

Lemma spares_try_finally (body : M A) (final : M unit) :
  spares dir out body -> spares dir out final -> spares dir out (try_finally body final).
Proof.
  intros Hb Hf w. unfold try_finally. specialize (Hb w).
  destruct (body w) as [r w1]. specialize (Hf w1).
  destruct (final w1) as [[[]| |e] w2]; cbn [snd] in *;
    eapply spares_trans; eauto.
Qed.

Lemma spares_for_each (xs : list B) (body : A -> B -> M A) (s : A) :
  (forall s x, spares dir out (body s x)) -> spares dir out (for_each xs body s).
Proof.
  intros Hb. revert s. induction xs as [|x xs IH]; intros s; cbn [for_each].
  - apply spares_ret.
  - intros w. unfold bind. specialize (Hb s x w).
    destruct (body s x w) as [[s'| |e] w1]; cbn [snd] in *; [|exact Hb|exact Hb].
    eapply spares_trans; [exact Hb|apply IH].
Qed.
End Spares.

Lemma spares_call (dir out : string) (body : M unit) :
  spares dir out body -> spares dir out (call body).
Proof.
  intros Hb w. unfold call. specialize (Hb w).
  destruct (body w) as [[a| |e] w1]; exact Hb.
Qed.

Lemma spares_external (dir out : string) (ev : event) : spares dir out (external ev).
Proof.
  apply spares_quiet. intros w. unfold external.
  now destruct (faulty w (length (trace w)) ev).
Qed.

Lemma spares_input (dir out prompt : string) : spares dir out (input prompt).
Proof. apply spares_quiet. intros w. unfold input. now destruct (stdin w). Qed.

Lemma spares_log_output (dir out message : string) : spares dir out (log_output message).
Proof. now apply spares_quiet. Qed.

Lemma spares_time_sleep (dir out : string) (n : nat) : spares dir out (time_sleep n).
Proof. now apply spares_quiet. Qed.

Lemma spares_glob (dir out pattern : string) : spares dir out (glob pattern).
Proof. now apply spares_quiet. Qed.

Lemma spares_get (dir out : string) : spares dir out get.
Proof. now apply spares_quiet. Qed.

Lemma spares_modify_word_sessions (dir out : string) (f : nat -> nat) :
  spares dir out (modify (set_word_sessions f)).
Proof. now apply spares_quiet. Qed.

Lemma spares_modify_open_documents (dir out : string) (f : list string -> list string) :
  spares dir out (modify (set_open_documents f)).
Proof. now apply spares_quiet. Qed.

Lemma spares_dict_getitem (dir out k : string) (d : dict) :
  spares dir out (dict_getitem k d).
Proof.
  unfold dict_getitem. destruct (dict_get k d); [apply spares_ret|apply spares_raise].
Qed.

Lemma spares_count_matches (dir out word text : string) :
  spares dir out (count_matches word text).
Proof.
  unfold count_matches. destruct (Re.findall _ _ _); [apply spares_ret|apply spares_raise].
Qed.

(** Writing a file in the directory, or the file [out] itself. *)
Lemma spares_write (dir out path : string) (c : content) :
  inside dir path = true \/ path = out ->
  spares dir out (modify (set_fs (<[path := c]>))).
Proof.
  intros Hpath w. split; [reflexivity|]. intros p Hp Hne. cbn.
  apply lookup_insert_ne. intros ->. destruct Hpath; congruence.
Qed.

Create HintDb spares.
#[local] Hint Resolve spares_ret spares_raise spares_return spares_get
  spares_external spares_log_output spares_time_sleep spares_input spares_glob
  spares_modify_word_sessions spares_modify_open_documents
  spares_dict_getitem spares_count_matches : spares.

Ltac spares_steps :=
  repeat first
    [ progress cbv zeta
    | solve [auto with spares]
    | apply spares_bind; [|intro]
    | apply spares_for_each; intros
    | apply spares_try_except; [|intro]
    | apply spares_try_finally
    | apply spares_call
    | match goal with
      | |- spares _ _ (if ?b then _ else _) => destruct b
      | |- spares _ _ (match ?x with _ => _ end) => destruct x
      end ].

Lemma spares_convert_docx_to_pdf (dir out docx_file : string) :
  proper_dir dir -> spares dir out (convert_docx_to_pdf docx_file dir).
Proof.
  intros Hdir.
  unfold convert_docx_to_pdf, Word.Dispatch, Word.Documents_Open, Word.SaveAs,
    Word.Close, Word.Quit.
  spares_steps.
  apply spares_write. left. now apply inside_pdf_path.
Qed.

Lemma spares_merge_pdfs (dir out : string) (pdf_files : list string) :
  proper_dir dir -> spares dir out (merge_pdfs pdf_files (OsPath.join dir "merged.pdf")).
Proof.
  intros Hdir.
  unfold merge_pdfs, PyPDF2.PdfMerger, PyPDF2.append, PyPDF2.write, PyPDF2.close.
  spares_steps.
  apply spares_write. left. now apply inside_merged.
Qed.

Lemma spares_convert_pdf_to_docx (dir out pdf_file : string) :
  spares dir out (convert_pdf_to_docx pdf_file out).
Proof.
  unfold convert_pdf_to_docx, Pdf2docx.Converter, Pdf2docx.convert, Pdf2docx.close.
  spares_steps.
  apply spares_write. now right.
Qed.

#[local] Hint Resolve spares_convert_docx_to_pdf spares_merge_pdfs
  spares_convert_pdf_to_docx : spares.

Lemma spares_ensure_pdf_format (dir out : string) (files : list string) :
  proper_dir dir -> spares dir out (ensure_pdf_format files dir).
Proof. intros Hdir. unfold ensure_pdf_format. spares_steps. Qed.

Lemma spares_read_words (dir out : string) (pending words : list string) :
  spares dir out (read_words pending words).
Proof.
  revert words. induction pending as [|line pending IH]; intros words;
    cbn [read_words]; spares_steps.
Qed.

Lemma spares_get_words_to_search (dir out : string) : spares dir out get_words_to_search.
Proof. unfold get_words_to_search. spares_steps. apply spares_read_words. Qed.

Lemma spares_count_word_frequency (dir out pdf_file : string) (words : list string) :
  spares dir out (count_word_frequency pdf_file words).
Proof.
  unfold count_word_frequency, PyPDF2.PdfReader, PyPDF2.extract_text.
  spares_steps.
Qed.

#[local] Hint Resolve spares_ensure_pdf_format spares_get_words_to_search
  spares_count_word_frequency : spares.

Lemma spares_main_with_body (dir out input_dir : string) :
  proper_dir dir -> spares dir out (main_with_body input_dir out dir).
Proof.
  intros Hdir. unfold main_with_body. spares_steps.
Qed.

Lemma main_outside (input_dir output_file : string) (w : World) :
  proper_dir (tmp_name w) ->
  exists w2,
    fs (main input_dir output_file w).2 = fs (rmtree (tmp_name w) w2)
    /\ dirs (main input_dir output_file w).2 = dirs (rmtree (tmp_name w) w2)
    /\ dirs w2 = {[tmp_name w]} ∪ dirs w
    /\ forall p, inside (tmp_name w) p = false -> p <> output_file ->
                 fs w2 !! p = fs w !! p.
Proof.
  intros Hdir.
  pose proof (spares_main_with_body (tmp_name w) output_file input_dir Hdir
                (mkdtemp (logged ("Analysis started for input directory: " +:+ input_dir) w)))
    as [Hdirs Hfiles].
  destruct (main input_dir output_file w) as [rm wf] eqn:Hmain. cbn [snd].
  revert Hmain.
  unfold main, call, try_finally, try_except.
  unfold bind at 1. rewrite log_output_logged.
  unfold bind at 1. unfold with_temporary_directory.
  change (tmp_name (logged _ w)) with (tmp_name w).
  destruct (main_with_body input_dir output_file (tmp_name w)
              (mkdtemp (logged ("Analysis started for input directory: " +:+ input_dir) w)))
    as [r w2].
  cbn [snd] in Hdirs, Hfiles.
  destruct r as [[]| |e]; rewrite ?log_output_logged; unfold time_sleep;
    intros Hmain; injection Hmain as <- <-; exists w2;
    (split; [reflexivity|]); (split; [reflexivity|]);
    (split; [exact Hdirs|exact Hfiles]).
Qed.

Lemma inside_self (dir : string) : inside dir dir = true.
Proof. unfold inside. now rewrite String.eqb_refl. Qed.

(** X17: whatever the folder holds and whichever library calls fail,
    [main] creates, changes and deletes no file other than the output
    document and what lies in the temporary directory (the input files, in
    particular, are as they were), and the directories outside the
    temporary one are the same before and after. *)
Theorem main_touches_only_output (input_dir output_file : string) (w : World) :
  proper_dir (tmp_name w) ->
  (forall p, inside (tmp_name w) p = false -> p <> output_file ->
             fs (main input_dir output_file w).2 !! p = fs w !! p)
  /\ (forall d, inside (tmp_name w) d = false ->
                d ∈ dirs (main input_dir output_file w).2 <-> d ∈ dirs w).
Proof.
  intros Hdir.
  destruct (main_outside input_dir output_file w Hdir) as (w2 & -> & -> & Hdirs & Hfiles).
  split.
  - intros p Hp Hne. rewrite rmtree_outside by exact Hp. now apply Hfiles.
  - intros d Hd. unfold rmtree. world_simpl.
    rewrite elem_of_filter, Hdirs, elem_of_union, elem_of_singleton.
    split; [|tauto].
    intros (_ & [->|H]); [|exact H]. now rewrite inside_self in Hd.
Qed.

Lemma main_touches_only_output_witness :
  let w := sample_world [("C:\in\a.docx", WordDoc ["a1"]); ("C:\in\b.pdf", Blob)]
             ["C:\in"] [""] no_faults in
  fs (main "C:\in" "C:\Users\u\Documents\out.docx" w).2 !! "C:\in\a.docx"
  = Some (WordDoc ["a1"]).
Proof.
  cbv zeta.
  refine (eq_trans
            (proj1 (main_touches_only_output "C:\in" "C:\Users\u\Documents\out.docx"
                      (sample_world [("C:\in\a.docx", WordDoc ["a1"]);
                                     ("C:\in\b.pdf", Blob)] ["C:\in"] [""] no_faults) _)
               "C:\in\a.docx" _ _) _).
  - split; vm_compute; discriminate.
  - reflexivity.
  - discriminate.
  - reflexivity.
Defined.

(** X18: a run of the script over a folder that exists changes no file
    other than the output document and the audit log (and what lies in the
    temporary directory), whatever the folder holds and whichever library
    calls fail. *)
Theorem script_touches_only_its_artifacts (line folder name p : string)
    (rest : list string) (w : World) :
  stdin w = line :: folder :: name :: rest ->
  PyStr.strip folder ∈ dirs w ->
  (forall n path, faulty w n (EvFileWrite path) = None) ->
  proper_dir (tmp_name w) ->
  inside (tmp_name w) p = false ->
  p <> output_path name w ->
  p <> audit_path name w ->
  fs (script w).2 !! p = fs w !! p.
Proof.
  intros Hin Hfolder Hwrite Hdir Hp Hout Haudit.
  destruct (script_run line folder name rest w Hin Hfolder Hwrite)
    as (w0 & w1 & lines & t & Htalk & _ & Hmain & _ & Hfs & _).
  destruct Htalk as (Hfs0 & _ & _ & _ & _ & Htmp & _).
  rewrite Hfs, lookup_insert_ne by congruence.
  rewrite <- Htmp in Hdir, Hp.
  destruct (main_outside (PyStr.strip folder) (output_path name w) w0 Hdir)
    as (w2 & Hfs1 & _ & _ & Hfiles).
  rewrite Hmain in Hfs1. cbn [snd] in Hfs1.
  rewrite Hfs1, rmtree_outside by exact Hp.
  rewrite Hfiles by assumption. now rewrite Hfs0.
Qed.

Lemma script_touches_only_its_artifacts_witness :
  let w := sample_world [("C:\in\a.docx", WordDoc ["a1"]); ("C:\in\b.pdf", Blob)]
             ["C:\in"] [""; "C:\in"; "out"; ""] no_faults in
  fs (script w).2 !! "C:\in\a.docx" = Some (WordDoc ["a1"]).
Proof.
  cbv zeta.
  refine (eq_trans
            (script_touches_only_its_artifacts "" "C:\in" "out" "C:\in\a.docx" [""]
               (sample_world [("C:\in\a.docx", WordDoc ["a1"]); ("C:\in\b.pdf", Blob)]
                  ["C:\in"] [""; "C:\in"; "out"; ""] no_faults) _ _ _ _ _ _ _) _).
  - reflexivity.
  - refine (bool_decide_unpack (_ ∈ _) _). vm_compute. exact I.
  - reflexivity.
  - split; vm_compute; discriminate.
  - reflexivity.
  - vm_compute. discriminate.
  - vm_compute. discriminate.
  - reflexivity.
Defined.

(** ** Sessions and handles *)

(** X19: [convert_docx_to_pdf] leaves a Word session behind exactly when it
    raises after Word was started.  When it returns, the sessions and the
    open documents are as before the call and the file at the returned path
    holds the pages of the document; when it raises, one more session is
    running than before, whichever of the later calls failed, unless it was
    [Dispatch] itself that raised. *)
Theorem convert_docx_to_pdf_leaks_when_it_raises (docx_file output_dir : string)
    (w w' : World) (r : ctl string) :
  convert_docx_to_pdf docx_file output_dir w = (r, w') ->
  match r with
  | Next pdf_file =>
      word_sessions w' = word_sessions w
      /\ open_documents w' = open_documents w
      /\ exists doc,
           fs w !! docx_file = Some (WordDoc doc)
           /\ fs w' !! pdf_file = Some (PdfDoc doc)
  | Returned => False
  | Raised e =>
      word_sessions w'
      = match faulty w (length (trace w)) EvDispatch with
        | None => S (word_sessions w)
        | Some _ => word_sessions w
        end
  end.
Proof.
  unfold convert_docx_to_pdf, Word.Dispatch, Word.Documents_Open, Word.SaveAs,
    Word.Close, Word.Quit, bind, external, get, modify, ret, raise.
  world_simpl.
  destruct (faulty w (length (trace w)) EvDispatch) eqn:Hdispatch; world_simpl;
    [intros H; injection H as <- <-; reflexivity|].
  case_faults; intros H; injection H as <- <-; world_simpl; try reflexivity.
  cbn [Word.remove_first Nat.pred]. rewrite String.eqb_refl.
  repeat split. exists pages. split; [reflexivity|apply lookup_insert_eq].
Qed.

Lemma convert_docx_to_pdf_leaks_when_it_raises_witness :
  let w := sample_world [("C:\in\a.docx", Blob)] [] [] no_faults in
  word_sessions (convert_docx_to_pdf "C:\in\a.docx" "C:\Temp\tmp1" w).2 = 1.
Proof.
  cbv zeta.
  assert (Hrun : convert_docx_to_pdf "C:\in\a.docx" "C:\Temp\tmp1"
                   (sample_world [("C:\in\a.docx", Blob)] [] [] no_faults)
                 = (Raised "cannot open C:\in\a.docx",
                    (convert_docx_to_pdf "C:\in\a.docx" "C:\Temp\tmp1"
                       (sample_world [("C:\in\a.docx", Blob)] [] [] no_faults)).2))
    by (vm_compute; reflexivity).
  exact (convert_docx_to_pdf_leaks_when_it_raises _ _ _ _ _ Hrun).
Defined.

(** ** The conversion back *)

(** X20: the outcomes of [convert_pdf_to_docx].  When it returns, the
    output file holds the pages of the PDF.  When it raises, the file
    system is as it was, except in one case: [cv.close()] raised after the
    output had been written, so that the caller sees an error although the
    document exists. *)
Theorem convert_pdf_to_docx_outcomes (pdf_file output_file : string)
    (w w' : World) (r : ctl unit) :
  convert_pdf_to_docx pdf_file output_file w = (r, w') ->
  match r with
  | Next _ =>
      exists pages,
        fs w !! pdf_file = Some (PdfDoc pages)
        /\ fs w' = <[output_file := WordDoc pages]> (fs w)
  | Returned => False
  | Raised e =>
      fs w' = fs w
      \/ exists pages,
           fs w !! pdf_file = Some (PdfDoc pages)
           /\ fs w' = <[output_file := WordDoc pages]> (fs w)
           /\ faulty w (length (trace w) + 2) EvConverterClose = Some e
  end.
Proof.
  unfold convert_pdf_to_docx, Pdf2docx.Converter, Pdf2docx.convert, Pdf2docx.close,
    bind, external, get, modify, ret, raise.
  world_simpl. case_faults; intros H; injection H as <- <-; world_simpl;
    try (left; reflexivity); try (eexists; split; reflexivity).
  right. eexists. split; [reflexivity|]. split; [reflexivity|].
  match goal with
  | F : faulty w _ EvConverterClose = Some _ |- _ =>
      rewrite !length_app in F; cbn [length] in F; rewrite <- Nat.add_assoc in F; exact F
  end.
Qed.

Lemma convert_pdf_to_docx_outcomes_witness :
  let w := sample_world [("C:\t\merged.pdf", PdfDoc ["p1"])] [] []
             (fun _ ev => match ev with
                          | EvConverterClose => Some "close failed"
                          | _ => None
                          end) in
  fs (convert_pdf_to_docx "C:\t\merged.pdf" "C:\out.docx" w).2 = fs w
  \/ exists pages,
       fs w !! "C:\t\merged.pdf" = Some (PdfDoc pages)
       /\ fs (convert_pdf_to_docx "C:\t\merged.pdf" "C:\out.docx" w).2
          = <["C:\out.docx" := WordDoc pages]> (fs w)
       /\ faulty w (length (trace w) + 2) EvConverterClose = Some "close failed".
Proof.
  cbv zeta.
  assert (Hrun : convert_pdf_to_docx "C:\t\merged.pdf" "C:\out.docx"
                   (sample_world [("C:\t\merged.pdf", PdfDoc ["p1"])] [] []
                      (fun _ ev => match ev with
                                   | EvConverterClose => Some "close failed"
                                   | _ => None
                                   end))
                 = (Raised "close failed",
                    (convert_pdf_to_docx "C:\t\merged.pdf" "C:\out.docx"
                       (sample_world [("C:\t\merged.pdf", PdfDoc ["p1"])] [] []
                          (fun _ ev => match ev with
                                       | EvConverterClose => Some "close failed"
                                       | _ => None
                                       end))).2))
    by (vm_compute; reflexivity).
  exact (convert_pdf_to_docx_outcomes _ _ _ _ _ Hrun).
Defined.

(** ** The introduction *)

(** The messages logged on the way from one world to another. *)
Ltac messages_of w acc :=
  lazymatch w with
  | logged ?m ?w' => messages_of w' constr:(m :: acc)
  | _ => acc
  end.

Lemma logged_all (messages : list string) :
  forall w : World,
    output_capture (fold_left (fun w m => logged m w) messages w)
    = output_capture w ++ map (log_line (clock w)) messages
    /\ fs (fold_left (fun w m => logged m w) messages w) = fs w
    /\ trace (fold_left (fun w m => logged m w) messages w) = trace w
    /\ stdin (fold_left (fun w m => logged m w) messages w) = stdin w.
Proof.
  induction messages as [|m messages IH]; intros w; cbn [fold_left map].
  - now rewrite app_nil_r.
  - destruct (IH (logged m w)) as (Hcap & Hfs & Htrace & Hin).
    rewrite Hcap, Hfs, Htrace, Hin. world_simpl.
    now rewrite <- app_assoc.
Qed.

(** X21: [display_intro] logs 23 lines whatever the state, touches no file
    and calls no library; it then waits for one line of input, which it
    discards, and raises [EOFError], the lines already logged, when there
    is none.  The frame lines (border, titles, blank lines) are 80
    characters wide before their timestamps, the text lines 81: the right
    edge of the box is not straight. *)
Theorem display_intro_shows_box (w : World) :
  exists messages,
    map String.length messages
    = [80; 80; 80; 80; 80; 81; 81; 81; 81; 81; 81; 81; 81; 80; 81; 81; 81; 81; 80;
       81; 81; 81; 80]
    /\ output_capture (display_intro w).2
       = output_capture w ++ map (log_line (clock w)) messages
    /\ fs (display_intro w).2 = fs w
    /\ trace (display_intro w).2 = trace w
    /\ match stdin w with
       | [] => (display_intro w).1 = Raised "EOF when reading a line"
       | _ :: rest =>
           (display_intro w).1 = Next tt /\ stdin (display_intro w).2 = rest
       end.
Proof.
  unfold display_intro. cbv zeta.
  do 23 (run_next log_output_logged idtac).
  match goal with
  | |- context [bind (input _) _ ?W] =>
      let ms := messages_of W (@nil string) in
      exists ms;
      change W with (fold_left (fun w m => logged m w) ms w);
      (split; [vm_compute; reflexivity|]);
      generalize ms
  end.
  intros box.
  destruct (logged_all box w) as (Hcap & Hfs & Htrace & Hin).
  unfold bind, input, ret. rewrite Hin.
  destruct (stdin w) as [|line rest]; world_simpl; auto.
Qed.

(** ** What is logged has been shown *)

Section Keeps.
Context {A B : Type} (R : World -> World -> Prop).
Hypothesis R_refl : forall w, R w w.
Hypothesis R_trans : forall w1 w2 w3, R w1 w2 -> R w2 w3 -> R w1 w3.

Lemma keeps_ret (a : A) : keeps R (ret a).
Proof. intros w. apply R_refl. Qed.

Lemma keeps_raise (e : string) : keeps R (@raise A e).
Proof. intros w. apply R_refl. Qed.

Lemma keeps_return : keeps R (@return_ A).
Proof. intros w. apply R_refl. Qed.

Lemma keeps_bind (m : M A) (k : A -> M B) :
  keeps R m -> (forall a, keeps R (k a)) -> keeps R (bind m k).
Proof.
  intros Hm Hk w. unfold bind. specialize (Hm w).
  destruct (m w) as [[a| |e] w1]; cbn [snd] in *; [|exact Hm|exact Hm].
  eapply R_trans; [exact Hm|apply Hk].
Qed.

Lemma keeps_try_except (body : M A) (handler : string -> M A) :
  keeps R body -> (forall e, keeps R (handler e)) -> keeps R (try_except body handler).
Proof.
  intros Hb Hh w. unfold try_except. specialize (Hb w).
  destruct (body w) as [[a| |e] w1]; cbn [snd] in *; [exact Hb|exact Hb|].
  eapply R_trans; [exact Hb|apply Hh].
Qed.

Lemma keeps_try_finally (body : M A) (final : M unit) :
  keeps R body -> keeps R final -> keeps R (try_finally body final).
Proof.
  intros Hb Hf w. unfold try_finally. specialize (Hb w).
  destruct (body w) as [r w1]. specialize (Hf w1).
  destruct (final w1) as [[[]| |e] w2]; cbn [snd] in *;
    eapply R_trans; eauto.
Qed.

Lemma keeps_for_each (xs : list B) (body : A -> B -> M A) (s : A) :
  (forall s x, keeps R (body s x)) -> keeps R (for_each xs body s).
Proof.
  intros Hb. revert s. induction xs as [|x xs IH]; intros s; cbn [for_each].
  - apply keeps_ret.
  - intros w. unfold bind. specialize (Hb s x w).
    destruct (body s x w) as [[s'| |e] w1]; cbn [snd] in *; [|exact Hb|exact Hb].
    eapply R_trans; [exact Hb|apply IH].
Qed.
End Keeps.

Lemma keeps_call (R : World -> World -> Prop) (body : M unit) :
  keeps R body -> keeps R (call body).
Proof.
  intros Hb w. unfold call. specialize (Hb w).
  destruct (body w) as [[a| |e] w1]; exact Hb.
Qed.

Lemma echo_refl (w : World) : echo w w.
Proof. exists [], []. now rewrite !app_nil_r. Qed.

Lemma echo_trans (w1 w2 w3 : World) : echo w1 w2 -> echo w2 w3 -> echo w1 w3.
Proof.
  intros (s1 & l1 & Hc1 & Ho1 & H1) (s2 & l2 & Hc2 & Ho2 & H2).
  exists (s1 ++ s2), (l1 ++ l2).
  rewrite Hc2, Hc1, Ho2, Ho1, !app_assoc. repeat split.
  now apply sublist_app.
Qed.

(** Neither printing nor logging. *)
Lemma echo_quiet {A} (m : M A) :
  (forall w, console (m w).2 = console w /\ output_capture (m w).2 = output_capture w) ->
  keeps echo m.
Proof.
  intros H w. destruct (H w) as [Hc Ho]. exists [], [].
  now rewrite Hc, Ho, !app_nil_r.
Qed.

Lemma echo_log_output (message : string) : keeps echo (log_output message).
Proof.
  intros w. exists [log_line (clock w) message], [log_line (clock w) message].
  split; [reflexivity|]. split; reflexivity.
Qed.

Lemma echo_input (prompt : string) : keeps echo (input prompt).
Proof.
  intros w. exists [prompt], []. unfold input.
  destruct (stdin w); cbn; rewrite app_nil_r; repeat split; apply sublist_nil_l.
Qed.

Lemma echo_external (ev : event) : keeps echo (external ev).
Proof.
  apply echo_quiet. intros w. unfold external.
  now destruct (faulty w (length (trace w)) ev).
Qed.

Lemma echo_modify_fs (f : gmap string content -> gmap string content) :
  keeps echo (modify (set_fs f)).
Proof. now apply echo_quiet. Qed.

Lemma echo_modify_word_sessions (f : nat -> nat) :
  keeps echo (modify (set_word_sessions f)).
Proof. now apply echo_quiet. Qed.

Lemma echo_modify_open_documents (f : list string -> list string) :
  keeps echo (modify (set_open_documents f)).
Proof. now apply echo_quiet. Qed.

Lemma echo_time_sleep (n : nat) : keeps echo (time_sleep n).
Proof. now apply echo_quiet. Qed.

Lemma echo_glob (pattern : string) : keeps echo (glob pattern).
Proof. now apply echo_quiet. Qed.

Lemma echo_get : keeps echo get.
Proof. now apply echo_quiet. Qed.

Lemma echo_datetime_now : keeps echo datetime_now.
Proof. now apply echo_quiet. Qed.

Lemma echo_os_path_isdir (p : string) : keeps echo (os_path_isdir p).
Proof. now apply echo_quiet. Qed.

Lemma echo_os_path_exists (p : string) : keeps echo (os_path_exists p).
Proof. now apply echo_quiet. Qed.

Lemma echo_expanduser_home : keeps echo expanduser_home.
Proof. now apply echo_quiet. Qed.

Lemma echo_dict_getitem (k : string) (d : dict) : keeps echo (dict_getitem k d).
Proof.
  unfold dict_getitem.
  destruct (dict_get k d); [apply keeps_ret|apply keeps_raise]; apply echo_refl.
Qed.

Lemma echo_count_matches (word text : string) : keeps echo (count_matches word text).
Proof.
  unfold count_matches.
  destruct (Re.findall _ _ _); [apply keeps_ret|apply keeps_raise]; apply echo_refl.
Qed.

Lemma echo_with_temporary_directory {A} (body : string -> M A) :
  (forall dir, keeps echo (body dir)) -> keeps echo (with_temporary_directory body).
Proof.
  intros Hb w. unfold with_temporary_directory.
  specialize (Hb (tmp_name w) (mkdtemp w)).
  destruct (body (tmp_name w) (mkdtemp w)) as [r w1]. exact Hb.
Qed.

(** Take a computation apart along its statements. *)
Ltac echo_step :=
  lazymatch goal with
  | |- keeps echo (bind _ _) => apply (keeps_bind echo echo_trans); [|intro]
  | |- keeps echo (for_each _ _ _) =>
      apply (keeps_for_each echo echo_refl echo_trans); intros
  | |- keeps echo (try_except _ _) => apply (keeps_try_except echo echo_trans); [|intro]
  | |- keeps echo (try_finally _ _) => apply (keeps_try_finally echo echo_trans)
  | |- keeps echo (call _) => apply keeps_call
  | |- keeps echo (with_temporary_directory _) =>
      apply echo_with_temporary_directory; intro
  | |- keeps echo (ret _) => apply keeps_ret, echo_refl
  | |- keeps echo (raise _) => apply keeps_raise, echo_refl
  | |- keeps echo return_ => apply keeps_return, echo_refl
  | |- keeps echo (log_output _) => apply echo_log_output
  | |- keeps echo (input _) => apply echo_input
  | |- keeps echo (external _) => apply echo_external
  | |- keeps echo (modify (set_fs _)) => apply echo_modify_fs
  | |- keeps echo (modify (set_word_sessions _)) => apply echo_modify_word_sessions
  | |- keeps echo (modify (set_open_documents _)) => apply echo_modify_open_documents
  | |- keeps echo (time_sleep _) => apply echo_time_sleep
  | |- keeps echo (glob _) => apply echo_glob
  | |- keeps echo get => apply echo_get
  | |- keeps echo datetime_now => apply echo_datetime_now
  | |- keeps echo (os_path_isdir _) => apply echo_os_path_isdir
  | |- keeps echo (os_path_exists _) => apply echo_os_path_exists
  | |- keeps echo expanduser_home => apply echo_expanduser_home
  | |- keeps echo (dict_getitem _ _) => apply echo_dict_getitem
  | |- keeps echo (count_matches _ _) => apply echo_count_matches
  | |- keeps echo (if ?b then _ else _) => destruct b
  | |- keeps echo (match ?x with _ => _ end) => destruct x
  end.

Ltac echo_steps := repeat first [progress cbv beta zeta | echo_step | assumption].

Lemma echo_convert_docx_to_pdf (docx_file output_dir : string) :
  keeps echo (convert_docx_to_pdf docx_file output_dir).
Proof.
  unfold convert_docx_to_pdf, Word.Dispatch, Word.Documents_Open, Word.SaveAs,
    Word.Close, Word.Quit.
  echo_steps.
Qed.

Lemma echo_merge_pdfs (pdf_files : list string) (output_pdf : string) :
  keeps echo (merge_pdfs pdf_files output_pdf).
Proof.
  unfold merge_pdfs, PyPDF2.PdfMerger, PyPDF2.append, PyPDF2.write, PyPDF2.close.
  echo_steps.
Qed.

Lemma echo_convert_pdf_to_docx (pdf_file output_file : string) :
  keeps echo (convert_pdf_to_docx pdf_file output_file).
Proof.
  unfold convert_pdf_to_docx, Pdf2docx.Converter, Pdf2docx.convert, Pdf2docx.close.
  echo_steps.
Qed.

Lemma echo_ensure_pdf_format (files : list string) (output_dir : string) :
  keeps echo (ensure_pdf_format files output_dir).
Proof.
  unfold ensure_pdf_format. echo_steps. apply echo_convert_docx_to_pdf.
Qed.

Lemma echo_read_words (pending words : list string) :
  keeps echo (read_words pending words).
Proof.
  revert words. induction pending as [|line pending IH]; intros words;
    cbn [read_words]; echo_steps. apply IH.
Qed.

Lemma echo_get_words_to_search : keeps echo get_words_to_search.
Proof. unfold get_words_to_search. echo_steps. apply echo_read_words. Qed.

Lemma echo_count_word_frequency (pdf_file : string) (words : list string) :
  keeps echo (count_word_frequency pdf_file words).
Proof.
  unfold count_word_frequency, PyPDF2.PdfReader, PyPDF2.extract_text.
  echo_steps.
Qed.

Lemma echo_main_with_body (input_dir output_file temp_dir : string) :
  keeps echo (main_with_body input_dir output_file temp_dir).
Proof.
  unfold main_with_body.
  echo_steps;
    first [apply echo_ensure_pdf_format | apply echo_merge_pdfs
          | apply echo_convert_pdf_to_docx | apply echo_get_words_to_search
          | apply echo_count_word_frequency].
Qed.

Lemma echo_main (input_dir output_file : string) :
  keeps echo (main input_dir output_file).
Proof. unfold main. echo_steps. apply echo_main_with_body. Qed.

Lemma echo_display_intro : keeps echo display_intro.
Proof. unfold display_intro. echo_steps. Qed.

(** X22: whatever is typed, whatever the folder holds and whichever calls
    fail, the lines the script adds to its log buffer are lines it has
    printed on the console, in the same order, and neither the console nor
    the buffer ever loses a line; so a buffer that started as part of the
    console ends as part of it. *)
Theorem script_logs_what_it_shows (w : World) :
  (exists shown lines,
      console (script w).2 = console w ++ shown
      /\ output_capture (script w).2 = output_capture w ++ lines
      /\ sublist lines shown)
  /\ (sublist (output_capture w) (console w) ->
      sublist (output_capture (script w).2) (console (script w).2)).
Proof.
  assert (H : keeps echo script).
  { unfold script, write_file.
    echo_steps; first [apply echo_display_intro | apply echo_main]. }
  destruct (H w) as (shown & lines & Hc & Ho & Hsub).
  split; [exists shown, lines; split; [exact Hc|split; [exact Ho|exact Hsub]]|].
  intros Hstart. rewrite Hc, Ho. apply sublist_app; assumption.
Qed.

Lemma script_logs_what_it_shows_witness :
  let w := sample_world [("C:\in\a.pdf", PdfDoc ["a1"])] ["C:\in"]
             [""; "C:\in"; "out"; ""; ""] no_faults in
  sublist (output_capture (script w).2) (console (script w).2).
Proof.
  cbv zeta.
  apply (proj2 (script_logs_what_it_shows
                  (sample_world [("C:\in\a.pdf", PdfDoc ["a1"])] ["C:\in"]
                     [""; "C:\in"; "out"; ""; ""] no_faults))).
  apply sublist_nil_l.
Defined.
